(** * Business-performance chatbot: data generator and question router

    A shallow embedding of the two Python programs of the repository,

    - [Dataset/dataset.py]: the synthetic transaction generator
      ([generate_business_data]), and
    - [Prompt/promt.py]: the keyword classifier ([analyze_question]), the
      eight analysis routines it dispatches to, and the part of the
      Streamlit script that maintains the conversation transcript,

    together with the properties of them that are stated and proved below.

    Modelling conventions.

    - Module [Py] holds the Python built-ins both programs use: [str.lower],
      the substring test [in], [any], and [round].  Strings are Rocq strings
      (byte strings); [lower] acts on the ASCII letters.
    - In [Dataset] the random number generators are explicit state: a tape
      of unit-interval samples for Python's [random] and one for
      [numpy.random], threaded through the loop body by a small state
      monad.  The arithmetic on the drawn values is carried out in exact
      rationals: the rounding error of the float64 operations is not
      modelled there, the roundings the script asks for ([round]) are.
    - In [Prompt] a numeric pandas column holds IEEE-754 binary64 values,
      represented by [spec_float] with the operations of the Standard
      Library's [SpecFloat] at precision 53; NaN and the infinities are
      therefore the real ones.  Exceptions are explicit: every routine
      returns in the monad [res].  A report is kept as the f-string it is
      built from, literal text and formatted fields; a chart as the
      description handed to plotly.

    The modules [Py], [Dataset] and [Prompt] hold the definitions, the
    modules [DatasetSpec] and [PromptSpec] the lemmas and theorems. *)

From Stdlib Require Import ZArith QArith Qround Qabs Lqa String Ascii List Bool Lia.
From Stdlib Require Import Floats.SpecFloat.
From Stdlib Require Import Sorting.Sorted Sorting.Permutation.
From Stdlib Require Import Numbers.DecimalString.
From Stdlib Require Structures.OrderedTypeEx.
From stdpp Require Import base option list gmap strings.
Import ListNotations.

Local Open Scope string_scope.
Local Open Scope list_scope.

(* ================================================================== *)
(** * Python built-ins *)
(* ================================================================== *)

Module Py.

(** ** Strings

    A Python [str] is a sequence of Unicode code points.  It is
    represented by the string of its UTF-8 bytes: two strings are equal,
    and one occurs in the other, exactly when this holds of their
    encodings.  [decode] reads the code points back; a byte that is not
    part of a well-formed sequence (no [str] gives one) is kept as it is,
    apart from the code points. *)

Definition byte (c : ascii) : Z := Z.of_N (N_of_ascii c).
Definition chr_byte (n : Z) : ascii := ascii_of_N (Z.to_N n).

Definition raw (b : Z) : Z := (1114112 + b)%Z.

Definition continuation (n : Z) : bool := ((128 <=? n) && (n <=? 191))%Z.

Definition code_point2 (n0 n1 : Z) : Z := ((n0 - 192) * 64 + (n1 - 128))%Z.
Definition code_point3 (n0 n1 n2 : Z) : Z :=
  ((n0 - 224) * 4096 + (n1 - 128) * 64 + (n2 - 128))%Z.
Definition code_point4 (n0 n1 n2 n3 : Z) : Z :=
  ((n0 - 240) * 262144 + (n1 - 128) * 4096 + (n2 - 128) * 64 + (n3 - 128))%Z.

Definition sequence2 (n0 n1 : Z) : bool :=
  ((194 <=? n0) && (n0 <=? 223))%Z && continuation n1.

Definition sequence3 (n0 n1 n2 : Z) : bool :=
  ((224 <=? n0) && (n0 <=? 239))%Z && continuation n1 && continuation n2 &&
  let c := code_point3 n0 n1 n2 in
  ((2048 <=? c) && negb ((55296 <=? c) && (c <=? 57343)))%Z.

Definition sequence4 (n0 n1 n2 n3 : Z) : bool :=
  ((240 <=? n0) && (n0 <=? 244))%Z && continuation n1 && continuation n2 &&
  continuation n3 &&
  let c := code_point4 n0 n1 n2 n3 in
  ((65536 <=? c) && (c <=? 1114111))%Z.

Fixpoint decode (s : string) : list Z :=
  match s with
  | EmptyString => []
  | String b0 s1 =>
      let n0 := byte b0 in
      let single := (if (n0 <? 128)%Z then n0 else raw n0) :: decode s1 in
      match s1 with
      | EmptyString => single
      | String b1 s2 =>
          let n1 := byte b1 in
          if sequence2 n0 n1 then code_point2 n0 n1 :: decode s2
          else
            match s2 with
            | EmptyString => single
            | String b2 s3 =>
                let n2 := byte b2 in
                if sequence3 n0 n1 n2 then code_point3 n0 n1 n2 :: decode s3
                else
                  match s3 with
                  | EmptyString => single
                  | String b3 s4 =>
                      let n3 := byte b3 in
                      if sequence4 n0 n1 n2 n3
                      then code_point4 n0 n1 n2 n3 :: decode s4
                      else single
                  end
            end
      end
  end.

Definition encode_code_point (c : Z) : string :=
  (if c <? 128 then String (chr_byte c) ""
   else if c <? 2048 then
     String (chr_byte (192 + c / 64)) (String (chr_byte (128 + c mod 64)) "")
   else if c <? 65536 then
     String (chr_byte (224 + c / 4096))
       (String (chr_byte (128 + (c / 64) mod 64))
          (String (chr_byte (128 + c mod 64)) ""))
   else if c <? 1114112 then
     String (chr_byte (240 + c / 262144))
       (String (chr_byte (128 + (c / 4096) mod 64))
          (String (chr_byte (128 + (c / 64) mod 64))
             (String (chr_byte (128 + c mod 64)) "")))
   else String (chr_byte (c - 1114112)) "")%Z.

Fixpoint encode (l : list Z) : string :=
  match l with
  | [] => EmptyString
  | c :: l' => (encode_code_point c ++ encode l')%string
  end.

(** ** [str.lower()]

    The lower-case mapping of the Unicode character database (version
    14.0, the one of Python 3.11), as runs [(first, last, step, delta)]:
    the code points [first], [first + step], ..., [last] move by [delta].
    U+0130 alone maps to two code points, and the capital sigma U+03A3
    depends on its place in the word. *)

Definition lower_runs : list (Z * Z * Z * Z) :=
  [(192, 214, 1, 32); (216, 222, 1, 32); (256, 302, 2, 1);
   (306, 310, 2, 1); (313, 327, 2, 1); (330, 374, 2, 1);
   (376, 376, 1, (-121)); (377, 381, 2, 1); (385, 385, 1, 210);
   (386, 388, 2, 1); (390, 390, 1, 206); (391, 391, 1, 1);
   (393, 394, 1, 205); (395, 395, 1, 1); (398, 398, 1, 79);
   (399, 399, 1, 202); (400, 400, 1, 203); (401, 401, 1, 1);
   (403, 403, 1, 205); (404, 404, 1, 207); (406, 406, 1, 211);
   (407, 407, 1, 209); (408, 408, 1, 1); (412, 412, 1, 211);
   (413, 413, 1, 213); (415, 415, 1, 214); (416, 420, 2, 1);
   (422, 422, 1, 218); (423, 423, 1, 1); (425, 425, 1, 218);
   (428, 428, 1, 1); (430, 430, 1, 218); (431, 431, 1, 1);
   (433, 434, 1, 217); (435, 437, 2, 1); (439, 439, 1, 219);
   (440, 440, 1, 1); (444, 444, 1, 1); (452, 452, 1, 2); (453, 453, 1, 1);
   (455, 455, 1, 2); (456, 456, 1, 1); (458, 458, 1, 2); (459, 475, 2, 1);
   (478, 494, 2, 1); (497, 497, 1, 2); (498, 500, 2, 1);
   (502, 502, 1, (-97)); (503, 503, 1, (-56)); (504, 542, 2, 1);
   (544, 544, 1, (-130)); (546, 562, 2, 1); (570, 570, 1, 10795);
   (571, 571, 1, 1); (573, 573, 1, (-163)); (574, 574, 1, 10792);
   (577, 577, 1, 1); (579, 579, 1, (-195)); (580, 580, 1, 69);
   (581, 581, 1, 71); (582, 590, 2, 1); (880, 882, 2, 1); (886, 886, 1, 1);
   (895, 895, 1, 116); (902, 902, 1, 38); (904, 906, 1, 37);
   (908, 908, 1, 64); (910, 911, 1, 63); (913, 929, 1, 32);
   (932, 939, 1, 32); (975, 975, 1, 8); (984, 1006, 2, 1);
   (1012, 1012, 1, (-60)); (1015, 1015, 1, 1); (1017, 1017, 1, (-7));
   (1018, 1018, 1, 1); (1021, 1023, 1, (-130)); (1024, 1039, 1, 80);
   (1040, 1071, 1, 32); (1120, 1152, 2, 1); (1162, 1214, 2, 1);
   (1216, 1216, 1, 15); (1217, 1229, 2, 1); (1232, 1326, 2, 1);
   (1329, 1366, 1, 48); (4256, 4293, 1, 7264); (4295, 4295, 1, 7264);
   (4301, 4301, 1, 7264); (5024, 5103, 1, 38864); (5104, 5109, 1, 8);
   (7312, 7354, 1, (-3008)); (7357, 7359, 1, (-3008)); (7680, 7828, 2, 1);
   (7838, 7838, 1, (-7615)); (7840, 7934, 2, 1); (7944, 7951, 1, (-8));
   (7960, 7965, 1, (-8)); (7976, 7983, 1, (-8)); (7992, 7999, 1, (-8));
   (8008, 8013, 1, (-8)); (8025, 8031, 2, (-8)); (8040, 8047, 1, (-8));
   (8072, 8079, 1, (-8)); (8088, 8095, 1, (-8)); (8104, 8111, 1, (-8));
   (8120, 8121, 1, (-8)); (8122, 8123, 1, (-74)); (8124, 8124, 1, (-9));
   (8136, 8139, 1, (-86)); (8140, 8140, 1, (-9)); (8152, 8153, 1, (-8));
   (8154, 8155, 1, (-100)); (8168, 8169, 1, (-8)); (8170, 8171, 1, (-112));
   (8172, 8172, 1, (-7)); (8184, 8185, 1, (-128)); (8186, 8187, 1, (-126));
   (8188, 8188, 1, (-9)); (8486, 8486, 1, (-7517));
   (8490, 8490, 1, (-8383)); (8491, 8491, 1, (-8262)); (8498, 8498, 1, 28);
   (8544, 8559, 1, 16); (8579, 8579, 1, 1); (9398, 9423, 1, 26);
   (11264, 11311, 1, 48); (11360, 11360, 1, 1);
   (11362, 11362, 1, (-10743)); (11363, 11363, 1, (-3814));
   (11364, 11364, 1, (-10727)); (11367, 11371, 2, 1);
   (11373, 11373, 1, (-10780)); (11374, 11374, 1, (-10749));
   (11375, 11375, 1, (-10783)); (11376, 11376, 1, (-10782));
   (11378, 11378, 1, 1); (11381, 11381, 1, 1); (11390, 11391, 1, (-10815));
   (11392, 11490, 2, 1); (11499, 11501, 2, 1); (11506, 11506, 1, 1);
   (42560, 42604, 2, 1); (42624, 42650, 2, 1); (42786, 42798, 2, 1);
   (42802, 42862, 2, 1); (42873, 42875, 2, 1); (42877, 42877, 1, (-35332));
   (42878, 42886, 2, 1); (42891, 42891, 1, 1); (42893, 42893, 1, (-42280));
   (42896, 42898, 2, 1); (42902, 42920, 2, 1); (42922, 42922, 1, (-42308));
   (42923, 42923, 1, (-42319)); (42924, 42924, 1, (-42315));
   (42925, 42925, 1, (-42305)); (42926, 42926, 1, (-42308));
   (42928, 42928, 1, (-42258)); (42929, 42929, 1, (-42282));
   (42930, 42930, 1, (-42261)); (42931, 42931, 1, 928);
   (42932, 42946, 2, 1); (42948, 42948, 1, (-48));
   (42949, 42949, 1, (-42307)); (42950, 42950, 1, (-35384));
   (42951, 42953, 2, 1); (42960, 42960, 1, 1); (42966, 42968, 2, 1);
   (42997, 42997, 1, 1); (65313, 65338, 1, 32); (66560, 66599, 1, 40);
   (66736, 66771, 1, 40); (66928, 66938, 1, 39); (66940, 66954, 1, 39);
   (66956, 66962, 1, 39); (66964, 66965, 1, 39); (68736, 68786, 1, 64);
   (71840, 71871, 1, 32); (93760, 93791, 1, 32); (125184, 125217, 1, 34)]%Z.

Definition cased_ranges : list (Z * Z) :=
  [(65, 90); (97, 122); (170, 170); (181, 181); (186, 186); (192, 214);
   (216, 246); (248, 442); (444, 447); (452, 659); (661, 687); (880, 883);
   (886, 887); (891, 893); (895, 895); (902, 902); (904, 906); (908, 908);
   (910, 929); (931, 1013); (1015, 1153); (1162, 1327); (1329, 1366);
   (1376, 1416); (4256, 4293); (4295, 4295); (4301, 4301); (4304, 4346);
   (4349, 4351); (5024, 5109); (5112, 5117); (7296, 7304); (7312, 7354);
   (7357, 7359); (7424, 7467); (7531, 7543); (7545, 7578); (7680, 7957);
   (7960, 7965); (7968, 8005); (8008, 8013); (8016, 8023); (8025, 8025);
   (8027, 8027); (8029, 8029); (8031, 8061); (8064, 8116); (8118, 8124);
   (8126, 8126); (8130, 8132); (8134, 8140); (8144, 8147); (8150, 8155);
   (8160, 8172); (8178, 8180); (8182, 8188); (8450, 8450); (8455, 8455);
   (8458, 8467); (8469, 8469); (8473, 8477); (8484, 8484); (8486, 8486);
   (8488, 8488); (8490, 8493); (8495, 8500); (8505, 8505); (8508, 8511);
   (8517, 8521); (8526, 8526); (8544, 8575); (8579, 8580); (9398, 9449);
   (11264, 11387); (11390, 11492); (11499, 11502); (11506, 11507);
   (11520, 11557); (11559, 11559); (11565, 11565); (42560, 42605);
   (42624, 42651); (42786, 42863); (42865, 42887); (42891, 42894);
   (42896, 42954); (42960, 42961); (42963, 42963); (42965, 42969);
   (42997, 42998); (43002, 43002); (43824, 43866); (43872, 43880);
   (43888, 43967); (64256, 64262); (64275, 64279); (65313, 65338);
   (65345, 65370); (66560, 66639); (66736, 66771); (66776, 66811);
   (66928, 66938); (66940, 66954); (66956, 66962); (66964, 66965);
   (66967, 66977); (66979, 66993); (66995, 67001); (67003, 67004);
   (68736, 68786); (68800, 68850); (71840, 71903); (93760, 93823);
   (119808, 119892); (119894, 119964); (119966, 119967); (119970, 119970);
   (119973, 119974); (119977, 119980); (119982, 119993); (119995, 119995);
   (119997, 120003); (120005, 120069); (120071, 120074); (120077, 120084);
   (120086, 120092); (120094, 120121); (120123, 120126); (120128, 120132);
   (120134, 120134); (120138, 120144); (120146, 120485); (120488, 120512);
   (120514, 120538); (120540, 120570); (120572, 120596); (120598, 120628);
   (120630, 120654); (120656, 120686); (120688, 120712); (120714, 120744);
   (120746, 120770); (120772, 120779); (122624, 122633); (122635, 122654);
   (125184, 125251); (127280, 127305); (127312, 127337); (127344, 127369)]%Z.

Definition case_ignorable_ranges : list (Z * Z) :=
  [(39, 39); (46, 46); (58, 58); (94, 94); (96, 96); (168, 168);
   (173, 173); (175, 175); (180, 180); (183, 184); (688, 879); (884, 885);
   (890, 890); (900, 901); (903, 903); (1155, 1161); (1369, 1369);
   (1375, 1375); (1425, 1469); (1471, 1471); (1473, 1474); (1476, 1477);
   (1479, 1479); (1524, 1524); (1536, 1541); (1552, 1562); (1564, 1564);
   (1600, 1600); (1611, 1631); (1648, 1648); (1750, 1757); (1759, 1768);
   (1770, 1773); (1807, 1807); (1809, 1809); (1840, 1866); (1958, 1968);
   (2027, 2037); (2042, 2042); (2045, 2045); (2070, 2093); (2137, 2139);
   (2184, 2184); (2192, 2193); (2200, 2207); (2249, 2306); (2362, 2362);
   (2364, 2364); (2369, 2376); (2381, 2381); (2385, 2391); (2402, 2403);
   (2417, 2417); (2433, 2433); (2492, 2492); (2497, 2500); (2509, 2509);
   (2530, 2531); (2558, 2558); (2561, 2562); (2620, 2620); (2625, 2626);
   (2631, 2632); (2635, 2637); (2641, 2641); (2672, 2673); (2677, 2677);
   (2689, 2690); (2748, 2748); (2753, 2757); (2759, 2760); (2765, 2765);
   (2786, 2787); (2810, 2815); (2817, 2817); (2876, 2876); (2879, 2879);
   (2881, 2884); (2893, 2893); (2901, 2902); (2914, 2915); (2946, 2946);
   (3008, 3008); (3021, 3021); (3072, 3072); (3076, 3076); (3132, 3132);
   (3134, 3136); (3142, 3144); (3146, 3149); (3157, 3158); (3170, 3171);
   (3201, 3201); (3260, 3260); (3263, 3263); (3270, 3270); (3276, 3277);
   (3298, 3299); (3328, 3329); (3387, 3388); (3393, 3396); (3405, 3405);
   (3426, 3427); (3457, 3457); (3530, 3530); (3538, 3540); (3542, 3542);
   (3633, 3633); (3636, 3642); (3654, 3662); (3761, 3761); (3764, 3772);
   (3782, 3782); (3784, 3789); (3864, 3865); (3893, 3893); (3895, 3895);
   (3897, 3897); (3953, 3966); (3968, 3972); (3974, 3975); (3981, 3991);
   (3993, 4028); (4038, 4038); (4141, 4144); (4146, 4151); (4153, 4154);
   (4157, 4158); (4184, 4185); (4190, 4192); (4209, 4212); (4226, 4226);
   (4229, 4230); (4237, 4237); (4253, 4253); (4348, 4348); (4957, 4959);
   (5906, 5908); (5938, 5939); (5970, 5971); (6002, 6003); (6068, 6069);
   (6071, 6077); (6086, 6086); (6089, 6099); (6103, 6103); (6109, 6109);
   (6155, 6159); (6211, 6211); (6277, 6278); (6313, 6313); (6432, 6434);
   (6439, 6440); (6450, 6450); (6457, 6459); (6679, 6680); (6683, 6683);
   (6742, 6742); (6744, 6750); (6752, 6752); (6754, 6754); (6757, 6764);
   (6771, 6780); (6783, 6783); (6823, 6823); (6832, 6862); (6912, 6915);
   (6964, 6964); (6966, 6970); (6972, 6972); (6978, 6978); (7019, 7027);
   (7040, 7041); (7074, 7077); (7080, 7081); (7083, 7085); (7142, 7142);
   (7144, 7145); (7149, 7149); (7151, 7153); (7212, 7219); (7222, 7223);
   (7288, 7293); (7376, 7378); (7380, 7392); (7394, 7400); (7405, 7405);
   (7412, 7412); (7416, 7417); (7468, 7530); (7544, 7544); (7579, 7679);
   (8125, 8125); (8127, 8129); (8141, 8143); (8157, 8159); (8173, 8175);
   (8189, 8190); (8203, 8207); (8216, 8217); (8228, 8228); (8231, 8231);
   (8234, 8238); (8288, 8292); (8294, 8303); (8305, 8305); (8319, 8319);
   (8336, 8348); (8400, 8432); (11388, 11389); (11503, 11505);
   (11631, 11631); (11647, 11647); (11744, 11775); (11823, 11823);
   (12293, 12293); (12330, 12333); (12337, 12341); (12347, 12347);
   (12441, 12446); (12540, 12542); (40981, 40981); (42232, 42237);
   (42508, 42508); (42607, 42610); (42612, 42621); (42623, 42623);
   (42652, 42655); (42736, 42737); (42752, 42785); (42864, 42864);
   (42888, 42890); (42994, 42996); (43000, 43001); (43010, 43010);
   (43014, 43014); (43019, 43019); (43045, 43046); (43052, 43052);
   (43204, 43205); (43232, 43249); (43263, 43263); (43302, 43309);
   (43335, 43345); (43392, 43394); (43443, 43443); (43446, 43449);
   (43452, 43453); (43471, 43471); (43493, 43494); (43561, 43566);
   (43569, 43570); (43573, 43574); (43587, 43587); (43596, 43596);
   (43632, 43632); (43644, 43644); (43696, 43696); (43698, 43700);
   (43703, 43704); (43710, 43711); (43713, 43713); (43741, 43741);
   (43756, 43757); (43763, 43764); (43766, 43766); (43867, 43871);
   (43881, 43883); (44005, 44005); (44008, 44008); (44013, 44013);
   (64286, 64286); (64434, 64450); (65024, 65039); (65043, 65043);
   (65056, 65071); (65106, 65106); (65109, 65109); (65279, 65279);
   (65287, 65287); (65294, 65294); (65306, 65306); (65342, 65342);
   (65344, 65344); (65392, 65392); (65438, 65439); (65507, 65507);
   (65529, 65531); (66045, 66045); (66272, 66272); (66422, 66426);
   (67456, 67461); (67463, 67504); (67506, 67514); (68097, 68099);
   (68101, 68102); (68108, 68111); (68152, 68154); (68159, 68159);
   (68325, 68326); (68900, 68903); (69291, 69292); (69446, 69456);
   (69506, 69509); (69633, 69633); (69688, 69702); (69744, 69744);
   (69747, 69748); (69759, 69761); (69811, 69814); (69817, 69818);
   (69821, 69821); (69826, 69826); (69837, 69837); (69888, 69890);
   (69927, 69931); (69933, 69940); (70003, 70003); (70016, 70017);
   (70070, 70078); (70089, 70092); (70095, 70095); (70191, 70193);
   (70196, 70196); (70198, 70199); (70206, 70206); (70367, 70367);
   (70371, 70378); (70400, 70401); (70459, 70460); (70464, 70464);
   (70502, 70508); (70512, 70516); (70712, 70719); (70722, 70724);
   (70726, 70726); (70750, 70750); (70835, 70840); (70842, 70842);
   (70847, 70848); (70850, 70851); (71090, 71093); (71100, 71101);
   (71103, 71104); (71132, 71133); (71219, 71226); (71229, 71229);
   (71231, 71232); (71339, 71339); (71341, 71341); (71344, 71349);
   (71351, 71351); (71453, 71455); (71458, 71461); (71463, 71467);
   (71727, 71735); (71737, 71738); (71995, 71996); (71998, 71998);
   (72003, 72003); (72148, 72151); (72154, 72155); (72160, 72160);
   (72193, 72202); (72243, 72248); (72251, 72254); (72263, 72263);
   (72273, 72278); (72281, 72283); (72330, 72342); (72344, 72345);
   (72752, 72758); (72760, 72765); (72767, 72767); (72850, 72871);
   (72874, 72880); (72882, 72883); (72885, 72886); (73009, 73014);
   (73018, 73018); (73020, 73021); (73023, 73029); (73031, 73031);
   (73104, 73105); (73109, 73109); (73111, 73111); (73459, 73460);
   (78896, 78904); (92912, 92916); (92976, 92982); (92992, 92995);
   (94031, 94031); (94095, 94111); (94176, 94177); (94179, 94180);
   (110576, 110579); (110581, 110587); (110589, 110590); (113821, 113822);
   (113824, 113827); (118528, 118573); (118576, 118598); (119143, 119145);
   (119155, 119170); (119173, 119179); (119210, 119213); (119362, 119364);
   (121344, 121398); (121403, 121452); (121461, 121461); (121476, 121476);
   (121499, 121503); (121505, 121519); (122880, 122886); (122888, 122904);
   (122907, 122913); (122915, 122916); (122918, 122922); (123184, 123197);
   (123566, 123566); (123628, 123631); (125136, 125142); (125252, 125259);
   (127995, 127999); (917505, 917505); (917536, 917631); (917760, 917999)]%Z.

Definition in_ranges (c : Z) (ranges : list (Z * Z)) : bool :=
  existsb (fun r => ((fst r <=? c) && (c <=? snd r))%Z) ranges.

(** The code points with the property Cased that are not Case_Ignorable,
    and those that are Case_Ignorable. *)
Definition cased (c : Z) : bool := in_ranges c cased_ranges.
Definition case_ignorable (c : Z) : bool := in_ranges c case_ignorable_ranges.

Definition lower_code_point (c : Z) : list Z :=
  (if c <? 128 then [if (65 <=? c) && (c <=? 90) then c + 32 else c]
   else if c =? 304 then [105; 775]
   else
     match List.find (fun r => let '(first, last, step, _) := r in
                          (first <=? c) && (c <=? last) &&
                          ((c - first) mod step =? 0)) lower_runs with
     | Some (_, _, _, delta) => [c + delta]
     | None => [c]
     end)%Z.

Fixpoint first_not_ignorable (s : list Z) : option Z :=
  match s with
  | [] => None
  | c :: s' => if case_ignorable c then first_not_ignorable s' else Some c
  end.

(** A capital sigma is final when a cased letter precedes it and none
    follows it, case-ignorable code points apart. *)
Definition final_sigma (before after : list Z) : bool :=
  match first_not_ignorable before with
  | Some c =>
      cased c &&
      match first_not_ignorable after with
      | Some d => negb (cased d)
      | None => true
      end
  | None => false
  end.

(** [before] holds the code points already passed, the nearest first. *)
Fixpoint lower_from (before s : list Z) : list Z :=
  match s with
  | [] => []
  | c :: rest =>
      (if (c =? 931)%Z
       then [if final_sigma before rest then 962 else 963]%Z
       else lower_code_point c)
      ++ lower_from (c :: before) rest
  end.

(** [s.lower()] *)
Definition lower (s : string) : string :=
  encode (lower_from [] (decode s)).

(** The lower case of an ASCII character. *)
Definition lower_char (c : ascii) : ascii :=
  let n := byte c in
  if ((65 <=? n) && (n <=? 90))%Z then chr_byte (n + 32) else c.

(** [w] spells the lower-case word [k] in some mix of upper and lower
    case: character by character it is the letter of [k] or its
    capital. *)
Fixpoint spells (k w : string) : bool :=
  match k, w with
  | EmptyString, EmptyString => true
  | String a k', String b w' =>
      (Ascii.eqb a b
       || (((97 <=? byte a) && (byte a <=? 122))%Z
           && (byte b =? byte a - 32)%Z))
      && spells k' w'
  | _, _ => false
  end.

(** [s.startswith(w)] *)
Fixpoint startswith (w s : string) : bool :=
  match w, s with
  | EmptyString, _ => true
  | String _ _, EmptyString => false
  | String a w', String b s' => Ascii.eqb a b && startswith w' s'
  end.

(** [w in s]: [w] occurs in [s] as a contiguous substring. *)
Fixpoint str_in (w s : string) : bool :=
  startswith w s ||
  match s with
  | EmptyString => false
  | String _ s' => str_in w s'
  end.

(** [any(word in s for word in words)] *)
Definition any_in (s : string) (words : list string) : bool :=
  existsb (fun word => str_in word s) words.

(** Round half to even, to an integer: the rule of Python's [round]. *)
Definition round_half_even (x : Q) : Z :=
  let f := Qfloor x in
  match (x - inject_Z f ?= 1 # 2)%Q with
  | Lt => f
  | Gt => (f + 1)%Z
  | Eq => if Z.even f then f else (f + 1)%Z
  end.

(** [round(x, ndigits)] on an exactly represented number. *)
Definition round (x : Q) (ndigits : nat) : Q :=
  let scale := (10 ^ Z.of_nat ndigits)%Z in
  (round_half_even (x * inject_Z scale) # Z.to_pos scale)%Q.

(** [str(n)] for an integer. *)
Definition str_int (n : Z) : string :=
  NilEmpty.string_of_int (Z.to_int n).

End Py.

(* ================================================================== *)
(** * Dataset/dataset.py: the synthetic data generator *)
(* ================================================================== *)

Module Dataset.

Local Open Scope Q_scope.

(** ** Configuration *)

Definition REGIONS : list string := ["North"; "South"; "East"; "West"].
Definition PRODUCT_CATEGORIES : list string :=
  ["Electronics"; "Services"; "Software"; "Apparel"].

(** The dictionary [PRODUCT_NAMES]; a key outside it is a [KeyError]. *)
Definition PRODUCT_NAMES (category : string) : option (list string) :=
  if String.eqb category "Electronics" then
    Some ["Deluxe Widget"; "Smart Monitor"; "E-Reader"; "Wireless Headphones"]
  else if String.eqb category "Services" then
    Some ["Consulting Hour"; "Maintenance Contract"; "Premium Support";
          "Installation Service"]
  else if String.eqb category "Software" then
    Some ["Cloud Subscription"; "Data Analytics Tool"; "ERP Module"; "CRM Suite"]
  else if String.eqb category "Apparel" then
    Some ["T-Shirt"; "Polo Shirt"; "Jacket"; "Hoodie"]
  else None.

Definition CUSTOMER_SEGMENTS : list string := ["Retail"; "Wholesale"; "Online"].
Definition CAMPAIGN_NAMES : list string :=
  ["Spring Promo"; "Summer Sale"; "Holiday Sale"; "Back-to-School"; "Q1 Launch"].

(** ** The two random number generators

    The script draws from Python's [random] module and from [numpy.random].
    Each generator is a tape of the unit-interval samples it will produce
    next; a draw consumes one sample.  [None] is a draw from an exhausted
    tape (or a lookup that raises). *)

Record rng : Type := mk_rng { py_tape : list Q; np_tape : list Q }.

Definition Gen (A : Type) : Type := rng -> option (A * rng).

Definition ret {A} (a : A) : Gen A := fun g => Some (a, g).

Definition bind {A B} (m : Gen A) (k : A -> Gen B) : Gen B :=
  fun g => match m g with
           | Some (a, g') => k a g'
           | None => None
           end.

Definition lift {A} (o : option A) : Gen A :=
  fun g => match o with Some a => Some (a, g) | None => None end.

Notation "x <- m ;; k" := (bind m (fun x => k))
  (at level 100, m at next level, right associativity).

(** [random.random()] *)
Definition py_random : Gen Q := fun g =>
  match py_tape g with
  | u :: t => Some (u, mk_rng t (np_tape g))
  | [] => None
  end.

(** [np.random.random_sample()] *)
Definition np_random_sample : Gen Q := fun g =>
  match np_tape g with
  | u :: t => Some (u, mk_rng (py_tape g) t)
  | [] => None
  end.

(** [random.randint(a, b)]: an integer of the closed range [a..b]. *)
Definition random_randint (a b : Z) : Gen Z :=
  u <- py_random ;;
  ret (a + Qfloor (u * inject_Z (b - a + 1)))%Z.

(** [np.random.randint(low, high)]: an integer of the half-open range. *)
Definition np_randint (low high : Z) : Gen Z :=
  u <- np_random_sample ;;
  ret (low + Qfloor (u * inject_Z (high - low)))%Z.

(** [np.random.uniform(low, high)] is [low + (high - low) * random_sample()]. *)
Definition np_uniform (low high : Q) : Gen Q :=
  u <- np_random_sample ;;
  ret (low + (high - low) * u).

(** Inverse-CDF lookup: the first entry whose cumulated weight exceeds [u]. *)
Fixpoint pick {A} (a : list A) (p : list Q) (u : Q) : option A :=
  match a, p with
  | x :: a', w :: p' =>
      match u ?= w with
      | Lt => Some x
      | _ => pick a' p' (u - w)
      end
  | _, _ => None
  end.

(** [np.random.choice(a, p=p)] *)
Definition np_choice_p {A} (a : list A) (p : list Q) : Gen A :=
  u <- np_random_sample ;;
  lift (pick a p u).

(** [np.random.choice(a)]: a uniformly drawn index. *)
Definition np_choice {A} (a : list A) : Gen A :=
  i <- np_randint 0 (Z.of_nat (length a)) ;;
  lift (nth_error a (Z.to_nat i)).

(** [x / y] on Python floats: a zero divisor raises [ZeroDivisionError]. *)
Definition py_div (x y : Q) : Gen Q :=
  lift (if Qeq_bool y 0 then None else Some (x / y)).

(** ** The body of the generation loop (lines 35-128)

    [Locals] are the variables the loop body assigns, [record] the row it
    appends.  The transaction date is kept as the number of days after
    [START_DATE]; its string rendering and the four calendar fields derived
    from it depend on the clock and are not part of the record here. *)

Record Locals : Type := mk_locals {
  transaction_date : Z;
  region : string;
  category : string;
  product_name : string;
  customer_segment : string;
  campaign_name : string;
  units_sold : Z;
  base_price : Q;
  revenue : Q;
  cost : Q;
  profit : Q;
  profit_margin : Q;
  inventory_level : option Z;
  return_rate : Q;
  order_id : string;
  customer_id : string;
  conversion_rate : Q;
  satisfaction_score : Z;
  avg_order_value : Q
}.

Record record : Type := mk_record {
  Date : Z;
  Region : string;
  Product_Service_Name : string;
  Category_Department : string;
  Revenue : Q;
  Cost : Q;
  Profit : Q;
  Profit_Margin_pct : Q;
  Units_Sold : Z;
  Inventory_Level : option Z;
  Return_Rate_pct : Q;
  Order_ID : string;
  Customer_ID : string;
  Customer_Segment : string;
  Campaign_Name : string;
  Conversion_Rate_pct : Q;
  Customer_Satisfaction_Score : Z;
  Average_Order_Value : Q
}.

Definition is_physical (category : string) : bool :=
  String.eqb category "Electronics" || String.eqb category "Apparel".

Definition loop_locals : Gen Locals :=
  transaction_date <- random_randint 0 540 ;;
  region <- np_choice_p REGIONS [25#100; 25#100; 25#100; 25#100] ;;
  category <- np_choice_p PRODUCT_CATEGORIES [3#10; 2#10; 3#10; 2#10] ;;
  names <- lift (PRODUCT_NAMES category) ;;
  product_name <- np_choice names ;;
  customer_segment <- np_choice_p CUSTOMER_SEGMENTS [4#10; 1#10; 5#10] ;;
  campaign_name <- np_choice CAMPAIGN_NAMES ;;
  units_sold <- np_randint 10 300 ;;
  base_price <-
    (if String.eqb category "Electronics" then np_uniform 150 800
     else if String.eqb category "Software" then np_uniform 500 2500
     else if String.eqb category "Services" then np_uniform 100 600
     else np_uniform 20 150) ;;
  let revenue := inject_Z units_sold * base_price in
  let revenue :=
    if String.eqb region "North" && String.eqb category "Electronics"
    then revenue * (115 # 100) else revenue in
  let revenue :=
    if String.eqb region "South" && String.eqb category "Apparel"
    then revenue * (12 # 10) else revenue in
  let revenue :=
    if Py.str_in "Holiday" campaign_name then revenue * (125 # 100) else revenue in
  let revenue :=
    if Py.str_in "Summer" campaign_name then revenue * (11 # 10) else revenue in
  factor <- np_uniform (5 # 10) (75 # 100) ;;
  let cost := revenue * factor in
  let profit := revenue - cost in
  ratio <- py_div profit revenue ;;
  let profit_margin := Py.round (ratio * 100) 2 in
  inv <-
    (if is_physical category then
       inventory_level <- np_randint 100 5000 ;;
       return_rate <- np_uniform (1 # 100) (1 # 10) ;;
       ret (Some inventory_level, return_rate)
     else ret (None, 0)) ;;
  order_no <- random_randint 100000 999999 ;;
  customer_no <- np_randint 10000 99999 ;;
  conversion_rate <- np_uniform (2 # 100) (15 # 100) ;;
  satisfaction_score <-
    np_choice_p [1; 2; 3; 4; 5]%Z [5#100; 1#10; 2#10; 4#10; 25#100] ;;
  avg_order_value <- py_div revenue (inject_Z units_sold) ;;
  ret {| transaction_date := transaction_date;
         region := region;
         category := category;
         product_name := product_name;
         customer_segment := customer_segment;
         campaign_name := campaign_name;
         units_sold := units_sold;
         base_price := base_price;
         revenue := revenue;
         cost := cost;
         profit := profit;
         profit_margin := profit_margin;
         inventory_level := fst inv;
         return_rate := snd inv;
         order_id := "ORD-" ++ Py.str_int order_no;
         customer_id := "CUST-" ++ Py.str_int customer_no;
         conversion_rate := conversion_rate;
         satisfaction_score := satisfaction_score;
         avg_order_value := avg_order_value |}.

(** The list appended to [records] (lines 104-127). *)
Definition record_of (v : Locals) : record :=
  {| Date := transaction_date v;
     Region := region v;
     Product_Service_Name := product_name v;
     Category_Department := category v;
     Revenue := Py.round (revenue v) 2;
     Cost := Py.round (cost v) 2;
     Profit := Py.round (profit v) 2;
     Profit_Margin_pct := profit_margin v;
     Units_Sold := units_sold v;
     Inventory_Level := inventory_level v;
     Return_Rate_pct := Py.round (return_rate v) 3;
     Order_ID := order_id v;
     Customer_ID := customer_id v;
     Customer_Segment := customer_segment v;
     Campaign_Name := campaign_name v;
     Conversion_Rate_pct := Py.round (conversion_rate v) 3;
     Customer_Satisfaction_Score := satisfaction_score v;
     Average_Order_Value := Py.round (avg_order_value v) 2 |}.

Definition loop_body : Gen record :=
  v <- loop_locals ;; ret (record_of v).

(** [generate_business_data(num_records)], lines 32-130 *)
Fixpoint generate_business_data (num_records : nat) : Gen (list record) :=
  match num_records with
  | O => ret []
  | S n =>
      r <- loop_body ;;
      records <- generate_business_data n ;;
      ret (r :: records)
  end.

(** A generator state is well formed when every sample it holds lies in
    the half-open unit interval. *)
Definition unit_sample (u : Q) : Prop := 0 <= u /\ u < 1.

Definition valid_rng (g : rng) : Prop :=
  Forall unit_sample (py_tape g) /\ Forall unit_sample (np_tape g).

(** [draws m n g g']: from [g] to [g'] the script consumed [m] samples of
    Python's generator and [n] samples of numpy's. *)
Definition draws (m n : nat) (g g' : rng) : Prop :=
  length (py_tape g) = (m + length (py_tape g'))%nat /\
  length (np_tape g) = (n + length (np_tape g'))%nat.

(** ** The record-construction rules as the specification words them *)

(** The category-specific base-price range. *)
Definition spec_price_range (category : string) : option (Q * Q) :=
  if String.eqb category "Electronics" then Some (150, 800)
  else if String.eqb category "Software" then Some (500, 2500)
  else if String.eqb category "Services" then Some (100, 600)
  else if String.eqb category "Apparel" then Some (20, 150)
  else None.

(** The product of the bias factors that apply to a record. *)
Definition spec_bias (region category campaign : string) : Q :=
  (if String.eqb region "North" && String.eqb category "Electronics"
   then 115 # 100 else 1) *
  (if String.eqb region "South" && String.eqb category "Apparel"
   then 12 # 10 else 1) *
  (if Py.str_in "Holiday" campaign then 125 # 100 else 1) *
  (if Py.str_in "Summer" campaign then 11 # 10 else 1).

(** What the loop body establishes about its variables. *)
Record locals_ok (v : Locals) : Prop := mk_locals_ok {
  ok_region : In (region v) REGIONS;
  ok_category : In (category v) PRODUCT_CATEGORIES;
  ok_campaign : In (campaign_name v) CAMPAIGN_NAMES;
  ok_units : (10 <= units_sold v < 300)%Z;
  ok_price : exists lo hi,
      spec_price_range (category v) = Some (lo, hi) /\
      lo <= base_price v /\ base_price v < hi;
  ok_revenue :
      revenue v ==
      inject_Z (units_sold v) * base_price v *
      spec_bias (region v) (category v) (campaign_name v);
  ok_cost : exists factor,
      5 # 10 <= factor /\ factor < 75 # 100 /\ cost v = revenue v * factor;
  ok_profit : profit v = revenue v - cost v;
  ok_margin : profit_margin v = Py.round (profit v / revenue v * 100) 2;
  ok_stock :
      if is_physical (category v) then
        (exists n, inventory_level v = Some n /\ (100 <= n < 5000)%Z) /\
        (exists u, unit_sample u /\ return_rate v = (1 # 100) + ((1 # 10) - (1 # 100)) * u)
      else inventory_level v = None /\ return_rate v = 0
}.

(** ** The properties of a generated record *)

(** Revenue, cost, profit and margin of a record [r]: the loop variables
    [v] it was built from satisfy the stated relations, and the 2-decimal
    roundings that [r] stores keep them up to a cent. *)
Definition financials_ok (r : record) : Prop :=
  exists v : Locals,
    r = record_of v /\
    0 < revenue v /\
    (forall eps, 0 <= eps ->
       (5 # 10) * revenue v - eps <= cost v /\
       cost v <= (75 # 100) * revenue v + eps) /\
    profit v == revenue v - cost v /\
    Profit_Margin_pct r = Py.round (100 * (revenue v - cost v) / revenue v) 2 /\
    Revenue r = Py.round (revenue v) 2 /\
    Cost r = Py.round (cost v) 2 /\
    Profit r = Py.round (revenue v - cost v) 2 /\
    0 < Revenue r /\
    (5 # 10) * Revenue r - (1 # 100) <= Cost r /\
    Cost r <= (75 # 100) * Revenue r + (1 # 100) /\
    Qabs (Profit r - (Revenue r - Cost r)) <= 1 # 100.

(** The revenue rule: units sold times a base price of the category's
    range, times every bias factor that applies. *)
Definition revenue_rule_ok (r : record) : Prop :=
  exists v : Locals,
    r = record_of v /\
    (exists lo hi,
       spec_price_range (Category_Department r) = Some (lo, hi) /\
       lo <= base_price v /\ base_price v <= hi) /\
    revenue v ==
      inject_Z (Units_Sold r) * base_price v *
      spec_bias (Region r) (Category_Department r) (Campaign_Name r) /\
    Revenue r = Py.round (revenue v) 2.

(** Inventory and return rate as first stated: the return rate of a
    physical good lies strictly between 0.01 and 0.1. *)
Definition stock_fields_open_interval (r : record) : Prop :=
  (Inventory_Level r <> None <->
   In (Category_Department r) ["Electronics"; "Apparel"]) /\
  (In (Category_Department r) ["Services"; "Software"] ->
   Return_Rate_pct r == 0) /\
  (In (Category_Department r) ["Electronics"; "Apparel"] ->
   1 # 100 < Return_Rate_pct r /\ Return_Rate_pct r < 1 # 10).

(** Inventory and return rate as the generator produces them: the stored
    return rate of a physical good is the 3-decimal rounding of a draw
    from [0.01, 0.1), and so lies in the closed interval. *)
Definition stock_fields_ok (r : record) : Prop :=
  (Inventory_Level r <> None <->
   In (Category_Department r) ["Electronics"; "Apparel"]) /\
  (In (Category_Department r) ["Services"; "Software"] ->
   Return_Rate_pct r == 0) /\
  (In (Category_Department r) ["Electronics"; "Apparel"] ->
   (exists n, Inventory_Level r = Some n /\ (100 <= n < 5000)%Z) /\
   (exists d, 1 # 100 <= d /\ d < 1 # 10 /\ Return_Rate_pct r = Py.round d 3) /\
   1 # 100 <= Return_Rate_pct r /\ Return_Rate_pct r <= 1 # 10).

(** A state of the generators whose return-rate draw is 0.0999. *)
Definition endpoint_rng : rng :=
  mk_rng [0; 0]
         [0; 0; 0; 0; 0; 0; 0; 0; 0; 899 # 900; 0; 0; 0].

(** A state of the generators used to run the generator on: it draws a
    South/Apparel sale of the Holiday campaign. *)
Definition sample_rng : rng :=
  mk_rng [1 # 2; 1 # 3]
         [3 # 10; 9 # 10; 1 # 2; 1 # 2; 1 # 2; 1 # 2; 1 # 2; 1 # 2; 1 # 2;
          1 # 2; 1 # 2; 1 # 2; 1 # 2].

(** ** Further properties of a generated record *)

(** What the loop body establishes about the variables that the revenue
    rule does not involve. *)
Record locals_fields_ok (v : Locals) : Prop := mk_locals_fields_ok {
  ok_date : (0 <= transaction_date v <= 540)%Z;
  ok_product : exists names,
      PRODUCT_NAMES (category v) = Some names /\ In (product_name v) names;
  ok_segment : In (customer_segment v) CUSTOMER_SEGMENTS;
  ok_order : exists n,
      (100000 <= n <= 999999)%Z /\ order_id v = ("ORD-" ++ Py.str_int n)%string;
  ok_customer : exists n,
      (10000 <= n < 99999)%Z /\ customer_id v = ("CUST-" ++ Py.str_int n)%string;
  ok_conversion : 2 # 100 <= conversion_rate v /\ conversion_rate v < 15 # 100;
  ok_satisfaction : (1 <= satisfaction_score v <= 5)%Z;
  ok_aov : avg_order_value v = revenue v / inject_Z (units_sold v)
}.

(** The categorical and integer fields of a record are drawn from the
    configured lists and ranges, and the product belongs to the category. *)
Definition categorical_fields_ok (r : record) : Prop :=
  (0 <= Date r <= 540)%Z /\
  In (Region r) REGIONS /\
  In (Category_Department r) PRODUCT_CATEGORIES /\
  (exists names,
     PRODUCT_NAMES (Category_Department r) = Some names /\
     In (Product_Service_Name r) names) /\
  In (Customer_Segment r) CUSTOMER_SEGMENTS /\
  In (Campaign_Name r) CAMPAIGN_NAMES /\
  (10 <= Units_Sold r < 300)%Z /\
  (1 <= Customer_Satisfaction_Score r <= 5)%Z /\
  (exists n, (100000 <= n <= 999999)%Z /\ Order_ID r = ("ORD-" ++ Py.str_int n)%string) /\
  (exists n, (10000 <= n < 99999)%Z /\ Customer_ID r = ("CUST-" ++ Py.str_int n)%string).

(** The margin of a record lies between 25 and 50 percent; cost and
    profit are positive and the cost is below the revenue. *)
Definition margin_range_ok (r : record) : Prop :=
  25 <= Profit_Margin_pct r /\ Profit_Margin_pct r <= 50 /\
  0 < Profit r /\ 0 < Cost r /\ Cost r < Revenue r.

(** At most one regional and one campaign factor apply to a record, so
    the revenue is the units times the base price times a factor between
    1 and 1.5; this bounds the revenue, and the average order value is the
    base price times that factor. *)
Definition revenue_bounds_ok (r : record) : Prop :=
  exists (v : Locals) (regional campaign : Q),
    r = record_of v /\
    In regional [1; 115 # 100; 12 # 10] /\
    In campaign [1; 125 # 100; 11 # 10] /\
    revenue v == inject_Z (units_sold v) * base_price v * (regional * campaign) /\
    200 <= revenue v /\ revenue v < 1125000 /\
    200 <= Revenue r /\ Revenue r <= 1125000 /\
    avg_order_value v == base_price v * (regional * campaign) /\
    Average_Order_Value r = Py.round (avg_order_value v) 2 /\
    20 <= Average_Order_Value r /\ Average_Order_Value r <= 3750 /\
    2 # 100 <= Conversion_Rate_pct r /\ Conversion_Rate_pct r <= 15 # 100.

End Dataset.

(* ================================================================== *)
(** * Prompt/promt.py: the question router and its analysis routines *)
(* ================================================================== *)

Module Prompt.

(** ** float64 values *)

Definition float : Type := spec_float.
Definition prec : Z := 53.
Definition emax : Z := 1024.

Definition fadd : float -> float -> float := SFadd prec emax.
Definition fsub : float -> float -> float := SFsub prec emax.
Definition fmul : float -> float -> float := SFmul prec emax.
Definition fdiv : float -> float -> float := SFdiv prec emax.
Definition fleb : float -> float -> bool := SFleb.
Definition fltb : float -> float -> bool := SFltb.

(** The float64 nearest to an integer. *)
Definition of_Z (z : Z) : float := binary_normalize prec emax z 0 false.

Definition nan : float := S754_nan.

(** [np.isnan] *)
Definition isnan (x : float) : bool :=
  match x with S754_nan => true | _ => false end.

(** [np.rint]: the nearest integral value, ties to even. *)
Definition rint (x : float) : float :=
  match x with
  | S754_finite s m e =>
      if (0 <=? e)%Z then x
      else
        let d := (2 ^ (- e))%Z in
        let q := (Z.pos m / d)%Z in
        let r := (Z.pos m mod d)%Z in
        let n := match (2 * r ?= d)%Z with
                 | Lt => q
                 | Gt => (q + 1)%Z
                 | Eq => if Z.even q then q else (q + 1)%Z
                 end in
        binary_normalize prec emax (cond_Zopp s n) 0 s
  | _ => x
  end.

(** [x.round(decimals)] as numpy computes it: scale, [rint], scale back. *)
Definition around (x : float) (decimals : nat) : float :=
  match decimals with
  | O => rint x
  | _ => let f := of_Z (10 ^ Z.of_nat decimals) in fdiv (rint (fmul x f)) f
  end.

(** [x.fillna(0)] on one value *)
Definition fillna0 (x : float) : float :=
  if isnan x then of_Z 0 else x.

(** [s.sum()]: missing values are skipped, the empty sum is 0.  The
    additions are carried out in row order. *)
Definition nansum (xs : list float) : float :=
  fold_left fadd (List.filter (fun x => negb (isnan x)) xs) (of_Z 0).

(** The sum of a group in [groupby(...).sum()] and [.agg('sum')]: missing
    values are skipped and the additions, in row order, are compensated
    (Kahan summation); a compensation that is NaN, as after an infinity,
    is reset to zero. *)
Definition kahan_add (acc : float * float) (val : float) : float * float :=
  let '(sumx, compensation) := acc in
  let y := fsub val compensation in
  let t := fadd sumx y in
  let compensation := fsub (fsub t sumx) y in
  (t, if isnan compensation then of_Z 0 else compensation).

Definition group_sum (xs : list float) : float :=
  fst (fold_left kahan_add (List.filter (fun x => negb (isnan x)) xs)
                 (of_Z 0, of_Z 0)).

(** [s.count()]: the number of values that are not missing. *)
Definition count (xs : list float) : nat :=
  length (List.filter (fun x => negb (isnan x)) xs).

(** [s.mean()]: the mean of the values that are not missing, NaN if there
    are none. *)
Definition mean (xs : list float) : float :=
  fdiv (nansum xs) (of_Z (Z.of_nat (count xs))).

(** The mean of a group in [groupby(...).mean()]: the compensated sum by
    the number of values, NaN if there are none. *)
Definition group_mean (xs : list float) : float :=
  fdiv (group_sum xs) (of_Z (Z.of_nat (count xs))).

(** ** Index labels *)

Record date : Type := mk_date { year : Z; month : Z; day : Z }.

Inductive label : Type :=
| LStr (s : string)          (* a string key *)
| LPeriod (y m : Z)          (* a monthly period, printed YYYY-MM *)
| LNum (x : float).          (* a numeric key *)

Definition label_compare (a b : label) : comparison :=
  match a, b with
  | LStr s, LStr t => String.compare s t
  | LPeriod y m, LPeriod y' m' =>
      match (y ?= y')%Z with Eq => (m ?= m')%Z | c => c end
  | LNum x, LNum y =>
      match SFcompare x y with Some c => c | None => Eq end
  | LStr _, _ => Lt
  | _, LStr _ => Gt
  | LPeriod _ _, _ => Lt
  | _, LPeriod _ _ => Gt
  end.

(** Insertion of a key in a sorted list of distinct keys. *)
Fixpoint insert_key (k : label) (ks : list label) : list label :=
  match ks with
  | [] => [k]
  | k' :: rest =>
      match label_compare k k' with
      | Lt => k :: ks
      | Eq => ks
      | Gt => k' :: insert_key k rest
      end
  end.

(** The group keys of a [groupby]: the distinct keys that are not missing,
    in sorted order. *)
Definition group_keys (keys : list (option label)) : list label :=
  fold_right (fun o acc => match o with
                           | Some k => insert_key k acc
                           | None => acc
                           end) [] keys.

Definition label_eqb (a b : label) : bool :=
  match label_compare a b with Eq => true | _ => false end.

Definition key_is (k : label) (o : option label) : bool :=
  match o with Some k' => label_eqb k k' | None => false end.

(** ** Exceptions *)

Inductive exn : Type :=
| KeyError (missing : list string)
| IndexError
| ValueError
| OverflowError
| AttributeError.

Inductive res (A : Type) : Type :=
| Ok (a : A)
| Raise (e : exn).
Arguments Ok {A} a.
Arguments Raise {A} e.

Definition rbind {A B} (m : res A) (k : A -> res B) : res B :=
  match m with
  | Ok a => k a
  | Raise e => Raise e
  end.

Notation "x <- m ;; k" := (rbind m (fun x => k))
  (at level 100, m at next level, right associativity).

(** ** Tables *)

(** One row of the uploaded table, with the columns the routines read.
    After the load step of the script [Date] is a datetime or missing
    ([None]), the key columns are strings or missing, and the numeric
    columns are float64 with NaN for a missing value.  A field of a column
    that the table does not have is never read. *)
Record Row : Type := mk_row {
  Date : option date;
  Region : option string;
  Product_Service_Name : option string;
  Category_Department : option string;
  Campaign_Name : option string;
  Revenue : float;
  Profit : float;
  Units_Sold : float;
  Inventory_Level : float;
  Customer_Satisfaction_Score : float
}.

Record DataFrame : Type := mk_df {
  columns : list string;
  rows : list Row
}.

(** [c in df.columns] *)
Definition has_column (df : DataFrame) (c : string) : bool :=
  existsb (String.eqb c) (columns df).

(** An aggregated table: an index of labels and float columns. *)
Record Frame : Type := mk_frame {
  index_name : string;
  fcolumns : list string;
  frows : list (label * list float)
}.

(** ** Chart descriptions *)

Inductive chart_kind : Type := Bar | Line | Pie | Scatter.

Record Chart : Type := mk_chart {
  kind : chart_kind;
  title : string;
  data_frame : Frame;
  (* the keyword arguments that bind chart roles to columns *)
  args : list (string * string)
}.

(** ** Report text

    A report is an f-string: literal text with formatted fields.  A field
    keeps the value and its format specification. *)

Inductive piece : Type :=
| Lit (s : string)
| FLabel (l : label)                 (* {region} *)
| FFloat (spec : string) (x : float)  (* {x:spec}; spec "" is {x} *)
| FInt (spec : string) (n : Z)        (* {n:spec} *)
| FDate (d : date).                   (* d.strftime('%Y-%m-%d') *)

Definition Text : Type := list piece.

(** The dictionary a routine returns: ["text"], and possibly ["chart"]
    and ["dataframe"]; [None] is an absent key. *)
Record Result : Type := mk_result {
  text : Text;
  chart : option Chart;
  dataframe : option Frame
}.

Definition only_text (t : Text) : Result :=
  {| text := t; chart := None; dataframe := None |}.

(** A word occurs in a report when it occurs in one of its literals. *)
Definition text_contains (w : string) (t : Text) : bool :=
  existsb (fun p => match p with Lit s => Py.str_in w s | _ => false end) t.

(** ** pandas helpers *)

Definition by_str (f : Row -> option string) (r : Row) : option label :=
  option_map LStr (f r).

(** [dt.to_period('M')] of the [Date] column *)
Definition by_month (r : Row) : option label :=
  option_map (fun d => LPeriod (year d) (month d)) (Date r).

(** The rows of one group. *)
Definition group (keyf : Row -> option label) (k : label) (rs : list Row) : list Row :=
  List.filter (fun r => key_is k (keyf r)) rs.

(** Aggregating a column that the table does not have is a [KeyError]
    that names the missing columns. *)
Definition require_columns (df : DataFrame) (cols : list string) : res unit :=
  match List.filter (fun c => negb (has_column df c)) cols with
  | [] => Ok tt
  | missing => Raise (KeyError missing)
  end.

(** One row of
    [df.groupby(key).agg({'Revenue': 'sum', 'Profit': 'sum',
                          'Units_Sold': 'sum'}).round(2)]. *)
Record sums : Type := mk_sums {
  key : label;
  Revenue_sum : float;
  Profit_sum : float;
  Units_Sold_sum : float
}.

Definition agg_sums (df : DataFrame) (keyf : Row -> option label) : res (list sums) :=
  _ <- require_columns df ["Revenue"; "Profit"; "Units_Sold"] ;;
  Ok (map (fun k =>
             let g := group keyf k (rows df) in
             {| key := k;
                Revenue_sum := around (group_sum (map Revenue g)) 2;
                Profit_sum := around (group_sum (map Profit g)) 2;
                Units_Sold_sum := around (group_sum (map Units_Sold g)) 2 |})
          (group_keys (map keyf (rows df)))).

(** The derived column
    [(data['Profit'] / data['Revenue'] * 100).round(2).fillna(0)]. *)
Definition profit_margin_of (g : sums) : float :=
  fillna0 (around (fmul (fdiv (Profit_sum g) (Revenue_sum g)) (of_Z 100)) 2).

(** [sort_values(column, ascending=False)]: descending, missing values
    last; rows with equal values keep their order. *)
Fixpoint insert_desc {A} (f : A -> float) (a : A) (l : list A) : list A :=
  match l with
  | [] => [a]
  | b :: l' => if fleb (f b) (f a) then a :: l else b :: insert_desc f a l'
  end.

Definition sort_values_desc {A} (f : A -> float) (l : list A) : list A :=
  fold_right (insert_desc f) [] (List.filter (fun a => negb (isnan (f a))) l)
  ++ List.filter (fun a => isnan (f a)) l.

(** Ascending order on values that are not missing. *)
Fixpoint insert_asc (a : float) (l : list float) : list float :=
  match l with
  | [] => [a]
  | b :: l' => if fleb a b then a :: l else b :: insert_asc a l'
  end.

Definition sort_asc (l : list float) : list float :=
  fold_right insert_asc [] l.

(** [index[0]] and [index[-1]]: an empty index is an [IndexError]. *)
Definition first_row {A} (l : list A) : res A :=
  match l with
  | a :: _ => Ok a
  | [] => Raise IndexError
  end.

Definition last_row {A} (l : list A) : res A :=
  match last l with
  | Some a => Ok a
  | None => Raise IndexError
  end.

(** [idxmax()]: the first row with the largest value among those that are
    not missing; there must be one. *)
Fixpoint argmax {A} (f : A -> float) (l : list A) : option A :=
  match l with
  | [] => None
  | a :: l' =>
      if isnan (f a) then argmax f l'
      else match argmax f l' with
           | Some b => if fltb (f a) (f b) then Some b else Some a
           | None => Some a
           end
  end.

Definition idxmax {A} (f : A -> float) (l : list A) : res A :=
  match argmax f l with
  | Some a => Ok a
  | None => Raise ValueError
  end.

(** [s.pct_change()]: missing values are padded with the last valid one,
    then each value is divided by its predecessor, minus one. *)
Fixpoint ffill_from (prev : float) (xs : list float) : list float :=
  match xs with
  | [] => []
  | x :: rest =>
      let v := if isnan x then prev else x in
      v :: ffill_from v rest
  end.

Fixpoint ratios (prev : float) (xs : list float) : list float :=
  match xs with
  | [] => []
  | x :: rest => fsub (fdiv x prev) (of_Z 1) :: ratios x rest
  end.

Definition pct_change (xs : list float) : list float :=
  ratios nan (ffill_from nan xs).

(** [s.quantile(num/den)] by linear interpolation between the two order
    statistics around the position [(n - 1) * num / den]; the values are
    not missing and there is at least one. *)
Definition lerp (a b t : float) : float :=
  if fleb (fdiv (of_Z 1) (of_Z 2)) t
  then fsub b (fmul (fsub b a) (fsub (of_Z 1) t))
  else fadd a (fmul (fsub b a) t).

Definition quantile (xs : list float) (num den : Z) : float :=
  let sorted := sort_asc xs in
  let n := Z.of_nat (length sorted) in
  let pos := ((n - 1) * num)%Z in
  let i := (pos / den)%Z in
  let gamma := fdiv (of_Z (pos mod den)) (of_Z den) in
  let previous := nth (Z.to_nat i) sorted nan in
  let next := nth (Z.to_nat (Z.min (i + 1) (n - 1))) sorted nan in
  lerp previous next gamma.

(** [s.value_counts().sort_index()]: the distinct values that are not
    missing, ascending, each with its number of occurrences. *)
Definition value_counts (xs : list float) : list (float * nat) :=
  let present := List.filter (fun x => negb (isnan x)) xs in
  let keys := group_keys (map (fun x => Some (LNum x)) present) in
  flat_map (fun k => match k with
                     | LNum v => [(v, length (List.filter (fun x => label_eqb k (LNum x)) present))]
                     | _ => []
                     end) keys.

(** [int(x)]: truncation; NaN is a [ValueError], an infinity an
    [OverflowError]. *)
Definition int_of_float (x : float) : res Z :=
  match x with
  | S754_zero _ => Ok 0%Z
  | S754_finite s m e =>
      Ok (cond_Zopp s (if (0 <=? e)%Z then Z.pos m * 2 ^ e else Z.pos m / 2 ^ (- e)))%Z
  | S754_infinity _ => Raise OverflowError
  | S754_nan => Raise ValueError
  end.

(** Smallest and largest date that is not missing. *)
Definition date_leb (a b : date) : bool :=
  match (year a ?= year b)%Z with
  | Lt => true
  | Gt => false
  | Eq => match (month a ?= month b)%Z with
          | Lt => true
          | Gt => false
          | Eq => (day a <=? day b)%Z
          end
  end.

Fixpoint date_min (ds : list (option date)) : option date :=
  match ds with
  | [] => None
  | None :: rest => date_min rest
  | Some d :: rest =>
      match date_min rest with
      | Some m => if date_leb d m then Some d else Some m
      | None => Some d
      end
  end.

Fixpoint date_max (ds : list (option date)) : option date :=
  match ds with
  | [] => None
  | None :: rest => date_max rest
  | Some d :: rest =>
      match date_max rest with
      | Some m => if date_leb m d then Some d else Some m
      | None => Some d
      end
  end.

(** [s.replace('_', ' ')] *)
Fixpoint replace_underscores (s : string) : string :=
  match s with
  | EmptyString => EmptyString
  | String c s' =>
      String (if Ascii.eqb c "_"%char then " "%char else c) (replace_underscores s')
  end.

(** ** The analysis routines

    A label lookup [data.loc[k, column]] whose key [k] was taken from the
    index of [data] itself is written as the field of the row with that
    key: the index of a [groupby] result has no duplicates.  The
    [st.cache_data] decorator memoises a routine and does not change what
    it returns. *)

Definition sums_columns (g : sums) : list float :=
  [Revenue_sum g; Profit_sum g; Units_Sold_sum g].

(** [analyze_regional_performance(df)], lines 106-155 *)
Definition analyze_regional_performance (df : DataFrame) : res Result :=
  if negb (has_column df "Region") || negb (has_column df "Revenue") then
    Ok (only_text
          [Lit "Regional analysis requires 'Region' and 'Revenue' columns in your data."])
  else
    regional_data <- agg_sums df (by_str Region) ;;
    let regional_data := map (fun g => (g, profit_margin_of g)) regional_data in
    let regional_data :=
      sort_values_desc (fun r => Revenue_sum (fst r)) regional_data in
    let table :=
      {| index_name := "Region";
         fcolumns := ["Revenue"; "Profit"; "Units_Sold"; "Profit_Margin"];
         frows := map (fun r => (key (fst r), sums_columns (fst r) ++ [snd r]))
                      regional_data |} in
    let fig :=
      {| kind := Bar;
         title := "Revenue by Region";
         data_frame := table;
         args := [("x", "Region"); ("y", "Revenue"); ("color", "Revenue");
                  ("hover_data", "Profit"); ("hover_data", "Profit_Margin")] |} in
    top <- first_row regional_data ;;
    let top_region := key (fst top) in
    let top_revenue := Revenue_sum (fst top) in
    let total_revenue := nansum (map (fun r => Revenue_sum (fst r)) regional_data) in
    let top_percentage :=
      around (fmul (fdiv top_revenue total_revenue) (of_Z 100)) 1 in
    let text :=
      [Lit "
    ## 📍 Regional Performance Analysis
    
    **Key Insights:**
    - **Top Performing Region:** **";
       FLabel top_region;
       Lit "** ($";
       FFloat ",.0f" top_revenue;
       Lit " - ";
       FFloat "" top_percentage;
       Lit "% of total revenue)
    - **Total Revenue Across All Regions:** $";
       FFloat ",.0f" total_revenue;
       Lit "
    
    **Detailed Breakdown:**
    "] in
    let text :=
      text ++
      flat_map (fun r =>
        let region := key (fst r) in
        let revenue := Revenue_sum (fst r) in
        let margin := snd r in
        [Lit "
- **";
         FLabel region;
         Lit ":** $";
         FFloat ",.0f" revenue;
         Lit " revenue, ";
         FFloat "" margin;
         Lit "% profit margin"]) regional_data in
    Ok {| text := text; chart := Some fig; dataframe := Some table |}.

(** [analyze_monthly_trends(df)], lines 158-215 *)
Definition analyze_monthly_trends (df : DataFrame) : res Result :=
  if negb (has_column df "Date") || negb (has_column df "Revenue") then
    Ok (only_text
          [Lit "Monthly trend analysis requires 'Date' (datetime format) and 'Revenue' columns in your data."])
  else
    monthly_data <- agg_sums df by_month ;;
    let growth :=
      map (fun x => fmul x (of_Z 100)) (pct_change (map Revenue_sum monthly_data)) in
    let monthly_data := combine monthly_data growth in
    let table :=
      {| index_name := "Month";
         fcolumns := ["Revenue"; "Units_Sold"; "Profit"; "Revenue_Growth"];
         frows := map (fun r => (key (fst r),
                                 [Revenue_sum (fst r); Units_Sold_sum (fst r);
                                  Profit_sum (fst r); snd r]))
                      monthly_data |} in
    let fig :=
      {| kind := Line;
         title := "Monthly Revenue Trends";
         data_frame := table;
         args := [("x", "Month"); ("y", "Revenue"); ("mode", "lines+markers");
                  ("name", "Revenue"); ("xaxis_title", "Month");
                  ("yaxis_title", "Revenue ($)"); ("hovermode", "x unified")] |} in
    latest <- last_row monthly_data ;;
    let latest_month := key (fst latest) in
    let latest_revenue := Revenue_sum (fst latest) in
    let latest_growth := snd latest in
    best <- idxmax (fun r => Revenue_sum (fst r)) monthly_data ;;
    let best_month := key (fst best) in
    let best_revenue := Revenue_sum (fst best) in
    let text :=
      [Lit "
    ## 📈 Monthly Revenue Trends Analysis
    
    **Key Insights:**
    - **Latest Month (";
       FLabel latest_month;
       Lit "):** **$";
       FFloat ",.0f" latest_revenue;
       Lit "**
    - **Month-over-Month Growth:** ";
       FFloat ".1f" latest_growth;
       Lit "%
    - **Best Performing Month:** ";
       FLabel best_month;
       Lit " ($";
       FFloat ",.0f" best_revenue;
       Lit ")
    - **Average Monthly Revenue:** $";
       FFloat ",.0f" (mean (map (fun r => Revenue_sum (fst r)) monthly_data));
       Lit "
    
    **Trend Analysis:**
    The chart shows your revenue progression over time. Look for **seasonal patterns** and **growth opportunities**.
    "] in
    Ok {| text := text; chart := Some fig; dataframe := Some table |}.

(** [analyze_profit_margins(df)], lines 218-272 *)
Definition analyze_profit_margins (df : DataFrame) : res Result :=
  if negb (has_column df "Profit") || negb (has_column df "Revenue") then
    Ok (only_text
          [Lit "Profit analysis requires 'Profit' and 'Revenue' columns in your data."])
  else
    let group_col :=
      if has_column df "Product_Service_Name"
      then "Product_Service_Name" else "Category_Department" in
    if negb (has_column df group_col) then
      Ok (only_text
            [Lit "Profit analysis requires a 'Product_Service_Name' or 'Category_Department' column in your data."])
    else
      let keyf :=
        if has_column df "Product_Service_Name"
        then by_str Product_Service_Name else by_str Category_Department in
      profit_data <- agg_sums df keyf ;;
      let profit_data := map (fun g => (g, profit_margin_of g)) profit_data in
      let profit_data := sort_values_desc snd profit_data in
      let table_of := fun l : list (sums * float) =>
        {| index_name := group_col;
           fcolumns := ["Revenue"; "Profit"; "Units_Sold"; "Profit_Margin"];
           frows := map (fun r => (key (fst r), sums_columns (fst r) ++ [snd r])) l |} in
      let df_chart := table_of (firstn 10 profit_data) in
      let fig :=
        {| kind := Bar;
           title := "Top 10 " ++ replace_underscores group_col ++ " by Profit Margin";
           data_frame := df_chart;
           args := [("x", "Profit_Margin"); ("y", group_col); ("orientation", "h");
                    ("color", "Profit_Margin")] |} in
      top <- first_row profit_data ;;
      let top_item := key (fst top) in
      let top_margin := snd top in
      let avg_margin := mean (map snd profit_data) in
      let text :=
        [Lit "
    ## 💰 Profit Margin Analysis
    
    **Key Insights:**
    - **Highest Margin:** **";
         FLabel top_item;
         Lit "** (";
         FFloat "" top_margin;
         Lit "%)
    - **Average Margin:** ";
         FFloat ".1f" avg_margin;
         Lit "%
    - **Focus:** Analyze high-margin products to understand cost structures and pricing strategies.
    
    **Top 5 Performers:**
    "] in
      let text :=
        text ++
        flat_map (fun ir =>
          let i := Z.of_nat (fst ir) in
          let item := key (fst (snd ir)) in
          let margin := snd (snd ir) in
          let revenue := Revenue_sum (fst (snd ir)) in
          [Lit "
";
           FInt "" (i + 1);
           Lit ". **";
           FLabel item;
           Lit ":** ";
           FFloat "" margin;
           Lit "% margin ($";
           FFloat ",.0f" revenue;
           Lit " revenue)"])
          (combine (seq 0 5) (firstn 5 profit_data)) in
      Ok {| text := text; chart := Some fig;
            dataframe := Some (table_of (firstn 10 profit_data)) |}.

(** [analyze_campaign_performance(df)], lines 275-320 *)
Definition analyze_campaign_performance (df : DataFrame) : res Result :=
  if negb (has_column df "Campaign_Name") || negb (has_column df "Revenue") then
    Ok (only_text
          [Lit "Campaign analysis requires 'Campaign_Name' and 'Revenue' columns in your data."])
  else
    campaign_data <- agg_sums df (by_str Campaign_Name) ;;
    let campaign_data :=
      map (fun g =>
             let size := length (group (by_str Campaign_Name) (key g) (rows df)) in
             (g, fillna0 (around (fdiv (Revenue_sum g) (of_Z (Z.of_nat size))) 2)))
          campaign_data in
    let campaign_data :=
      sort_values_desc (fun r => Revenue_sum (fst r)) campaign_data in
    let table :=
      {| index_name := "Campaign_Name";
         fcolumns := ["Revenue"; "Units_Sold"; "Profit"; "Avg_Order_Value"];
         frows := map (fun r => (key (fst r),
                                 [Revenue_sum (fst r); Units_Sold_sum (fst r);
                                  Profit_sum (fst r); snd r]))
                      campaign_data |} in
    let fig :=
      {| kind := Pie;
         title := "Revenue Distribution by Campaign";
         data_frame := table;
         args := [("values", "Revenue"); ("names", "Campaign_Name")] |} in
    best <- first_row campaign_data ;;
    let best_campaign := key (fst best) in
    let best_revenue := Revenue_sum (fst best) in
    let total_revenue := nansum (map (fun r => Revenue_sum (fst r)) campaign_data) in
    let best_percentage :=
      around (fmul (fdiv best_revenue total_revenue) (of_Z 100)) 1 in
    let text :=
      [Lit "
    ## 🎯 Campaign Performance Analysis
    
    **Key Insights:**
    - **Top Campaign:** **";
       FLabel best_campaign;
       Lit "** ($";
       FFloat ",.0f" best_revenue;
       Lit " - ";
       FFloat "" best_percentage;
       Lit "% of total revenue)
    - **Total Campaigns:** ";
       FInt "" (Z.of_nat (length campaign_data));
       Lit "
    - **Total Campaign Revenue:** $";
       FFloat ",.0f" total_revenue;
       Lit "
    
    **Campaign Breakdown:**
    "] in
    let text :=
      text ++
      flat_map (fun r =>
        let campaign := key (fst r) in
        let revenue := Revenue_sum (fst r) in
        let aov := snd r in
        [Lit "
- **";
         FLabel campaign;
         Lit ":** $";
         FFloat ",.0f" revenue;
         Lit " revenue, **$";
         FFloat ".0f" aov;
         Lit "** avg order value"]) campaign_data in
    Ok {| text := text; chart := Some fig; dataframe := Some table |}.

(** [analyze_customer_satisfaction(df)], lines 323-397 *)
Definition analyze_customer_satisfaction (df : DataFrame) : res Result :=
  if negb (has_column df "Customer_Satisfaction_Score") then
    Ok (only_text
          [Lit "Customer satisfaction analysis requires a 'Customer_Satisfaction_Score' column (0-5 scale) in your data."])
  else
    let scores := map Customer_Satisfaction_Score (rows df) in
    let avg_satisfaction := mean scores in
    let satisfaction_counts := value_counts scores in
    if has_column df "Region" then
      let region_satisfaction :=
        map (fun k =>
               (k, around (group_mean (map Customer_Satisfaction_Score
                                           (group (by_str Region) k (rows df)))) 2))
            (group_keys (map (by_str Region) (rows df))) in
      let region_satisfaction := sort_values_desc snd region_satisfaction in
      let fig :=
        {| kind := Bar;
           title := "Average Customer Satisfaction by Region";
           data_frame :=
             {| index_name := "Region";
                fcolumns := ["Customer_Satisfaction_Score"];
                frows := map (fun r => (fst r, [snd r])) region_satisfaction |};
           args := [("x", "Region"); ("y", "Customer_Satisfaction_Score");
                    ("color", "Customer_Satisfaction_Score");
                    ("yaxis_range", "[0, 5]")] |} in
      let text :=
        [Lit "
        ## 😊 Customer Satisfaction Analysis
        
        **Overall Insights:**
        - **Average Satisfaction:** **";
         FFloat ".2f" avg_satisfaction;
         Lit "/5.0**
        - **Total Responses:** ";
         FInt "," (Z.of_nat (length (rows df)));
         Lit "
        
        **By Region:**
        "] in
      let text :=
        text ++
        flat_map (fun r =>
          let region := fst r in
          let score := snd r in
          let emoji :=
            if fleb (of_Z 4) score then "🟢"
            else if fleb (of_Z 3) score then "🟡" else "🔴" in
          [Lit "
";
           Lit emoji;
           Lit " **";
           FLabel region;
           Lit ":** ";
           FFloat "" score;
           Lit "/5.0"]) region_satisfaction in
      Ok {| text := text; chart := Some fig;
            dataframe :=
              Some {| index_name := "Region";
                      fcolumns := ["Avg_Satisfaction"];
                      frows := map (fun r => (fst r, [snd r])) region_satisfaction |} |}
    else
      let fig :=
        {| kind := Bar;
           title := "Customer Satisfaction Score Distribution";
           data_frame :=
             {| index_name := "Score";
                fcolumns := ["Count"];
                frows := map (fun sc => (LNum (fst sc), [of_Z (Z.of_nat (snd sc))]))
                             satisfaction_counts |};
           args := [("x", "Score"); ("y", "Count"); ("color", "Score")] |} in
      let text :=
        [Lit "
        ## 😊 Customer Satisfaction Analysis
        
        **Overall Insights:**
        - **Average Satisfaction:** **";
         FFloat ".2f" avg_satisfaction;
         Lit "/5.0**
        - **Total Responses:** ";
         FInt "," (Z.of_nat (length (rows df)));
         Lit "
        
        **Score Distribution:**
        "] in
      lines <-
        fold_right (fun sc acc =>
          let score := fst sc in
          let count := Z.of_nat (snd sc) in
          let percentage :=
            around (fmul (fdiv (of_Z count) (of_Z (Z.of_nat (length (rows df)))))
                         (of_Z 100)) 1 in
          stars <- int_of_float score ;;
          rest <- acc ;;
          Ok ([Lit "
- **";
               FInt "" stars;
               Lit " stars:** ";
               FInt "," count;
               Lit " responses (";
               FFloat "" percentage;
               Lit "%)"] ++ rest))
          (Ok []) satisfaction_counts ;;
      Ok {| text := text ++ lines; chart := Some fig; dataframe := None |}.

(** The rows with an inventory level:
    [df[df['Inventory_Level'].notna()]]. *)
Definition inventory_rows (df : DataFrame) : list Row :=
  List.filter (fun r => negb (isnan (Inventory_Level r))) (rows df).

(** [inventory_df['Inventory_Level'].quantile(0.25)] *)
Definition low_stock_threshold (inventory_df : list Row) : float :=
  quantile (map Inventory_Level inventory_df) 1 4.

(** [len(inventory_df[inventory_df['Inventory_Level'] <= low_stock_threshold])] *)
Definition low_stock_items_count (inventory_df : list Row) : nat :=
  length (List.filter
            (fun r => fleb (Inventory_Level r) (low_stock_threshold inventory_df))
            inventory_df).

(** [analyze_inventory(df)], lines 400-450 *)
Definition analyze_inventory (df : DataFrame) : res Result :=
  if negb (has_column df "Inventory_Level")
     || negb (has_column df "Category_Department") then
    Ok (only_text
          [Lit "Inventory analysis requires 'Inventory_Level' and 'Category_Department' columns in your data."])
  else
    let inventory_df := inventory_rows df in
    if (length inventory_df =? 0)%nat then
      Ok (only_text [Lit "No inventory data available for analysis."])
    else
      let inventory_by_category :=
        map (fun k =>
               let levels :=
                 map Inventory_Level
                     (group (by_str Category_Department) k inventory_df) in
               (k, (around (group_mean levels) 0, around (group_sum levels) 0,
                    count levels)))
            (group_keys (map (by_str Category_Department) inventory_df)) in
      let inventory_by_category :=
        sort_values_desc (fun r => snd (fst (snd r))) inventory_by_category in
      let table :=
        {| index_name := "Category_Department";
           fcolumns := ["Avg_Inventory"; "Total_Inventory"; "Product_Count"];
           frows := map (fun r => (fst r,
                                   [fst (fst (snd r)); snd (fst (snd r));
                                    of_Z (Z.of_nat (snd (snd r)))]))
                        inventory_by_category |} in
      let fig :=
        {| kind := Bar;
           title := "Total Inventory by Category";
           data_frame := table;
           args := [("x", "Category_Department"); ("y", "Total_Inventory");
                    ("color", "Total_Inventory")] |} in
      let text :=
        [Lit "
    ## 📦 Inventory Analysis
    
    **Overall Insights:**
    - **Total Products with Inventory:** ";
         FInt "," (Z.of_nat (length inventory_df));
         Lit "
    - **Average Inventory Level:** **";
         FFloat ",.0f" (mean (map Inventory_Level inventory_df));
         Lit "** units
    - **Low Stock Risk:** ";
         FInt "," (Z.of_nat (low_stock_items_count inventory_df));
         Lit " items are below the 25th percentile threshold of **";
         FFloat ".0f" (low_stock_threshold inventory_df);
         Lit " units**.
    
    **By Category:**
    "] in
      let text :=
        text ++
        flat_map (fun r =>
          let category := fst r in
          let total := snd (fst (snd r)) in
          let avg := fst (fst (snd r)) in
          let count := Z.of_nat (snd (snd r)) in
          [Lit "
- **";
           FLabel category;
           Lit ":** ";
           FFloat ",.0f" total;
           Lit " total units, ";
           FFloat ",.0f" avg;
           Lit " avg per product (";
           FInt "" count;
           Lit " products)"]) inventory_by_category in
      Ok {| text := text; chart := Some fig; dataframe := Some table |}.

(** [analyze_category_performance(df)], lines 453-505 *)
Definition analyze_category_performance (df : DataFrame) : res Result :=
  if negb (has_column df "Category_Department") || negb (has_column df "Revenue")
     || negb (has_column df "Profit") then
    Ok (only_text
          [Lit "Category analysis requires 'Category_Department', 'Revenue', and 'Profit' columns in your data."])
  else
    category_data <- agg_sums df (by_str Category_Department) ;;
    let category_data :=
      map (fun g =>
             (g, (profit_margin_of g,
                  fillna0 (around (fdiv (Revenue_sum g) (Units_Sold_sum g)) 2))))
          category_data in
    let category_data :=
      sort_values_desc (fun r => Revenue_sum (fst r)) category_data in
    let table :=
      {| index_name := "Category_Department";
         fcolumns := ["Revenue"; "Profit"; "Units_Sold"; "Profit_Margin";
                      "Avg_Unit_Price"];
         frows := map (fun r => (key (fst r),
                                 sums_columns (fst r) ++ [fst (snd r); snd (snd r)]))
                      category_data |} in
    let fig :=
      {| kind := Scatter;
         title := "Category Performance: Revenue vs Profit Margin (Bubble size = Units Sold)";
         data_frame := table;
         args := [("x", "Revenue"); ("y", "Profit_Margin"); ("size", "Units_Sold");
                  ("hover_name", "Category_Department"); ("color", "Profit_Margin")] |} in
    top_revenue <- first_row category_data ;;
    let top_revenue_category := key (fst top_revenue) in
    top_margin <- idxmax (fun r => fst (snd r)) category_data ;;
    let top_margin_category := key (fst top_margin) in
    let text :=
      [Lit "
    ## 🏷️ Category Performance Analysis
    
    **Key Insights:**
    - **Highest Revenue:** **";
       FLabel top_revenue_category;
       Lit "** ($";
       FFloat ",.0f" (Revenue_sum (fst top_revenue));
       Lit ")
    - **Highest Margin:** **";
       FLabel top_margin_category;
       Lit "** (";
       FFloat ".1f" (fst (snd top_margin));
       Lit "%)
    - **Total Categories:** ";
       FInt "" (Z.of_nat (length category_data));
       Lit "
    
    **Category Breakdown:**
    "] in
    let text :=
      text ++
      flat_map (fun r =>
        let category := key (fst r) in
        let revenue := Revenue_sum (fst r) in
        let margin := fst (snd r) in
        let units := Units_Sold_sum (fst r) in
        [Lit "
- **";
         FLabel category;
         Lit ":** $";
         FFloat ",.0f" revenue;
         Lit " revenue, ";
         FFloat ".1f" margin;
         Lit "% margin, ";
         FFloat "," units;
         Lit " units sold"]) category_data in
    Ok {| text := text; chart := Some fig; dataframe := Some table |}.

(** [df.groupby(key)['Revenue'].sum().idxmax()] *)
Definition top_by_revenue (df : DataFrame) (keyf : Row -> option label) : res label :=
  best <-
    idxmax snd
      (map (fun k => (k, group_sum (map Revenue (group keyf k (rows df)))))
           (group_keys (map keyf (rows df)))) ;;
  Ok (fst best).

(** [generate_summary(df)], lines 508-543 *)
Definition generate_summary (df : DataFrame) : res Result :=
  let total_revenue :=
    if has_column df "Revenue" then nansum (map Revenue (rows df)) else of_Z 0 in
  let total_profit :=
    if has_column df "Profit" then nansum (map Profit (rows df)) else of_Z 0 in
  let total_units :=
    if has_column df "Units_Sold" then nansum (map Units_Sold (rows df)) else of_Z 0 in
  let overall_margin :=
    if fltb (of_Z 0) total_revenue
    then fmul (fdiv total_profit total_revenue) (of_Z 100) else of_Z 0 in
  date_range <-
    (if has_column df "Date" && negb (length (rows df) =? 0)%nat then
       match date_min (map Date (rows df)), date_max (map Date (rows df)) with
       | Some lo, Some hi => Ok [FDate lo; Lit " to "; FDate hi]
       | _, _ => Raise ValueError
       end
     else Ok [Lit "Date information not available"]) ;;
  top_region <-
    (if has_column df "Region" && has_column df "Revenue"
     then top_by_revenue df (by_str Region) else Ok (LStr "N/A")) ;;
  top_category <-
    (if has_column df "Category_Department" && has_column df "Revenue"
     then top_by_revenue df (by_str Category_Department) else Ok (LStr "N/A")) ;;
  let text :=
    [Lit "
    ## 📊 Business Performance Summary
    
    **Overall Performance:**
    - **Total Revenue:** **$";
     FFloat ",.0f" total_revenue;
     Lit "**
    - **Total Profit:** **$";
     FFloat ",.0f" total_profit;
     Lit "**
    - **Overall Profit Margin:** **";
     FFloat ".1f" overall_margin;
     Lit "%**
    - **Total Units Sold:** ";
     FFloat "," total_units;
     Lit "
    - **Total Records:** ";
     FInt "," (Z.of_nat (length (rows df)));
     Lit "
    - **Date Range:** "] ++ date_range ++
    [
     Lit "
    
    **Top Performers:**
    - **Best Revenue-Generating Region:** ";
     FLabel top_region;
     Lit "
    - **Best Revenue-Generating Category:** ";
     FLabel top_category;
     Lit "
    
    **💡 Next Steps:**
    Ask me specific questions about regional performance, monthly trends, profit margins, 
    campaign effectiveness, customer satisfaction, or inventory levels for deeper insights!
    "] in
  Ok (only_text text).

(** ** The classifier *)

Definition help_message : Text :=
  [Lit "I can help you analyze various aspects of your business data. Try asking about **regional performance**, **monthly trends**, **profit margins**, **campaign effectiveness**, **customer satisfaction**, or **inventory levels**."].

(** [analyze_question(question, df)], lines 75-103 *)
Definition analyze_question (question : string) (df : DataFrame) : res Result :=
  let question_lower := Py.lower question in
  if Py.any_in question_lower ["region"; "regional"; "geography"; "location"] then
    analyze_regional_performance df
  else if Py.any_in question_lower ["monthly"; "trend"; "time"; "month"; "over time"] then
    analyze_monthly_trends df
  else if Py.any_in question_lower ["profit"; "margin"; "profitability"; "cost"] then
    analyze_profit_margins df
  else if Py.any_in question_lower ["campaign"; "marketing"; "promotion"; "channel"] then
    analyze_campaign_performance df
  else if Py.any_in question_lower ["satisfaction"; "customer"; "rating"; "score"] then
    analyze_customer_satisfaction df
  else if Py.any_in question_lower ["inventory"; "stock"; "warehouse"; "levels"] then
    analyze_inventory df
  else if Py.any_in question_lower ["category"; "product"; "department"; "service"] then
    analyze_category_performance df
  else if Py.any_in question_lower
            ["summary"; "overview"; "general"; "what is the data showing"] then
    generate_summary df
  else
    Ok (only_text help_message).

(** ** The conversation transcript

    [st.session_state] holds the list [messages] of dictionaries and the
    loaded table [data].  A dictionary is a finite map from its keys to
    Python values. *)

Inductive pyval : Type :=
| VNone
| VStr (s : string)
| VText (t : Text)
| VChart (c : Chart)
| VFrame (f : Frame).

Record session : Type := mk_session {
  messages : list (gmap string pyval);
  data : option DataFrame
}.

(** [{"role": "user", "content": q}] *)
Definition user_message (q : string) : gmap string pyval :=
  <["role" := VStr "user"]> (<["content" := VStr q]> ∅).

(** [response.get(k)] for the keys ["chart"] and ["dataframe"]. *)
Definition get_chart (response : Result) : pyval :=
  match chart response with Some c => VChart c | None => VNone end.

Definition get_dataframe (response : Result) : pyval :=
  match dataframe response with Some f => VFrame f | None => VNone end.

(** [{"role": "assistant", "content": response["text"],
      "chart": response.get("chart"),
      "dataframe": response.get("dataframe")}] *)
Definition assistant_message (response : Result) : gmap string pyval :=
  <["role" := VStr "assistant"]>
    (<["content" := VText (text response)]>
       (<["chart" := get_chart response]>
          (<["dataframe" := get_dataframe response]> ∅))).

(** [m["role"] == "user"] *)
Definition is_user (m : gmap string pyval) : bool :=
  match m !! "role" with
  | Some (VStr r) => String.eqb r "user"
  | _ => false
  end.

(** [messages.append(m)] *)
Definition append (m : gmap string pyval) (st : session) : session :=
  {| messages := messages st ++ [m]; data := data st |}.

(** Lines 648-661: when the last message is a question, answer it, append
    the answer, and delete the keys ["chart"] and ["dataframe"] from the
    message at index [-2].  A question is appended only while a table is
    loaded (lines 598 and 642); without one the routines would fail on
    [df.columns], which is the [AttributeError] here. *)
Definition respond (st : session) : res session :=
  match last (messages st) with
  | Some m =>
      if is_user m then
        response <-
          match m !! "content", data st with
          | Some (VStr latest_question), Some df => analyze_question latest_question df
          | _, _ => Raise AttributeError
          end ;;
        let msgs := messages st ++ [assistant_message response] in
        if (length msgs <? 2)%nat then Raise IndexError
        else
          let i := (length msgs - 2)%nat in
          let msgs := alter (delete "chart") i msgs in
          let msgs := alter (delete "dataframe") i msgs in
          Ok {| messages := msgs; data := data st |}
      else Ok st
  | None => Ok st
  end.

(** The quick-question buttons with the columns each one needs
    (lines 602-639). *)
Definition buttons : list (list string * string) :=
  [(["Region"; "Revenue"], "Show me revenue performance by region");
   (["Date"; "Revenue"], "Show me monthly revenue trends");
   (["Profit"; "Revenue"], "Which products have the highest profit margins?");
   (["Campaign_Name"; "Revenue"], "How do different campaigns perform?");
   (["Customer_Satisfaction_Score"], "Show customer satisfaction analysis");
   (["Inventory_Level"; "Category_Department"], "Show inventory levels by category")].

(** What one run of the script receives from the page: the parsed upload
    (if a file is selected), the button that was pressed, and the text of
    the chat input. *)
Record inputs : Type := mk_inputs {
  uploaded_file : option DataFrame;
  pressed : option nat;
  user_input : option string
}.

Definition welcome_message (df : DataFrame) : gmap string pyval :=
  <["role" := VStr "assistant"]>
    (<["content" :=
         VText [Lit "Great! I've loaded your data with ";
                FInt "," (Z.of_nat (length (rows df)));
                Lit " records. What would you like to analyze? You can use the **quick question buttons** above or ask me anything about your business performance data!"]]> ∅).

(** One run of the script: the sidebar stores the parsed upload (lines
    546-562; a file that cannot be parsed leaves the session as it is,
    like no file), a pressed button or a chat input appends a question
    (lines 598-646), the question is answered (lines 648-661), and a
    session with a table and no assistant message yet gets the welcome
    message (lines 679-685).  Drawing the page (lines 664-676) changes
    nothing. *)
Definition run (inp : inputs) (st : session) : res session :=
  let st :=
    match uploaded_file inp with
    | Some df => {| messages := messages st; data := Some df |}
    | None => st
    end in
  let st :=
    match data st, pressed inp with
    | Some df, Some i =>
        match nth_error buttons i with
        | Some (needed, question) =>
            if forallb (has_column df) needed
            then append (user_message question) st else st
        | None => st
        end
    | _, _ => st
    end in
  let st :=
    match data st, user_input inp with
    | Some _, Some q =>
        if String.eqb q "" then st else append (user_message q) st
    | _, _ => st
    end in
  st <- respond st ;;
  match data st with
  | None => Ok st
  | Some df =>
      if forallb is_user (messages st)
      then Ok (append (welcome_message df) st) else Ok st
  end.

(** A sequence of runs. *)
Fixpoint runs (inps : list inputs) (st : session) : res session :=
  match inps with
  | [] => Ok st
  | inp :: rest => st' <- run inp st ;; runs rest st'
  end.

Definition initial_session : session := {| messages := []; data := None |}.

(** A message holds a live payload when the page would draw its chart or
    its table: the key is present and its value is not [None]. *)
Definition live_key (k : string) (m : gmap string pyval) : bool :=
  match m !! k with
  | Some VNone | None => false
  | Some _ => true
  end.

Definition live (m : gmap string pyval) : bool :=
  live_key "chart" m || live_key "dataframe" m.

(** ** The classifier as the specification words it

    An ordered list of (intent, keyword set) pairs; the first pair with a
    keyword contained in the lower-cased question decides. *)

Inductive intent : Type :=
| Regional | Monthly | Margin | Campaign | Satisfaction | Inventory
| Category | Summary.

Definition keyword_sets : list (intent * list string) :=
  [(Regional, ["region"; "regional"; "geography"; "location"]);
   (Monthly, ["monthly"; "trend"; "time"; "month"; "over time"]);
   (Margin, ["profit"; "margin"; "profitability"; "cost"]);
   (Campaign, ["campaign"; "marketing"; "promotion"; "channel"]);
   (Satisfaction, ["satisfaction"; "customer"; "rating"; "score"]);
   (Inventory, ["inventory"; "stock"; "warehouse"; "levels"]);
   (Category, ["category"; "product"; "department"; "service"]);
   (Summary, ["summary"; "overview"; "general"; "what is the data showing"])].

Fixpoint first_match (table : list (intent * list string)) (q : string)
  : option intent :=
  match table with
  | [] => None
  | (i, keywords) :: rest =>
      if Py.any_in q keywords then Some i else first_match rest q
  end.

Definition routine (i : intent) : DataFrame -> res Result :=
  match i with
  | Regional => analyze_regional_performance
  | Monthly => analyze_monthly_trends
  | Margin => analyze_profit_margins
  | Campaign => analyze_campaign_performance
  | Satisfaction => analyze_customer_satisfaction
  | Inventory => analyze_inventory
  | Category => analyze_category_performance
  | Summary => generate_summary
  end.

Definition dispatch (o : option intent) (df : DataFrame) : res Result :=
  match o with
  | Some i => routine i df
  | None => Ok (only_text help_message)
  end.

(** ** Reading a result *)

(** The labels a report mentions, in order. *)
Definition text_labels (t : Text) : list label :=
  flat_map (fun p => match p with FLabel l => [l] | _ => [] end) t.

(** The value of a column in a row of an aggregated table. *)
Definition cell (f : Frame) (row : label * list float) (column : string)
  : option float :=
  match List.find (fun cv => String.eqb (fst cv) column)
                  (combine (fcolumns f) (snd row)) with
  | Some cv => Some (snd cv)
  | None => None
  end.

(** ** The Margin routine's ranking, in the words of its report *)

(** The grouping key of the Margin routine: the product name if the table
    has that column, else the category. *)
Definition margin_key (df : DataFrame) : Row -> option label :=
  if has_column df "Product_Service_Name"
  then by_str Product_Service_Name else by_str Category_Department.

(** The distinct groups of the table. *)
Definition margin_groups (df : DataFrame) : list label :=
  group_keys (map (margin_key df) (rows df)).

(** The row of the returned table for a group and its margin. *)
Definition margin_row (e : sums * float) : label * list float :=
  (key (fst e), sums_columns (fst e) ++ [snd e]).

(** [a] is ranked before [b]: its value is at least that of [b]. *)
Definition before {A} (f : A -> float) (a b : A) : Prop :=
  fleb (f b) (f a) = true.

(** ** The order of float64 values

    [rank] places the values that are not NaN on a lexicographically
    ordered triple: sign class, then exponent, then mantissa. *)
Definition rank (x : float) : Z * Z * Z :=
  match x with
  | S754_nan => (3, 0, 0)
  | S754_infinity false => (2, 0, 0)
  | S754_infinity true => (-2, 0, 0)
  | S754_zero _ => (0, 0, 0)
  | S754_finite false m e => (1, e, Z.pos m)
  | S754_finite true m e => (-1, - e, - Z.pos m)
  end%Z.

Definition lex_le (a b : Z * Z * Z) : Prop :=
  let '(a1, a2, a3) := a in
  let '(b1, b2, b3) := b in
  (a1 < b1 \/ (a1 = b1 /\ (a2 < b2 \/ (a2 = b2 /\ a3 <= b3))))%Z.

(** ** Sample tables *)

Definition sample_row (region product category : string)
    (revenue profit units inventory score : Z) : Row :=
  {| Date := Some (mk_date 2024 3 5);
     Region := Some region;
     Product_Service_Name := Some product;
     Category_Department := Some category;
     Campaign_Name := Some "Spring Promo";
     Revenue := of_Z revenue;
     Profit := of_Z profit;
     Units_Sold := of_Z units;
     Inventory_Level := of_Z inventory;
     Customer_Satisfaction_Score := of_Z score |}.

Definition all_columns : list string :=
  ["Date"; "Region"; "Product_Service_Name"; "Category_Department";
   "Campaign_Name"; "Revenue"; "Profit"; "Units_Sold"; "Inventory_Level";
   "Customer_Satisfaction_Score"].

(** Four sales; the East one has no revenue and a loss of 50. *)
Definition sample_rows : list Row :=
  [sample_row "North" "Deluxe Widget" "Electronics" 1000 250 10 100 4;
   sample_row "South" "T-Shirt" "Apparel" 300 30 3 200 5;
   sample_row "North" "Jacket" "Apparel" 200 20 2 300 3;
   sample_row "East" "Hoodie" "Apparel" 0 (-50) 2 400 3].

Definition sample_df : DataFrame := mk_df all_columns sample_rows.

(** The same rows in a table that has only the two columns the Regional
    routine asks for. *)
Definition region_revenue_df : DataFrame :=
  mk_df ["Region"; "Revenue"] sample_rows.

(** A table without the [Revenue] column. *)
Definition no_revenue_df : DataFrame :=
  mk_df ["Region"; "Profit"; "Units_Sold"] sample_rows.

(** Twelve products with the margins 1%, 2%, ..., 12%. *)
Definition twelve_products : DataFrame :=
  mk_df all_columns
    (map (fun n => sample_row "North" ("P" ++ Py.str_int n) "Electronics"
                              100 n 1 100 4)
         [1; 2; 3; 4; 5; 6; 7; 8; 9; 10; 11; 12]%Z).

(** ** Relations between transcripts *)

(** [m'] is the same turn as [m]: same role and same content. *)
Definition same_turn (m m' : gmap string pyval) : Prop :=
  m' !! "role" = m !! "role" /\ m' !! "content" = m !! "content".

(** The transcript [new] keeps every turn of [old] in its place. *)
Definition keeps_turns (old new : list (gmap string pyval)) : Prop :=
  (length old <= length new)%nat /\
  forall i m, old !! i = Some m -> exists m', new !! i = Some m' /\ same_turn m m'.

(** The table in force during a run: the upload if there is one, else the
    table of the session. *)
Definition table_in_force (inp : inputs) (st : session) : option DataFrame :=
  match uploaded_file inp with
  | Some df => Some df
  | None => data st
  end.

(** The session when the answering step starts: after the sidebar, the
    buttons and the chat input (lines 546-646 of a run). *)
Definition intake (inp : inputs) (st : session) : session :=
  let st :=
    match uploaded_file inp with
    | Some df => {| messages := messages st; data := Some df |}
    | None => st
    end in
  let st :=
    match data st, pressed inp with
    | Some df, Some i =>
        match nth_error buttons i with
        | Some (needed, question) =>
            if forallb (has_column df) needed
            then append (user_message question) st else st
        | None => st
        end
    | _, _ => st
    end in
  match data st, user_input inp with
  | Some _, Some q =>
      if String.eqb q "" then st else append (user_message q) st
  | _, _ => st
  end.

(** The page sends at most one question per run: a button press or a
    chat input. *)
Definition one_question (inp : inputs) : Prop :=
  pressed inp = None \/ user_input inp = None.

(** [q] is a question the page sends in this run while [df] is loaded:
    the chat input, or the question of a pressed button that is offered
    for [df]. *)
Definition asked (inp : inputs) (df : DataFrame) (q : string) : Prop :=
  (user_input inp = Some q /\ q <> "") \/
  exists i needed,
    pressed inp = Some i /\ nth_error buttons i = Some (needed, q) /\
    forallb (has_column df) needed = true.

(** The transcript does not end with a question. *)
Definition answered (msgs : list (gmap string pyval)) : Prop :=
  forall m, last msgs = Some m -> is_user m = false.

(** The shape of a session between two runs: without a table the
    transcript is empty, with one it holds an assistant message, and it
    never ends with a question. *)
Definition session_ok (st : session) : Prop :=
  (data st = None -> messages st = []) /\
  (forall df, data st = Some df -> forallb is_user (messages st) = false) /\
  answered (messages st).

(** ** The guards of the routines *)

(** The columns a routine tests in its first [if]; the Summary has no
    such test. *)
Definition guarded_columns (i : intent) : list string :=
  match i with
  | Regional => ["Region"; "Revenue"]
  | Monthly => ["Date"; "Revenue"]
  | Margin => ["Profit"; "Revenue"]
  | Campaign => ["Campaign_Name"; "Revenue"]
  | Satisfaction => ["Customer_Satisfaction_Score"]
  | Inventory => ["Inventory_Level"; "Category_Department"]
  | Category => ["Category_Department"; "Revenue"; "Profit"]
  | Summary => []
  end.

(** The guards of a routine pass: the tested columns are in the table
    and, for the Margin routine (line 224), a column to group by. *)
Definition guards_pass (i : intent) (df : DataFrame) : bool :=
  forallb (has_column df) (guarded_columns i) &&
  match i with
  | Margin =>
      has_column df "Product_Service_Name" || has_column df "Category_Department"
  | _ => true
  end.

(** The routines that start with
    [groupby(...).agg({'Revenue': 'sum', 'Profit': 'sum', 'Units_Sold': 'sum'})]. *)
Definition aggregates (i : intent) : bool :=
  match i with
  | Regional | Monthly | Margin | Campaign | Category => true
  | Satisfaction | Inventory | Summary => false
  end.

Definition aggregated_columns : list string := ["Revenue"; "Profit"; "Units_Sold"].

(** ** Grouped tables, in the words of their reports *)

(** The aggregated row of the group [k]: the sums of its rows, rounded to
    two decimals. *)
Definition group_sums (df : DataFrame) (keyf : Row -> option label) (k : label)
  : sums :=
  let g := group keyf k (rows df) in
  {| key := k;
     Revenue_sum := around (group_sum (map Revenue g)) 2;
     Profit_sum := around (group_sum (map Profit g)) 2;
     Units_Sold_sum := around (group_sum (map Units_Sold g)) 2 |}.

(** The margin of the group [k] of the Margin routine's input. *)
Definition group_margin (df : DataFrame) (k : label) : float :=
  profit_margin_of (group_sums df (margin_key df) k).

(** [b] does not come before [a] in a descending order with the missing
    values last. *)
Definition not_above {A} (f : A -> float) (a b : A) : Prop :=
  isnan (f b) = true \/ (isnan (f a) = false /\ fleb (f b) (f a) = true).

(** Keys in strictly ascending order. *)
Definition keys_ascending (ks : list label) : Prop :=
  StronglySorted (fun a b => label_compare a b = Lt) ks.

Definition is_str (k : label) : Prop :=
  match k with LStr _ => True | _ => False end.

(** A value that is a number or missing, not an infinity. *)
Definition not_infinite (x : float) : Prop :=
  match x with S754_infinity _ => False | _ => True end.

End Prompt.

Module DatasetSpec.
Import Dataset.
Local Open Scope Q_scope.

Lemma floor_sample_range (u : Q) (n : Z) :
  unit_sample u -> (0 < n)%Z -> (0 <= Qfloor (u * inject_Z n) < n)%Z.
Proof.
  intros [H0 H1] Hn.
  assert (Hn' : 0 < inject_Z n) by (change (inject_Z 0 < inject_Z n); rewrite <- Zlt_Qlt; exact Hn).
  split.
  - change 0%Z with (Qfloor (inject_Z 0)) at 1. 
    apply Qfloor_resp_le. change (inject_Z 0) with 0. nra.
  - rewrite Zlt_Qlt. eapply Qle_lt_trans; [apply Qfloor_le|]. nra.
Qed.

Lemma round_half_even_error (x : Q) :
  Qabs (inject_Z (Py.round_half_even x) - x) <= 1 # 2.
Proof.
  unfold Py.round_half_even.
  pose proof (Qfloor_le x) as Hl. pose proof (Qlt_floor x) as Hu.
  rewrite inject_Z_plus in Hu. change (inject_Z 1) with 1 in Hu.
  apply Qabs_Qle_condition.
  destruct (Qcompare_spec (x - inject_Z (Qfloor x)) (1 # 2)) as [E|E|E].
  - destruct (Z.even (Qfloor x)); [|rewrite inject_Z_plus; change (inject_Z 1) with 1]; split; lra.
  - split; lra.
  - rewrite inject_Z_plus; change (inject_Z 1) with 1. split; lra.
Qed.

Lemma round_half_even_compat (x y : Q) :
  x == y -> Py.round_half_even x = Py.round_half_even y.
Proof.
  intros E. unfold Py.round_half_even.
  rewrite (Qfloor_comp _ _ E).
  replace (x - inject_Z (Qfloor y) ?= 1 # 2) with (y - inject_Z (Qfloor y) ?= 1 # 2);
    [reflexivity|].
  apply Qcompare_comp; [rewrite E|]; reflexivity.
Qed.

Lemma round_compat (x y : Q) (d : nat) : x == y -> Py.round x d = Py.round y d.
Proof.
  intros E. unfold Py.round. cbv zeta.
  f_equal. apply round_half_even_compat. rewrite E; reflexivity.
Qed.

Lemma round_error_scaled (x : Q) (s : positive) :
  Qabs ((Py.round_half_even (x * inject_Z (Zpos s)) # s) - x) <= 1 # (2 * s).
Proof.
  pose proof (round_half_even_error (x * inject_Z (Zpos s))) as H.
  set (z := Py.round_half_even (x * inject_Z (Zpos s))) in *.
  apply Qabs_Qle_condition in H. apply Qabs_Qle_condition.
  assert (Hs : 0 < inject_Z (Zpos s)) by reflexivity.
  assert (E1 : z # s == inject_Z z / inject_Z (Zpos s)) by apply Qmake_Qdiv.
  assert (E2 : 1 # (2 * s) == (1 # 2) / inject_Z (Zpos s)).
  { unfold Qeq, Qdiv, Qinv, Qmult, inject_Z; simpl. lia. }
  rewrite E1, E2. 
  set (q := inject_Z (Zpos s)) in *.
  assert (Hq : / q * q == 1) by (rewrite Qmult_comm; apply Qmult_inv_r; lra).
  unfold Qdiv. set (r := / q) in *.
  assert (Hr : 0 < r) by (apply Qinv_lt_0_compat; exact Hs).
  assert (Hx : x * q * r == x).
  { rewrite <- Qmult_assoc, (Qmult_comm q r), Hq. ring. }
  destruct H as [Ha Hb].
  apply (fun h => Qmult_le_compat_r _ _ r h (Qlt_le_weak _ _ Hr)) in Ha, Hb.
  split; lra.
Qed.

Lemma round2_error (x : Q) : Qabs (Py.round x 2 - x) <= 1 # 200.
Proof. apply (round_error_scaled x 100). Qed.

Lemma round3_error (x : Q) : Qabs (Py.round x 3 - x) <= 1 # 2000.
Proof. apply (round_error_scaled x 1000). Qed.

Lemma bind_Some {A B} (m : Gen A) (k : A -> Gen B) (g g2 : rng) (b : B) :
  bind m k g = Some (b, g2) ->
  exists a g1, m g = Some (a, g1) /\ k a g1 = Some (b, g2).
Proof.
  unfold bind. destruct (m g) as [[a g1]|]; [|discriminate].
  intros H. exists a, g1. split; [reflexivity | exact H].
Qed.

Lemma ret_Some {A} (a b : A) (g g' : rng) : ret a g = Some (b, g') -> b = a /\ g' = g.
Proof. unfold ret. intros H. injection H as <- <-. split; reflexivity. Qed.

Lemma lift_Some {A} (o : option A) (a : A) (g g' : rng) :
  lift o g = Some (a, g') -> o = Some a /\ g' = g.
Proof.
  unfold lift. destruct o; [|discriminate]. intros H. injection H as <- <-.
  split; reflexivity.
Qed.

Lemma py_random_spec (g g' : rng) (u : Q) :
  valid_rng g -> py_random g = Some (u, g') -> unit_sample u /\ valid_rng g'.
Proof.
  intros [Hp Hn]. unfold py_random. destruct (py_tape g) as [|u0 t] eqn:E; [discriminate|].
  intros H. injection H as <- <-. inversion Hp; subst. split; [assumption|].
  split; assumption.
Qed.

Lemma np_random_sample_spec (g g' : rng) (u : Q) :
  valid_rng g -> np_random_sample g = Some (u, g') -> unit_sample u /\ valid_rng g'.
Proof.
  intros [Hp Hn]. unfold np_random_sample.
  destruct (np_tape g) as [|u0 t] eqn:E; [discriminate|].
  intros H. injection H as <- <-. inversion Hn; subst. split; [assumption|].
  split; assumption.
Qed.

Lemma random_randint_spec (a b : Z) (g g' : rng) (n : Z) :
  (a <= b)%Z -> valid_rng g -> random_randint a b g = Some (n, g') ->
  (a <= n <= b)%Z /\ valid_rng g'.
Proof.
  intros Hab Hg H. unfold random_randint in H.
  apply bind_Some in H as (u & g1 & Hu & H).
  apply ret_Some in H as [-> ->].
  apply py_random_spec in Hu as [Hu Hg1]; [|assumption].
  split; [|assumption].
  pose proof (floor_sample_range u (b - a + 1) Hu ltac:(lia)). lia.
Qed.

Lemma np_randint_spec (low high : Z) (g g' : rng) (n : Z) :
  (low < high)%Z -> valid_rng g -> np_randint low high g = Some (n, g') ->
  (low <= n < high)%Z /\ valid_rng g'.
Proof.
  intros Hab Hg H. unfold np_randint in H.
  apply bind_Some in H as (u & g1 & Hu & H).
  apply ret_Some in H as [-> ->].
  apply np_random_sample_spec in Hu as [Hu Hg1]; [|assumption].
  split; [|assumption].
  pose proof (floor_sample_range u (high - low) Hu ltac:(lia)). lia.
Qed.

Lemma np_uniform_spec (low high : Q) (g g' : rng) (x : Q) :
  low < high -> valid_rng g -> np_uniform low high g = Some (x, g') ->
  (exists u, unit_sample u /\ x = low + (high - low) * u) /\
  (low <= x /\ x < high) /\ valid_rng g'.
Proof.
  intros Hlh Hg H. unfold np_uniform in H.
  apply bind_Some in H as (u & g1 & Hu & H).
  apply ret_Some in H as [-> ->].
  apply np_random_sample_spec in Hu as [[Hu0 Hu1] Hg1]; [|assumption].
  split; [exists u; split; [split; assumption | reflexivity]|].
  split; [|assumption]. split; nra.
Qed.

Lemma pick_In {A} (a : list A) (p : list Q) (u : Q) (x : A) :
  pick a p u = Some x -> In x a.
Proof.
  revert p u. induction a as [|y a IH]; intros [|w p] u; simpl; try discriminate.
  destruct (u ?= w).
  - intros H. right. eapply IH; exact H.
  - intros H. injection H as ->. left; reflexivity.
  - intros H. right. eapply IH; exact H.
Qed.

Lemma spec_bias_pos (r c k : string) : 0 < spec_bias r c k.
Proof.
  unfold spec_bias.
  destruct (_ && _), (_ && _), (Py.str_in "Holiday" k), (Py.str_in "Summer" k);
    reflexivity.
Qed.

Lemma np_choice_p_spec {A} (a : list A) (p : list Q) (g g' : rng) (x : A) :
  valid_rng g -> np_choice_p a p g = Some (x, g') -> In x a /\ valid_rng g'.
Proof.
  intros Hg H. unfold np_choice_p in H.
  apply bind_Some in H as (u & g1 & Hu & H).
  apply lift_Some in H as [H ->].
  apply np_random_sample_spec in Hu as [_ Hg1]; [|assumption].
  split; [eapply pick_In; exact H | assumption].
Qed.

Lemma np_choice_spec {A} (a : list A) (g g' : rng) (x : A) :
  valid_rng g -> np_choice a g = Some (x, g') -> In x a /\ valid_rng g'.
Proof.
  intros Hg H. unfold np_choice in H.
  apply bind_Some in H as (i & g1 & Hi & H).
  apply lift_Some in H as [H ->].
  split; [eapply nth_error_In; exact H|].
  unfold np_randint in Hi.
  apply bind_Some in Hi as (u & g2 & Hu & Hi).
  apply ret_Some in Hi as [_ ->].
  apply np_random_sample_spec in Hu as [_ Hg2]; assumption.
Qed.

Lemma py_div_spec (x y q : Q) (g g' : rng) :
  py_div x y g = Some (q, g') -> q = x / y /\ ~ y == 0 /\ g' = g.
Proof.
  unfold py_div. intros H. apply lift_Some in H as [H ->].
  destruct (Qeq_bool y 0) eqn:E; [discriminate|].
  injection H as <-. split; [reflexivity|]. split; [|reflexivity].
  apply Qeq_bool_neq. exact E.
Qed.

Lemma loop_locals_ok (g g' : rng) (v : Locals) :
  valid_rng g -> loop_locals g = Some (v, g') -> locals_ok v /\ valid_rng g'.
Proof.
  intros Hg H. unfold loop_locals in H.
  apply bind_Some in H as (date & g1 & Hdate & H).
  apply random_randint_spec in Hdate as [Hdate Hg1]; [|lia|assumption].
  apply bind_Some in H as (reg & g2 & Hreg & H).
  apply np_choice_p_spec in Hreg as [Hreg Hg2]; [|assumption].
  apply bind_Some in H as (cat & g3 & Hcat & H).
  apply np_choice_p_spec in Hcat as [Hcat Hg3]; [|assumption].
  apply bind_Some in H as (names & g4 & Hnames & H).
  apply lift_Some in Hnames as [Hnames ->].
  apply bind_Some in H as (pname & g5 & Hpname & H).
  apply np_choice_spec in Hpname as [Hpname Hg5]; [|assumption].
  apply bind_Some in H as (seg & g6 & Hseg & H).
  apply np_choice_p_spec in Hseg as [Hseg Hg6]; [|assumption].
  apply bind_Some in H as (camp & g7 & Hcamp & H).
  apply np_choice_spec in Hcamp as [Hcamp Hg7]; [|assumption].
  apply bind_Some in H as (units & g8 & Hunits & H).
  apply np_randint_spec in Hunits as [Hunits Hg8]; [|lia|assumption].
  apply bind_Some in H as (bp & g9 & Hbp & H).
  assert (Hprice : (exists lo hi, spec_price_range cat = Some (lo, hi) /\
                                  lo <= bp /\ bp < hi) /\ valid_rng g9).
  { unfold spec_price_range.
    destruct Hcat as [<-|[<-|[<-|[<-|[]]]]]; simpl in Hbp |- *;
      (apply np_uniform_spec in Hbp as (_ & Hr & Hg9); [|reflexivity|assumption]);
      (split; [|assumption]); eexists _, _; (split; [reflexivity|exact Hr]). }
  destruct Hprice as [Hprice Hg9]. clear Hbp.
  apply bind_Some in H as (factor & g10 & Hfactor & H).
  apply np_uniform_spec in Hfactor as (_ & Hfactor & Hg10); [|reflexivity|assumption].
  apply bind_Some in H as (ratio & g11 & Hratio & H).
  match type of Hratio with
  | py_div (?r - _) ?r _ = _ => set (rev := r) in *
  end.
  apply py_div_spec in Hratio as (-> & Hrev & ->).
  apply bind_Some in H as ([inv rr] & g12 & Hinv & H).
  assert (Hstock : (if is_physical cat then
        (exists n, inv = Some n /\ (100 <= n < 5000)%Z) /\
        (exists u, unit_sample u /\ rr = (1 # 100) + ((1 # 10) - (1 # 100)) * u)
      else inv = None /\ rr = 0) /\ valid_rng g12).
  { destruct (is_physical cat).
    - apply bind_Some in Hinv as (n & g13 & Hn & Hinv).
      apply np_randint_spec in Hn as [Hn Hg13]; [|lia|assumption].
      apply bind_Some in Hinv as (r & g14 & Hr & Hinv).
      apply np_uniform_spec in Hr as (Hr & _ & Hg14); [|reflexivity|assumption].
      apply ret_Some in Hinv as [E ->]. injection E as -> ->.
      split; [|assumption]. split; [exists n; split; [reflexivity|assumption]|exact Hr].
    - apply ret_Some in Hinv as [E ->]. injection E as -> ->.
      split; [split; reflexivity | assumption]. }
  destruct Hstock as [Hstock Hg12]. clear Hinv.
  apply bind_Some in H as (ono & g13 & Hono & H).
  apply random_randint_spec in Hono as [_ Hg13]; [|lia|assumption].
  apply bind_Some in H as (cno & g14 & Hcno & H).
  apply np_randint_spec in Hcno as [_ Hg14]; [|lia|assumption].
  apply bind_Some in H as (conv & g15 & Hconv & H).
  apply np_uniform_spec in Hconv as (_ & _ & Hg15); [|reflexivity|assumption].
  apply bind_Some in H as (sat & g16 & Hsat & H).
  apply np_choice_p_spec in Hsat as [_ Hg16]; [|assumption].
  apply bind_Some in H as (aov & g17 & Haov & H).
  apply py_div_spec in Haov as (-> & _ & ->).
  apply ret_Some in H as [-> ->].
  split; [|assumption].
  constructor; simpl; try assumption.
  - fold rev. unfold rev, spec_bias.
    destruct (_ && _), (_ && _), (Py.str_in "Holiday" camp), (Py.str_in "Summer" camp);
      ring.
  - exists factor. destruct Hfactor. repeat split; assumption.
  - reflexivity.
  - reflexivity.
Qed.

Lemma generate_records_ok (n : nat) (g g' : rng) (records : list record) :
  valid_rng g -> generate_business_data n g = Some (records, g') ->
  Forall (fun r => exists v, locals_ok v /\ r = record_of v) records /\
  length records = n /\ valid_rng g'.
Proof.
  revert g g' records. induction n as [|n IH]; intros g g' records Hg H; simpl in H.
  - apply ret_Some in H as [-> ->]. repeat split; [constructor | apply Hg | apply Hg].
  - apply bind_Some in H as (r & g1 & Hr & H).
    unfold loop_body in Hr. apply bind_Some in Hr as (v & g0 & Hv & Hr).
    apply ret_Some in Hr as [-> ->].
    apply loop_locals_ok in Hv as [Hv Hg0]; [|assumption].
    apply bind_Some in H as (rs & g2 & Hrs & H).
    apply ret_Some in H as [-> ->].
    destruct (IH _ _ _ Hg0 Hrs) as (Hall & Hlen & Hg2).
    split; [|split; [simpl; congruence | assumption]].
    constructor; [exists v; split; [assumption | reflexivity] | assumption].
Qed.

Lemma revenue_lower_bound (v : Locals) : locals_ok v -> 200 <= revenue v.
Proof.
  intros Hv. destruct Hv.
  destruct ok_price0 as (lo & hi & Hr & Hlo & Hhi).
  assert (Hlo' : 20 <= base_price v).
  { unfold spec_price_range in Hr.
    destruct (category v =? "Electronics"); [injection Hr as <- <-; lra|].
    destruct (category v =? "Software"); [injection Hr as <- <-; lra|].
    destruct (category v =? "Services"); [injection Hr as <- <-; lra|].
    destruct (category v =? "Apparel"); [injection Hr as <- <-; lra|discriminate]. }
  assert (Hu : 10 <= inject_Z (units_sold v)).
  { change 10 with (inject_Z 10). rewrite <- Zle_Qle. lia. }
  assert (Hb : 1 <= spec_bias (region v) (category v) (campaign_name v)).
  { unfold spec_bias.
    destruct (_ && _), (_ && _), (Py.str_in "Holiday" _), (Py.str_in "Summer" _);
      discriminate. }
  rewrite ok_revenue0. 
  set (u := inject_Z (units_sold v)) in *. set (b := base_price v) in *.
  set (k := spec_bias _ _ _) in *.
  assert (200 <= u * b) by nra. nra.
Qed.

Lemma round_half_even_floor (x : Q) :
  (Qfloor x <= Py.round_half_even x <= Qfloor x + 1)%Z.
Proof.
  unfold Py.round_half_even.
  destruct (x - inject_Z (Qfloor x) ?= 1 # 2); [destruct (Z.even _)| |]; lia.
Qed.

Lemma Qabs_bound (x e : Q) : Qabs x <= e -> - e <= x /\ x <= e.
Proof. apply Qabs_Qle_condition. Qed.

Lemma round2_cents (x : Q) :
  Py.round x 2 = (Py.round_half_even (x * inject_Z 100) # 100).
Proof. reflexivity. Qed.

(** Three amounts in whole cents that agree up to a cent and a half agree
    up to a cent. *)
Lemma cents_diff (a b c : Z) :
  Qabs ((a # 100) - ((b # 100) - (c # 100))) <= 15 # 1000 ->
  Qabs ((a # 100) - ((b # 100) - (c # 100))) <= 1 # 100.
Proof.
  intros H. apply Qabs_Qle_condition in H. apply Qabs_Qle_condition.
  unfold Qle, Qminus, Qplus, Qopp in *. simpl in *. lia.
Qed.


Lemma sample_rng_valid : valid_rng sample_rng.
Proof.
  split; repeat constructor; lra.
Qed.




Lemma round3_range (d : Q) :
  1 # 100 <= d -> d < 1 # 10 ->
  1 # 100 <= Py.round d 3 /\ Py.round d 3 <= 1 # 10.
Proof.
  intros Hlo Hhi. unfold Py.round. cbv zeta.
  change (10 ^ Z.of_nat 3)%Z with 1000%Z. change (Z.to_pos 1000) with 1000%positive.
  pose proof (round_half_even_floor (d * inject_Z 1000)) as [Ha Hb].
  assert (H10 : (10 <= Qfloor (d * inject_Z 1000))%Z).
  { change 10%Z with (Qfloor (inject_Z 10)). apply Qfloor_resp_le.
    change (inject_Z 10) with 10. change (inject_Z 1000) with 1000. lra. }
  assert (H99 : (Qfloor (d * inject_Z 1000) < 100)%Z).
  { rewrite Zlt_Qlt. eapply Qle_lt_trans; [apply Qfloor_le|].
    change (inject_Z 100) with 100. change (inject_Z 1000) with 1000. lra. }
  set (z := Py.round_half_even _) in *.
  unfold Qle; simpl. lia.
Qed.

(** C7 (amended): in every generated record the inventory level is present
    exactly for Electronics and Apparel; Services and Software have return
    rate 0; Electronics and Apparel store the 3-decimal rounding of a draw
    from [0.01, 0.1), a value of the closed interval [0.01, 0.1]. *)
Theorem generated_stock_fields
    (n : nat) (g g' : rng) (records : list record) :
  valid_rng g ->
  generate_business_data n g = Some (records, g') ->
  Forall stock_fields_ok records.
Proof.
  intros Hg H.
  destruct (generate_records_ok n g g' records Hg H) as (Hall & _ & _).
  eapply Forall_impl; [exact Hall|].
  intros r (v & Hv & ->). destruct Hv.
  unfold stock_fields_ok, record_of;
    cbn [Inventory_Level Category_Department Return_Rate_pct].
  destruct ok_category0 as [E|[E|[E|[E|[]]]]]; rewrite <- E in *;
    cbn [is_physical String.eqb Ascii.eqb Bool.eqb orb] in ok_stock0.
  - (* Electronics *)
    destruct ok_stock0 as [(m & Hm & Hr) (u & [Hu0 Hu1] & Hd)].
    split; [split; [intros _; left; reflexivity | rewrite Hm; discriminate]|].
    split; [intros [F|[F|[]]]; discriminate|].
    intros _. split; [exists m; split; assumption|].
    assert (Hlo : 1 # 100 <= return_rate v) by (rewrite Hd; nra).
    assert (Hhi : return_rate v < 1 # 10) by (rewrite Hd; nra).
    split; [exists (return_rate v); repeat split; assumption|].
    apply round3_range; assumption.
  - (* Services *)
    destruct ok_stock0 as [Hm Hr].
    split; [split; [intros F; contradiction | intros [F|[F|[]]]; discriminate]|].
    split; [intros _; rewrite Hr; reflexivity|].
    intros [F|[F|[]]]; discriminate.
  - (* Software *)
    destruct ok_stock0 as [Hm Hr].
    split; [split; [intros F; contradiction | intros [F|[F|[]]]; discriminate]|].
    split; [intros _; rewrite Hr; reflexivity|].
    intros [F|[F|[]]]; discriminate.
  - (* Apparel *)
    destruct ok_stock0 as [(m & Hm & Hr) (u & [Hu0 Hu1] & Hd)].
    split; [split; [intros _; right; left; reflexivity | rewrite Hm; discriminate]|].
    split; [intros [F|[F|[]]]; discriminate|].
    intros _. split; [exists m; split; assumption|].
    assert (Hlo : 1 # 100 <= return_rate v) by (rewrite Hd; nra).
    assert (Hhi : return_rate v < 1 # 10) by (rewrite Hd; nra).
    split; [exists (return_rate v); repeat split; assumption|].
    apply round3_range; assumption.
Qed.

Lemma generated_stock_fields_witness :
  valid_rng sample_rng /\
  exists records g',
    generate_business_data 1 sample_rng = Some (records, g') /\
    Forall stock_fields_ok records.
Proof.
  split; [exact sample_rng_valid|].
  eexists _, _. split; [lazy; reflexivity|].
  eapply (generated_stock_fields 1 sample_rng);
    [exact sample_rng_valid | lazy; reflexivity].
Defined.

Lemma endpoint_rng_valid : valid_rng endpoint_rng.
Proof.
  split; repeat constructor; lra.
Qed.

(** C7 as first stated fails: with a return-rate draw of 0.0999 the
    generator stores the return rate 0.1 for an Electronics record, which
    is not inside the open interval. *)
Lemma return_rate_open_interval_fails :
  ~ (forall (n : nat) (g g' : rng) (records : list record),
       valid_rng g ->
       generate_business_data n g = Some (records, g') ->
       Forall stock_fields_open_interval records).
Proof.
  intros H.
  assert (E : exists r g', generate_business_data 1 endpoint_rng = Some ([r], g') /\
                Category_Department r = "Electronics" /\
                Return_Rate_pct r == 1 # 10).
  { eexists _, _. split; [lazy; reflexivity|]. split; reflexivity. }
  destruct E as (r & g' & Hrun & Hcat & Hrate).
  specialize (H 1%nat endpoint_rng g' [r] endpoint_rng_valid Hrun).
  inversion H as [|? ? (_ & _ & Hopen) _]; subst.
  destruct Hopen as [_ Hlt]; [rewrite Hcat; left; reflexivity|].
  rewrite Hrate in Hlt. revert Hlt. apply Qlt_irrefl.
Qed.

(** ** The generator runs to completion

    With well-formed generators that hold enough samples the loop body
    succeeds: every lookup finds its entry and no division is by zero. *)

Lemma bind_run {A B} (m : Gen A) (k : A -> Gen B) (g g1 : rng) (a : A) :
  m g = Some (a, g1) -> bind m k g = k a g1.
Proof. unfold bind. intros ->. reflexivity. Qed.

Lemma draws_refl (g : rng) : draws 0 0 g g.
Proof. split; reflexivity. Qed.

Lemma draws_trans (m n m' n' : nat) (g g1 g2 : rng) :
  draws m n g g1 -> draws m' n' g1 g2 -> draws (m + m') (n + n') g g2.
Proof. unfold draws. intros [H1 H2] [H3 H4]. split; lia. Qed.

Lemma py_random_total (g : rng) :
  (1 <= length (py_tape g))%nat ->
  exists u g', py_random g = Some (u, g') /\ draws 1 0 g g'.
Proof.
  unfold py_random, draws. destruct g as [[|u py] np]; simpl; [lia|].
  intros _. eexists _, _. split; [reflexivity|]. split; reflexivity.
Qed.

Lemma np_random_sample_total (g : rng) :
  (1 <= length (np_tape g))%nat ->
  exists u g', np_random_sample g = Some (u, g') /\ draws 0 1 g g'.
Proof.
  unfold np_random_sample, draws. destruct g as [py [|u np]]; simpl; [lia|].
  intros _. eexists _, _. split; [reflexivity|]. split; reflexivity.
Qed.

Lemma random_randint_total (a b : Z) (g : rng) :
  (1 <= length (py_tape g))%nat ->
  exists n g', random_randint a b g = Some (n, g') /\ draws 1 0 g g'.
Proof.
  intros H. destruct (py_random_total g H) as (u & g' & E & D).
  unfold random_randint. rewrite (bind_run _ _ _ _ _ E).
  eexists _, _. split; [reflexivity | exact D].
Qed.

Lemma np_randint_total (low high : Z) (g : rng) :
  (1 <= length (np_tape g))%nat ->
  exists n g', np_randint low high g = Some (n, g') /\ draws 0 1 g g'.
Proof.
  intros H. destruct (np_random_sample_total g H) as (u & g' & E & D).
  unfold np_randint. rewrite (bind_run _ _ _ _ _ E).
  eexists _, _. split; [reflexivity | exact D].
Qed.

Lemma np_uniform_total (low high : Q) (g : rng) :
  (1 <= length (np_tape g))%nat ->
  exists x g', np_uniform low high g = Some (x, g') /\ draws 0 1 g g'.
Proof.
  intros H. destruct (np_random_sample_total g H) as (u & g' & E & D).
  unfold np_uniform. rewrite (bind_run _ _ _ _ _ E).
  eexists _, _. split; [reflexivity | exact D].
Qed.

Lemma pick_total {A} (a : list A) (p : list Q) (u : Q) :
  length a = length p -> 0 <= u -> u < fold_right Qplus 0 p ->
  exists x, pick a p u = Some x.
Proof.
  revert p u. induction a as [|x a IH]; intros [|w p] u Hlen H0 Hu;
    simpl in *; try discriminate.
  - lra.
  - destruct (Qcompare_spec u w) as [E|E|E].
    + apply IH; [congruence | lra | lra].
    + exists x. reflexivity.
    + apply IH; [congruence | lra | lra].
Qed.

Lemma np_choice_p_total {A} (a : list A) (p : list Q) (g : rng) :
  valid_rng g -> (1 <= length (np_tape g))%nat ->
  length a = length p -> fold_right Qplus 0 p == 1 ->
  exists x g', np_choice_p a p g = Some (x, g') /\ draws 0 1 g g'.
Proof.
  intros Hg H Hlen Hsum. destruct (np_random_sample_total g H) as (u & g' & E & D).
  destruct (np_random_sample_spec _ _ _ Hg E) as [[Hu0 Hu1] _].
  destruct (pick_total a p u Hlen Hu0) as [x Hx]; [rewrite Hsum; exact Hu1|].
  unfold np_choice_p. rewrite (bind_run _ _ _ _ _ E). unfold lift. rewrite Hx.
  eexists _, _. split; [reflexivity | exact D].
Qed.

Lemma np_choice_total {A} (a : list A) (g : rng) :
  valid_rng g -> (1 <= length (np_tape g))%nat -> a <> [] ->
  exists x g', np_choice a g = Some (x, g') /\ draws 0 1 g g'.
Proof.
  intros Hg H Ha.
  destruct (np_randint_total 0 (Z.of_nat (length a)) g H) as (i & g' & E & D).
  assert (Hlen : (0 < Z.of_nat (length a))%Z) by (destruct a; [contradiction | simpl; lia]).
  destruct (np_randint_spec _ _ _ _ _ Hlen Hg E) as [Hi _].
  destruct (nth_error a (Z.to_nat i)) as [x|] eqn:Hx.
  - unfold np_choice. rewrite (bind_run _ _ _ _ _ E). unfold lift. rewrite Hx.
    eexists _, _. split; [reflexivity | exact D].
  - apply nth_error_None in Hx. lia.
Qed.

Lemma py_div_total (x y : Q) (g : rng) :
  ~ y == 0 -> py_div x y g = Some (x / y, g).
Proof.
  intros H. unfold py_div, lift.
  destruct (Qeq_bool y 0) eqn:E; [|reflexivity].
  apply Qeq_bool_eq in E. contradiction.
Qed.

Lemma random_randint_step (a b : Z) (g : rng) :
  (a <= b)%Z -> valid_rng g -> (1 <= length (py_tape g))%nat ->
  exists n g', random_randint a b g = Some (n, g') /\
               (a <= n <= b)%Z /\ valid_rng g' /\ draws 1 0 g g'.
Proof.
  intros Hab Hg H. destruct (random_randint_total a b g H) as (n & g' & E & D).
  destruct (random_randint_spec _ _ _ _ _ Hab Hg E) as [Hn Hg'].
  exists n, g'. split; [exact E|]. split; [exact Hn|]. split; assumption.
Qed.

Lemma np_randint_step (low high : Z) (g : rng) :
  (low < high)%Z -> valid_rng g -> (1 <= length (np_tape g))%nat ->
  exists n g', np_randint low high g = Some (n, g') /\
               (low <= n < high)%Z /\ valid_rng g' /\ draws 0 1 g g'.
Proof.
  intros Hab Hg H. destruct (np_randint_total low high g H) as (n & g' & E & D).
  destruct (np_randint_spec _ _ _ _ _ Hab Hg E) as [Hn Hg'].
  exists n, g'. split; [exact E|]. split; [exact Hn|]. split; assumption.
Qed.

Lemma np_uniform_step (low high : Q) (g : rng) :
  low < high -> valid_rng g -> (1 <= length (np_tape g))%nat ->
  exists x g', np_uniform low high g = Some (x, g') /\
               (low <= x /\ x < high) /\ valid_rng g' /\ draws 0 1 g g'.
Proof.
  intros Hab Hg H. destruct (np_uniform_total low high g H) as (x & g' & E & D).
  destruct (np_uniform_spec _ _ _ _ _ Hab Hg E) as (_ & Hx & Hg').
  exists x, g'. split; [exact E|]. split; [exact Hx|]. split; assumption.
Qed.

Lemma np_choice_p_step {A} (a : list A) (p : list Q) (g : rng) :
  length a = length p -> fold_right Qplus 0 p == 1 ->
  valid_rng g -> (1 <= length (np_tape g))%nat ->
  exists x g', np_choice_p a p g = Some (x, g') /\
               In x a /\ valid_rng g' /\ draws 0 1 g g'.
Proof.
  intros Hlen Hsum Hg H.
  destruct (np_choice_p_total a p g Hg H Hlen Hsum) as (x & g' & E & D).
  destruct (np_choice_p_spec _ _ _ _ _ Hg E) as [Hx Hg'].
  exists x, g'. split; [exact E|]. split; [exact Hx|]. split; assumption.
Qed.

Lemma np_choice_step {A} (a : list A) (g : rng) :
  a <> [] -> valid_rng g -> (1 <= length (np_tape g))%nat ->
  exists x g', np_choice a g = Some (x, g') /\
               In x a /\ valid_rng g' /\ draws 0 1 g g'.
Proof.
  intros Ha Hg H.
  destruct (np_choice_total a g Hg H Ha) as (x & g' & E & D).
  destruct (np_choice_spec _ _ _ _ Hg E) as [Hx Hg'].
  exists x, g'. split; [exact E|]. split; [exact Hx|]. split; assumption.
Qed.

Lemma product_names_found (category : string) :
  In category PRODUCT_CATEGORIES ->
  exists names, PRODUCT_NAMES category = Some names /\ names <> [].
Proof.
  intros [<-|[<-|[<-|[<-|[]]]]]; eexists; (split; [reflexivity | discriminate]).
Qed.

Lemma base_price_step (category : string) (g : rng) :
  valid_rng g -> (1 <= length (np_tape g))%nat ->
  exists x g',
    (if String.eqb category "Electronics" then np_uniform 150 800
     else if String.eqb category "Software" then np_uniform 500 2500
     else if String.eqb category "Services" then np_uniform 100 600
     else np_uniform 20 150) g = Some (x, g') /\
    20 <= x /\ valid_rng g' /\ draws 0 1 g g'.
Proof.
  intros Hg H.
  destruct (String.eqb category "Electronics");
    [|destruct (String.eqb category "Software");
      [|destruct (String.eqb category "Services")]];
  match goal with
  | |- context [np_uniform ?lo ?hi g] =>
      destruct (np_uniform_step lo hi g) as (x & g' & E & [Hx _] & Hg' & D);
        [reflexivity | assumption | assumption |]
  end;
  exists x, g'; (split; [exact E|]); (split; [lra|]); split; assumption.
Qed.

Lemma stock_step (category : string) (g : rng) :
  valid_rng g -> (2 <= length (np_tape g))%nat ->
  exists inv g' n,
    (if is_physical category then
       inventory_level <- np_randint 100 5000 ;;
       return_rate <- np_uniform (1 # 100) (1 # 10) ;;
       ret (Some inventory_level, return_rate)
     else ret (None, 0)) g = Some (inv, g') /\
    valid_rng g' /\ draws 0 n g g' /\ (n <= 2)%nat.
Proof.
  intros Hg H. destruct (is_physical category).
  - destruct (np_randint_step 100 5000 g) as (n & g1 & E1 & _ & Hg1 & D1);
      [lia | assumption | lia|].
    destruct (np_uniform_step (1 # 100) (1 # 10) g1) as (x & g2 & E2 & _ & Hg2 & D2);
      [reflexivity | assumption | unfold draws in *; lia|].
    rewrite (bind_run _ _ _ _ _ E1), (bind_run _ _ _ _ _ E2).
    eexists _, _, 2%nat. split; [reflexivity|]. split; [assumption|].
    split; [apply (draws_trans 0 1 0 1 _ _ _ D1 D2) | lia].
  - eexists _, _, 0%nat. split; [reflexivity|]. split; [assumption|].
    split; [apply draws_refl | lia].
Qed.

(** One pass of the loop body succeeds on well-formed generators that
    hold two samples for Python's generator and thirteen for numpy's. *)
Lemma loop_locals_total (g : rng) :
  valid_rng g ->
  (2 <= length (py_tape g))%nat -> (13 <= length (np_tape g))%nat ->
  exists v g' n,
    loop_locals g = Some (v, g') /\ valid_rng g' /\ draws 2 n g g' /\ (n <= 13)%nat.
Proof.
  intros Hg Hpy Hnp. unfold loop_locals.
  destruct (random_randint_step 0 540 g) as (date & g1 & E1 & _ & Hg1 & D1);
    [lia | assumption | lia|].
  rewrite (bind_run _ _ _ _ _ E1).
  destruct (np_choice_p_step REGIONS [25#100; 25#100; 25#100; 25#100] g1)
    as (reg & g2 & E2 & Hreg & Hg2 & D2);
    [reflexivity | reflexivity | assumption | unfold draws in *; lia|].
  rewrite (bind_run _ _ _ _ _ E2).
  destruct (np_choice_p_step PRODUCT_CATEGORIES [3#10; 2#10; 3#10; 2#10] g2)
    as (cat & g3 & E3 & Hcat & Hg3 & D3);
    [reflexivity | reflexivity | assumption | unfold draws in *; lia|].
  rewrite (bind_run _ _ _ _ _ E3).
  destruct (product_names_found cat Hcat) as (names & Hnames & Hne).
  unfold bind at 1, lift at 1. rewrite Hnames.
  destruct (np_choice_step names g3) as (pname & g4 & E4 & _ & Hg4 & D4);
    [assumption | assumption | unfold draws in *; lia|].
  rewrite (bind_run _ _ _ _ _ E4).
  destruct (np_choice_p_step CUSTOMER_SEGMENTS [4#10; 1#10; 5#10] g4)
    as (seg & g5 & E5 & _ & Hg5 & D5);
    [reflexivity | reflexivity | assumption | unfold draws in *; lia|].
  rewrite (bind_run _ _ _ _ _ E5).
  destruct (np_choice_step CAMPAIGN_NAMES g5) as (camp & g6 & E6 & _ & Hg6 & D6);
    [discriminate | assumption | unfold draws in *; lia|].
  rewrite (bind_run _ _ _ _ _ E6).
  destruct (np_randint_step 10 300 g6) as (units & g7 & E7 & Hunits & Hg7 & D7);
    [lia | assumption | unfold draws in *; lia|].
  rewrite (bind_run _ _ _ _ _ E7).
  destruct (base_price_step cat g7) as (bp & g8 & E8 & Hbp & Hg8 & D8);
    [assumption | unfold draws in *; lia|].
  rewrite (bind_run _ _ _ _ _ E8). cbv zeta.
  destruct (np_uniform_step (5 # 10) (75 # 100) g8) as (fac & g9 & E9 & _ & Hg9 & D9);
    [reflexivity | assumption | unfold draws in *; lia|].
  rewrite (bind_run _ _ _ _ _ E9).
  assert (Hu : 10 <= inject_Z units).
  { change 10 with (inject_Z 10). rewrite <- Zle_Qle. lia. }
  match goal with
  | |- context [py_div (?r - _) ?r] => set (rev := r)
  end.
  assert (Hrev : 0 < rev).
  { assert (0 < inject_Z units * bp) by nra.
    unfold rev.
    destruct (_ && _), (_ && _), (Py.str_in "Holiday" camp), (Py.str_in "Summer" camp);
      lra. }
  unfold bind at 1. rewrite py_div_total by lra.
  destruct (stock_step cat g9) as (inv & g10 & k & E10 & Hg10 & D10 & Hk);
    [assumption | unfold draws in *; lia|].
  rewrite (bind_run _ _ _ _ _ E10).
  destruct (random_randint_step 100000 999999 g10) as (ono & g11 & E11 & _ & Hg11 & D11);
    [lia | assumption | unfold draws in *; lia|].
  rewrite (bind_run _ _ _ _ _ E11).
  destruct (np_randint_step 10000 99999 g11) as (cno & g12 & E12 & _ & Hg12 & D12);
    [lia | assumption | unfold draws in *; lia|].
  rewrite (bind_run _ _ _ _ _ E12).
  destruct (np_uniform_step (2 # 100) (15 # 100) g12) as (conv & g13 & E13 & _ & Hg13 & D13);
    [reflexivity | assumption | unfold draws in *; lia|].
  rewrite (bind_run _ _ _ _ _ E13).
  destruct (np_choice_p_step [1; 2; 3; 4; 5]%Z [5#100; 1#10; 2#10; 4#10; 25#100] g13)
    as (sat & g14 & E14 & _ & Hg14 & D14);
    [reflexivity | reflexivity | assumption | unfold draws in *; lia|].
  rewrite (bind_run _ _ _ _ _ E14).
  unfold bind at 1. rewrite py_div_total by lra.
  eexists _, g14, (11 + k)%nat. split; [reflexivity|]. split; [assumption|].
  split; [unfold draws in *; lia | lia].
Qed.

(** The generator returns [num_records] records whenever the generators
    are well formed and hold two samples of Python's generator and
    thirteen of numpy's for each record. *)
Lemma generate_business_data_total (num_records : nat) (g : rng) :
  valid_rng g ->
  (2 * num_records <= length (py_tape g))%nat ->
  (13 * num_records <= length (np_tape g))%nat ->
  exists records g',
    generate_business_data num_records g = Some (records, g') /\
    length records = num_records.
Proof.
  revert g. induction num_records as [|n IH]; intros g Hg Hpy Hnp; simpl.
  - eexists _, _. split; reflexivity.
  - destruct (loop_locals_total g Hg) as (v & g1 & k & E & Hg1 & D & Hk); [lia | lia|].
    destruct (IH g1 Hg1) as (records & g2 & E2 & Hlen);
      [unfold draws in D; lia | unfold draws in D; lia|].
    unfold loop_body.
    unfold bind at 1. unfold bind at 1. rewrite E. unfold ret at 1.
    rewrite (bind_run _ _ _ _ _ E2).
    eexists _, _. split; [reflexivity|]. simpl. congruence.
Qed.

(** ** Further properties of the generated records *)

Lemma loop_locals_fields (g g' : rng) (v : Locals) :
  valid_rng g -> loop_locals g = Some (v, g') -> locals_fields_ok v.
Proof.
  intros Hg H. unfold loop_locals in H.
  apply bind_Some in H as (date & g1 & Hdate & H).
  apply random_randint_spec in Hdate as [Hdate Hg1]; [|lia|assumption].
  apply bind_Some in H as (reg & g2 & Hreg & H).
  apply np_choice_p_spec in Hreg as [_ Hg2]; [|assumption].
  apply bind_Some in H as (cat & g3 & Hcat & H).
  apply np_choice_p_spec in Hcat as [_ Hg3]; [|assumption].
  apply bind_Some in H as (names & g4 & Hnames & H).
  apply lift_Some in Hnames as [Hnames ->].
  apply bind_Some in H as (pname & g5 & Hpname & H).
  apply np_choice_spec in Hpname as [Hpname Hg5]; [|assumption].
  apply bind_Some in H as (seg & g6 & Hseg & H).
  apply np_choice_p_spec in Hseg as [Hseg Hg6]; [|assumption].
  apply bind_Some in H as (camp & g7 & Hcamp & H).
  apply np_choice_spec in Hcamp as [_ Hg7]; [|assumption].
  apply bind_Some in H as (units & g8 & Hunits & H).
  apply np_randint_spec in Hunits as [_ Hg8]; [|lia|assumption].
  apply bind_Some in H as (bp & g9 & Hbp & H).
  assert (Hg9 : valid_rng g9).
  { destruct (String.eqb cat "Electronics");
      [|destruct (String.eqb cat "Software");
        [|destruct (String.eqb cat "Services")]];
      (apply np_uniform_spec in Hbp as (_ & _ & Hg9); [exact Hg9|reflexivity|assumption]). }
  clear Hbp.
  apply bind_Some in H as (factor & g10 & Hfactor & H).
  apply np_uniform_spec in Hfactor as (_ & _ & Hg10); [|reflexivity|assumption].
  apply bind_Some in H as (ratio & g11 & Hratio & H).
  match type of Hratio with
  | py_div (?r - _) ?r _ = _ => set (rev := r) in *
  end.
  apply py_div_spec in Hratio as (-> & _ & ->).
  apply bind_Some in H as ([inv rr] & g12 & Hinv & H).
  assert (Hg12 : valid_rng g12).
  { destruct (is_physical cat).
    - apply bind_Some in Hinv as (n & g13 & Hn & Hinv).
      apply np_randint_spec in Hn as [_ Hg13]; [|lia|assumption].
      apply bind_Some in Hinv as (r & g14 & Hr & Hinv).
      apply np_uniform_spec in Hr as (_ & _ & Hg14); [|reflexivity|assumption].
      apply ret_Some in Hinv as [_ ->]. assumption.
    - apply ret_Some in Hinv as [_ ->]. assumption. }
  clear Hinv.
  apply bind_Some in H as (ono & g13 & Hono & H).
  apply random_randint_spec in Hono as [Hono Hg13]; [|lia|assumption].
  apply bind_Some in H as (cno & g14 & Hcno & H).
  apply np_randint_spec in Hcno as [Hcno Hg14]; [|lia|assumption].
  apply bind_Some in H as (conv & g15 & Hconv & H).
  apply np_uniform_spec in Hconv as (_ & Hconv & Hg15); [|reflexivity|assumption].
  apply bind_Some in H as (sat & g16 & Hsat & H).
  apply np_choice_p_spec in Hsat as [Hsat Hg16]; [|assumption].
  apply bind_Some in H as (aov & g17 & Haov & H).
  apply py_div_spec in Haov as (-> & _ & ->).
  apply ret_Some in H as [-> ->].
  constructor; cbn [transaction_date category product_name customer_segment
                    order_id customer_id conversion_rate satisfaction_score
                    avg_order_value revenue units_sold].
  - exact Hdate.
  - exists names. split; assumption.
  - exact Hseg.
  - exists ono. split; [exact Hono | reflexivity].
  - exists cno. split; [exact Hcno | reflexivity].
  - exact Hconv.
  - destruct Hsat as [<-|[<-|[<-|[<-|[<-|[]]]]]]; lia.
  - reflexivity.
Qed.

Lemma generate_records_fields (n : nat) (g g' : rng) (records : list record) :
  valid_rng g -> generate_business_data n g = Some (records, g') ->
  Forall (fun r => exists v,
            locals_ok v /\ locals_fields_ok v /\ r = record_of v) records.
Proof.
  revert g g' records. induction n as [|n IH]; intros g g' records Hg H; simpl in H.
  - apply ret_Some in H as [-> ->]. constructor.
  - apply bind_Some in H as (r & g1 & Hr & H).
    unfold loop_body in Hr. apply bind_Some in Hr as (v & g0 & Hv & Hr).
    apply ret_Some in Hr as [-> ->].
    pose proof (loop_locals_fields _ _ _ Hg Hv) as Hf.
    apply loop_locals_ok in Hv as [Hv Hg0]; [|assumption].
    apply bind_Some in H as (rs & g2 & Hrs & H).
    apply ret_Some in H as [-> ->].
    constructor; [|eapply IH; eassumption].
    exists v. split; [exact Hv | split; [exact Hf | reflexivity]].
Qed.

Lemma round_half_even_between (x : Q) (a b : Z) :
  inject_Z a <= x -> x <= inject_Z b ->
  (a <= Py.round_half_even x <= b)%Z.
Proof.
  intros Ha Hb. unfold Py.round_half_even.
  pose proof (Qfloor_le x) as Hl. pose proof (Qlt_floor x) as Hu.
  assert (Hfa : (a <= Qfloor x)%Z).
  { rewrite <- (Qfloor_Z a). apply Qfloor_resp_le. exact Ha. }
  assert (Hfb : (Qfloor x <= b)%Z).
  { rewrite <- (Qfloor_Z b). apply Qfloor_resp_le. exact Hb. }
  assert (Hstrict : inject_Z (Qfloor x) < x -> (Qfloor x + 1 <= b)%Z).
  { intros Hlt. assert (Qfloor x < b)%Z; [|lia].
    rewrite Zlt_Qlt. eapply Qlt_le_trans; eassumption. }
  destruct (Qcompare_spec (x - inject_Z (Qfloor x)) (1 # 2)) as [E|E|E].
  - destruct (Z.even (Qfloor x)); [lia|].
    split; [lia|]. apply Hstrict. lra.
  - lia.
  - split; [lia|]. apply Hstrict. lra.
Qed.

Lemma round2_between (x : Q) (a b : Z) :
  inject_Z a <= x * 100 -> x * 100 <= inject_Z b ->
  a # 100 <= Py.round x 2 /\ Py.round x 2 <= b # 100.
Proof.
  intros Ha Hb. rewrite round2_cents.
  destruct (round_half_even_between (x * inject_Z 100) a b Ha Hb) as [H1 H2].
  unfold Qle. cbn [Qnum Qden]. lia.
Qed.

Lemma round3_between (x : Q) (a b : Z) :
  inject_Z a <= x * 1000 -> x * 1000 <= inject_Z b ->
  a # 1000 <= Py.round x 3 /\ Py.round x 3 <= b # 1000.
Proof.
  intros Ha Hb.
  change (Py.round x 3) with (Py.round_half_even (x * inject_Z 1000) # 1000).
  destruct (round_half_even_between (x * inject_Z 1000) a b Ha Hb) as [H1 H2].
  unfold Qle. cbn [Qnum Qden]. lia.
Qed.

(** X1: The categorical fields, the integer ranges and the identifiers of
    every generated record. *)
Theorem generated_categorical_fields
    (n : nat) (g g' : rng) (records : list record) :
  valid_rng g ->
  generate_business_data n g = Some (records, g') ->
  Forall categorical_fields_ok records.
Proof.
  intros Hg H.
  pose proof (generate_records_fields n g g' records Hg H) as Hall.
  eapply Forall_impl; [exact Hall|].
  intros r (v & Hv & Hf & ->). destruct Hv, Hf.
  unfold categorical_fields_ok, record_of;
    cbn [Date Region Category_Department Product_Service_Name Customer_Segment
         Campaign_Name Units_Sold Customer_Satisfaction_Score Order_ID Customer_ID].
  repeat (split; [assumption|]). assumption.
Qed.

Lemma generated_categorical_fields_witness :
  valid_rng sample_rng /\
  exists records g',
    generate_business_data 1 sample_rng = Some (records, g') /\
    Forall categorical_fields_ok records.
Proof.
  split; [exact sample_rng_valid|].
  eexists _, _. split; [lazy; reflexivity|].
  eapply (generated_categorical_fields 1 sample_rng);
    [exact sample_rng_valid | lazy; reflexivity].
Defined.



(** With the configured campaign names the Holiday and the Summer factor
    never meet, and the two regional factors exclude each other. *)
Lemma spec_bias_factors (r c k : string) :
  In k CAMPAIGN_NAMES ->
  exists regional campaign,
    In regional [1; 115 # 100; 12 # 10] /\
    In campaign [1; 125 # 100; 11 # 10] /\
    spec_bias r c k == regional * campaign.
Proof.
  intros Hk.
  assert (Hcamp : exists campaign,
            In campaign [1; 125 # 100; 11 # 10] /\
            (if Py.str_in "Holiday" k then 125 # 100 else 1) *
            (if Py.str_in "Summer" k then 11 # 10 else 1) == campaign).
  { destruct Hk as [<-|[<-|[<-|[<-|[<-|[]]]]]]; cbv [Py.str_in Py.startswith];
      cbn; eexists; (split; [|reflexivity]); cbn; tauto. }
  destruct Hcamp as (campaign & Hin & Hc).
  assert (Hreg : exists regional,
            In regional [1; 115 # 100; 12 # 10] /\
            (if String.eqb r "North" && String.eqb c "Electronics"
             then 115 # 100 else 1) *
            (if String.eqb r "South" && String.eqb c "Apparel"
             then 12 # 10 else 1) == regional).
  { destruct (String.eqb_spec r "North") as [->|N]; cbn [andb].
    - destruct (String.eqb c "Electronics"); eexists;
        (split; [|reflexivity]); cbn; tauto.
    - destruct (String.eqb r "South" && String.eqb c "Apparel"); eexists;
        (split; [|reflexivity]); cbn; tauto. }
  destruct Hreg as (regional & Hrin & Hr).
  exists regional, campaign. split; [exact Hrin|]. split; [exact Hin|].
  unfold spec_bias. rewrite <- Hr, <- Hc. ring.
Qed.



(** X4: The generator returns the requested number of records: on well-formed
    generators with two samples of Python's generator and thirteen of
    numpy's per record no lookup misses and no division is by zero; and
    whatever it returns has [num_records] records. *)
Theorem generator_returns_all_records (num_records : nat) (g : rng) :
  valid_rng g ->
  (2 * num_records <= length (py_tape g))%nat ->
  (13 * num_records <= length (np_tape g))%nat ->
  (exists records g',
     generate_business_data num_records g = Some (records, g')) /\
  (forall records g',
     generate_business_data num_records g = Some (records, g') ->
     length records = num_records /\ valid_rng g').
Proof.
  intros Hg Hpy Hnp. split.
  - destruct (generate_business_data_total num_records g Hg Hpy Hnp)
      as (records & g' & E & _).
    exists records, g'. exact E.
  - intros records g' E.
    destruct (generate_records_ok num_records g g' records Hg E) as (_ & Hlen & Hg').
    split; assumption.
Qed.

Lemma generator_returns_all_records_witness :
  valid_rng sample_rng /\
  (2 * 1 <= length (py_tape sample_rng))%nat /\
  (13 * 1 <= length (np_tape sample_rng))%nat /\
  exists records g', generate_business_data 1 sample_rng = Some (records, g').
Proof.
  split; [exact sample_rng_valid|].
  split; [vm_compute; lia|]. split; [vm_compute; lia|].
  apply (generator_returns_all_records 1 sample_rng);
    [exact sample_rng_valid | vm_compute; lia | vm_compute; lia].
Defined.

End DatasetSpec.

(* ================================================================== *)
(** * Properties of the question router *)
(* ================================================================== *)

Module PromptSpec.
Import Prompt.

(** ** Strings *)

(** The substring test finds exactly the contiguous occurrences. *)
Lemma startswith_spec (w s : string) :
  Py.startswith w s = true <-> exists t, s = (w ++ t)%string.
Proof.
  revert s. induction w as [|a w IH]; intros s; simpl.
  - split; [intros _; exists s; reflexivity | reflexivity].
  - destruct s as [|b s].
    + split; [discriminate | intros [t Ht]; discriminate].
    + rewrite andb_true_iff, Ascii.eqb_eq, IH. split.
      * intros [-> [t ->]]. exists t. reflexivity.
      * intros [t Ht]. injection Ht as -> ->. split; [reflexivity | exists t; reflexivity].
Qed.

Lemma str_in_spec (w s : string) :
  Py.str_in w s = true <-> exists pre post, s = (pre ++ w ++ post)%string.
Proof.
  induction s as [|b s IH]; simpl.
  - rewrite orb_false_r, startswith_spec. split.
    + intros [t Ht]. exists "", t. exact Ht.
    + intros (pre & post & H). destruct pre; [exists post; exact H|discriminate].
  - rewrite orb_true_iff, startswith_spec, IH. split.
    + intros [[t Ht]|(pre & post & H)].
      * exists "", t. exact Ht.
      * exists (String b pre), post. simpl. rewrite H. reflexivity.
    + intros (pre & post & H). destruct pre as [|c pre].
      * left. exists post. exact H.
      * right. simpl in H. injection H as -> ->. exists pre, post. reflexivity.
Qed.

Lemma any_in_spec (s : string) (words : list string) :
  Py.any_in s words = true <-> exists w, In w words /\ Py.str_in w s = true.
Proof.
  unfold Py.any_in. rewrite existsb_exists. reflexivity.
Qed.

Lemma byte_range (c : ascii) : (0 <= Py.byte c < 256)%Z.
Proof.
  unfold Py.byte. pose proof (N_ascii_bounded c) as H. lia.
Qed.

Lemma chr_byte_byte (c : ascii) : Py.chr_byte (Py.byte c) = c.
Proof.
  unfold Py.chr_byte, Py.byte. rewrite N2Z.id. apply ascii_N_embedding.
Qed.

Lemma continuation_ascii (n : Z) : (n < 128)%Z -> Py.continuation n = false.
Proof.
  intros H. unfold Py.continuation.
  destruct (Z.leb_spec 128 n); [lia | reflexivity].
Qed.

Lemma append_String (c : ascii) (s t : string) :
  (String c s ++ t)%string = String c (s ++ t)%string.
Proof. reflexivity. Qed.

Lemma append_empty (t : string) : ("" ++ t)%string = t.
Proof. reflexivity. Qed.

Lemma decode_String (b0 : ascii) (s1 : string) :
  Py.decode (String b0 s1) =
  let n0 := Py.byte b0 in
  let single := (if (n0 <? 128)%Z then n0 else Py.raw n0) :: Py.decode s1 in
  match s1 with
  | EmptyString => single
  | String b1 s2 =>
      let n1 := Py.byte b1 in
      if Py.sequence2 n0 n1 then Py.code_point2 n0 n1 :: Py.decode s2
      else
        match s2 with
        | EmptyString => single
        | String b2 s3 =>
            let n2 := Py.byte b2 in
            if Py.sequence3 n0 n1 n2 then Py.code_point3 n0 n1 n2 :: Py.decode s3
            else
              match s3 with
              | EmptyString => single
              | String b3 s4 =>
                  let n3 := Py.byte b3 in
                  if Py.sequence4 n0 n1 n2 n3
                  then Py.code_point4 n0 n1 n2 n3 :: Py.decode s4
                  else single
              end
        end
  end.
Proof. reflexivity. Qed.

(** An ASCII character is a code point of its own. *)
Lemma decode_ascii (b : ascii) (s : string) :
  (Py.byte b < 128)%Z ->
  Py.decode (String b s) = Py.byte b :: Py.decode s.
Proof.
  intros H. rewrite decode_String. cbv beta iota zeta.
  assert (E2 : forall n1, Py.sequence2 (Py.byte b) n1 = false).
  { intros n1. unfold Py.sequence2.
    destruct (Z.leb_spec 194 (Py.byte b)); [lia | reflexivity]. }
  assert (E3 : forall n1 n2, Py.sequence3 (Py.byte b) n1 n2 = false).
  { intros n1 n2. unfold Py.sequence3.
    destruct (Z.leb_spec 224 (Py.byte b)); [lia | reflexivity]. }
  assert (E4 : forall n1 n2 n3, Py.sequence4 (Py.byte b) n1 n2 n3 = false).
  { intros n1 n2 n3. unfold Py.sequence4.
    destruct (Z.leb_spec 240 (Py.byte b)); [lia | reflexivity]. }
  destruct (Z.ltb_spec (Py.byte b) 128); [|lia].
  destruct s as [|b1 [|b2 [|b3 s]]]; rewrite ?E2, ?E3, ?E4; reflexivity.
Qed.

(** ... whatever precedes it. *)
Lemma decode_before_ascii (n : nat) :
  forall (pre : string) (b : ascii) (s : string),
    (String.length pre <= n)%nat -> (Py.byte b < 128)%Z ->
    exists X, Py.decode (pre ++ String b s) = X ++ Py.decode (String b s).
Proof.
  induction n as [|n IH]; intros pre b s Hlen Hb.
  - destruct pre; [|cbn in Hlen; lia]. exists []. reflexivity.
  - destruct pre as [|c0 pre1]; [exists []; reflexivity|].
    cbn [String.length] in Hlen.
    pose proof (continuation_ascii _ Hb) as Hc.
    assert (Hsingle : forall x,
              exists X, x :: Py.decode (pre1 ++ String b s)
                        = X ++ Py.decode (String b s)).
    { intros x. destruct (IH pre1 b s ltac:(lia) Hb) as [X HX].
      exists (x :: X). rewrite HX. reflexivity. }
    assert (Hlong : forall x pre', (String.length pre' <= n)%nat ->
              exists X, x :: Py.decode (pre' ++ String b s)
                        = X ++ Py.decode (String b s)).
    { intros x pre' Hl. destruct (IH pre' b s Hl Hb) as [X HX].
      exists (x :: X). rewrite HX. reflexivity. }
    assert (F2 : forall n0, Py.sequence2 n0 (Py.byte b) = false).
    { intros n0. unfold Py.sequence2. rewrite Hc. apply andb_false_r. }
    assert (F3 : forall n0 n1, Py.sequence3 n0 n1 (Py.byte b) = false).
    { intros n0 n1. unfold Py.sequence3. rewrite Hc.
      rewrite andb_false_r. reflexivity. }
    assert (F3' : forall n0 n2, Py.sequence3 n0 (Py.byte b) n2 = false).
    { intros n0 n2. unfold Py.sequence3. rewrite Hc.
      rewrite andb_false_r. reflexivity. }
    assert (F4 : forall n0 n1 n2, Py.sequence4 n0 n1 n2 (Py.byte b) = false).
    { intros n0 n1 n2. unfold Py.sequence4. rewrite Hc.
      rewrite andb_false_r. reflexivity. }
    assert (F4' : forall n0 n1 n3, Py.sequence4 n0 n1 (Py.byte b) n3 = false).
    { intros n0 n1 n3. unfold Py.sequence4. rewrite Hc.
      rewrite andb_false_r. reflexivity. }
    assert (F4'' : forall n0 n2 n3, Py.sequence4 n0 (Py.byte b) n2 n3 = false).
    { intros n0 n2 n3. unfold Py.sequence4. rewrite Hc.
      rewrite andb_false_r. reflexivity. }
    destruct pre1 as [|c1 pre2].
    + rewrite ?append_String, ?append_empty. rewrite (decode_String c0). cbv beta iota zeta. rewrite F2.
      destruct s as [|b2 [|b3 s]]; rewrite ?F3', ?F4'';
        eexists [_]; reflexivity.
    + cbn [String.length] in Hlen.
      change ((String c0 (String c1 pre2) ++ String b s)%string)
        with (String c0 (String c1 (pre2 ++ String b s))).
      rewrite (decode_String c0). cbv beta iota zeta.
      change (Py.decode (String c1 (pre2 ++ String b s)))
        with (Py.decode (String c1 pre2 ++ String b s)).
      destruct (Py.sequence2 (Py.byte c0) (Py.byte c1));
        [apply Hlong; lia|].
      destruct pre2 as [|c2 pre3].
      * rewrite ?append_String, ?append_empty. rewrite F3.
        destruct s as [|b3 s]; rewrite ?F4'; apply (Hsingle _).
      * cbn [String.length] in Hlen.
        rewrite (append_String c2). cbv beta iota zeta.
        destruct (Py.sequence3 (Py.byte c0) (Py.byte c1) (Py.byte c2));
          [apply Hlong; lia|].
        destruct pre3 as [|c3 pre4].
        -- rewrite ?append_String, ?append_empty. rewrite F4. apply (Hsingle _).
        -- cbn [String.length] in Hlen.
           rewrite (append_String c3). cbv beta iota zeta.
           destruct (Py.sequence4 (Py.byte c0) (Py.byte c1) (Py.byte c2)
                                  (Py.byte c3));
             [apply Hlong; lia | apply (Hsingle _)].
Qed.

(** The lower case of an ASCII code point does not depend on what stands
    around it. *)
Lemma lower_from_split (X Y before : list Z) :
  exists L, Py.lower_from before (X ++ Y) = L ++ Py.lower_from (rev X ++ before) Y.
Proof.
  revert before. induction X as [|c X IH]; intros before.
  - exists []. reflexivity.
  - cbn [app Py.lower_from rev]. destruct (IH (c :: before)) as [L HL].
    rewrite HL, <- (app_assoc (rev X) [c] before). cbn [app].
    match goal with
    | |- exists L0, ?h ++ _ = _ => exists (h ++ L)
    end.
    rewrite <- app_assoc. reflexivity.
Qed.

Lemma lower_from_ascii (w : string) (Y before : list Z) :
  Forall (fun c => (Py.byte c < 128)%Z) (list_ascii_of_string w) ->
  exists before',
    Py.lower_from before (map Py.byte (list_ascii_of_string w) ++ Y) =
    map (fun c => Py.byte (Py.lower_char c)) (list_ascii_of_string w)
    ++ Py.lower_from before' Y.
Proof.
  revert before. induction w as [|c w IH]; intros before H.
  - exists before. reflexivity.
  - cbn [list_ascii_of_string map app Py.lower_from].
    inversion H as [|? ? Hc Hw]; subst.
    destruct (IH (Py.byte c :: before) Hw) as [before' E]. rewrite E.
    exists before'.
    pose proof (byte_range c) as R.
    destruct (Z.eqb_spec (Py.byte c) 931); [lia|].
    unfold Py.lower_code_point, Py.lower_char.
    destruct (Z.ltb_spec (Py.byte c) 128); [|lia].
    destruct ((65 <=? Py.byte c)%Z && (Py.byte c <=? 90)%Z) eqn:Eup.
    + cbn [app]. f_equal. unfold Py.byte at 2, Py.chr_byte.
      rewrite N_ascii_embedding; lia.
    + reflexivity.
Qed.

Lemma encode_app (a b : list Z) :
  Py.encode (a ++ b) = (Py.encode a ++ Py.encode b)%string.
Proof.
  induction a as [|c a IH]; [reflexivity|].
  cbn [app Py.encode]. rewrite IH.
  generalize (Py.encode_code_point c). intros x.
  induction x as [|d x IHx]; [reflexivity|]. rewrite ?append_String, ?append_empty. rewrite IHx. reflexivity.
Qed.

Lemma encode_ascii (w : string) :
  Forall (fun c => (Py.byte c < 128)%Z) (list_ascii_of_string w) ->
  Py.encode (map (fun c => Py.byte (Py.lower_char c)) (list_ascii_of_string w)) =
  string_of_list_ascii (map Py.lower_char (list_ascii_of_string w)).
Proof.
  induction w as [|c w IH]; intros H; [reflexivity|].
  inversion H as [|? ? Hc Hw]; subst.
  cbn [list_ascii_of_string map Py.encode string_of_list_ascii].
  rewrite (IH Hw). unfold Py.encode_code_point.
  assert (Hl : (Py.byte (Py.lower_char c) < 128)%Z).
  { unfold Py.lower_char.
    destruct ((65 <=? Py.byte c)%Z && (Py.byte c <=? 90)%Z) eqn:E; [|exact Hc].
    apply andb_prop in E as [E1 E2].
    apply Z.leb_le in E1, E2. unfold Py.byte at 1, Py.chr_byte.
    rewrite N_ascii_embedding; lia. }
  destruct (Z.ltb_spec (Py.byte (Py.lower_char c)) 128); [|lia].
  rewrite chr_byte_byte. reflexivity.
Qed.

Lemma decode_ascii_word (w s : string) :
  Forall (fun c => (Py.byte c < 128)%Z) (list_ascii_of_string w) ->
  Py.decode (w ++ s) = map Py.byte (list_ascii_of_string w) ++ Py.decode s.
Proof.
  induction w as [|c w IH]; intros H; [reflexivity|].
  inversion H as [|? ? Hc Hw]; subst.
  change ((String c w ++ s)%string) with (String c (w ++ s)).
  rewrite (decode_ascii c _ Hc), (IH Hw). reflexivity.
Qed.

(** Where a question has an ASCII word, its lower case has the lower
    case of the word. *)
Lemma lower_ascii_word (pre w post : string) :
  Forall (fun c => (Py.byte c < 128)%Z) (list_ascii_of_string w) ->
  Py.str_in (string_of_list_ascii (map Py.lower_char (list_ascii_of_string w)))
            (Py.lower (pre ++ w ++ post)) = true.
Proof.
  intros Hw. apply str_in_spec.
  destruct w as [|c w].
  - exists "", (Py.lower (pre ++ post)). reflexivity.
  - inversion Hw as [|? ? Hc Hw']; subst.
    unfold Py.lower.
    change ((pre ++ String c w ++ post)%string)
      with ((pre ++ String c (w ++ post))%string).
    destruct (decode_before_ascii (String.length pre) pre c (w ++ post)
                ltac:(lia) Hc) as [X HX].
    rewrite HX.
    change (String c (w ++ post)) with ((String c w ++ post)%string).
    rewrite (decode_ascii_word (String c w) post Hw).
    destruct (lower_from_split X
                (map Py.byte (list_ascii_of_string (String c w)) ++ Py.decode post)
                []) as [L HL].
    rewrite HL.
    destruct (lower_from_ascii (String c w) (Py.decode post) (rev X ++ []) Hw)
      as [before' E].
    rewrite E, !encode_app, (encode_ascii (String c w) Hw).
    eexists _, _. reflexivity.
Qed.

(** A word that spells a lower-case ASCII word is ASCII, and its lower
    case is that word. *)
Lemma spells_lower (k w : string) :
  Forall (fun a => (Py.byte a < 128)%Z /\ ~ (65 <= Py.byte a <= 90)%Z)
         (list_ascii_of_string k) ->
  Py.spells k w = true ->
  Forall (fun c => (Py.byte c < 128)%Z) (list_ascii_of_string w) /\
  string_of_list_ascii (map Py.lower_char (list_ascii_of_string w)) = k.
Proof.
  revert w. induction k as [|a k IH]; intros [|b w] Hk H; try discriminate H.
  - split; [constructor | reflexivity].
  - cbn [Py.spells] in H. apply andb_prop in H as [Hab Hrest].
    inversion Hk as [|? ? [Ha1 Ha2] Hk']; subst.
    destruct (IH w Hk' Hrest) as [Hw Ew].
    cbn [list_ascii_of_string map string_of_list_ascii]. rewrite Ew.
    apply orb_prop in Hab as [Hab | Hab].
    + apply Ascii.eqb_eq in Hab. subst b.
      split; [constructor; assumption|]. f_equal.
      unfold Py.lower_char.
      destruct (Z.leb_spec 65 (Py.byte a)), (Z.leb_spec (Py.byte a) 90);
        cbn [andb]; try reflexivity; lia.
    + apply andb_prop in Hab as [Hlo Hb]. apply andb_prop in Hlo as [H1 H2].
      apply Z.leb_le in H1, H2. apply Z.eqb_eq in Hb.
      split; [constructor; [lia | assumption]|]. f_equal.
      unfold Py.lower_char. rewrite Hb.
      destruct (Z.leb_spec 65 (Py.byte a - 32)), (Z.leb_spec (Py.byte a - 32) 90);
        cbn [andb]; try lia.
      replace (Py.byte a - 32 + 32)%Z with (Py.byte a) by lia.
      apply chr_byte_byte.
Qed.

(** A question that holds a lower-case ASCII word in some mix of cases
    has the word in its lower case. *)
Lemma spelled_word_found (k pre w post : string) :
  Forall (fun a => (Py.byte a < 128)%Z /\ ~ (65 <= Py.byte a <= 90)%Z)
         (list_ascii_of_string k) ->
  Py.spells k w = true ->
  Py.str_in k (Py.lower (pre ++ w ++ post)) = true.
Proof.
  intros Hk H. destruct (spells_lower k w Hk H) as [Hw E].
  rewrite <- E. apply lower_ascii_word. exact Hw.
Qed.

(** ** The classifier *)

Lemma first_match_spec (table : list (intent * list string)) (q : string) (i : intent) :
  first_match table q = Some i <->
  exists pre keywords post,
    table = pre ++ (i, keywords) :: post /\
    Py.any_in q keywords = true /\
    Forall (fun e => Py.any_in q (snd e) = false) pre.
Proof.
  induction table as [|[j kws] table IH]; simpl.
  - split; [discriminate|]. intros (pre & k & post & H & _). destruct pre; discriminate.
  - destruct (Py.any_in q kws) eqn:E.
    + split.
      * intros H. injection H as ->. exists [], kws, table. 
        split; [reflexivity|]. split; [exact E | constructor].
      * intros (pre & k & post & H & Hk & Hpre). destruct pre as [|e pre].
        -- injection H as -> -> _. reflexivity.
        -- injection H as He' _. subst e. inversion Hpre as [|? ? He _]; subst.
           simpl in He. congruence.
    + rewrite IH. split.
      * intros (pre & k & post & -> & Hk & Hpre). exists ((j, kws) :: pre), k, post.
        split; [reflexivity|]. split; [exact Hk|]. constructor; [exact E | exact Hpre].
      * intros (pre & k & post & H & Hk & Hpre). destruct pre as [|e pre].
        -- injection H as -> -> _. congruence.
        -- injection H as He' Ht. subst e table. inversion Hpre; subst.
           exists pre, k, post.
           split; [reflexivity|]. split; assumption.
Qed.

Lemma analyze_question_dispatch (question : string) (df : DataFrame) :
  analyze_question question df =
  dispatch (first_match keyword_sets (Py.lower question)) df.
Proof.
  unfold analyze_question, keyword_sets. cbv zeta. cbn [first_match].
  repeat match goal with
         | |- context [Py.any_in ?q ?l] => destruct (Py.any_in q l)
         end; reflexivity.
Qed.

(** The keywords are lower-case ASCII words. *)
Lemma keywords_lower_case (i : intent) (keywords : list string) (k : string) :
  In (i, keywords) keyword_sets -> In k keywords ->
  Forall (fun a => (Py.byte a < 128)%Z /\ ~ (65 <= Py.byte a <= 90)%Z)
         (list_ascii_of_string k).
Proof.
  intros Hi Hk.
  assert (H : forallb (fun e => forallb (fun k =>
                forallb (fun a => (Py.byte a <? 128)%Z &&
                                  negb ((65 <=? Py.byte a)%Z && (Py.byte a <=? 90)%Z))
                        (list_ascii_of_string k)) (snd e)) keyword_sets = true)
    by (vm_compute; reflexivity).
  rewrite forallb_forall in H. specialize (H _ Hi). cbn [snd] in H.
  rewrite forallb_forall in H. specialize (H _ Hk).
  rewrite forallb_forall in H. apply List.Forall_forall. intros a Ha.
  specialize (H a Ha). apply andb_prop in H as [H1 H2].
  apply Z.ltb_lt in H1. split; [exact H1|]. intros [H3 H4].
  apply Z.leb_le in H3, H4. rewrite H3, H4 in H2. discriminate H2.
Qed.

(** C1: the classifier is the first-match search through the eight keyword
    sets in the order Regional, Monthly, Margin, Campaign, Satisfaction,
    Inventory, Category, Summary, applied to the lower-cased question; the
    intent found is the first one whose set has a keyword contained in the
    lower-cased question.  The test does not depend on the case of the
    letters: a keyword that the question spells in any mix of upper and
    lower case is contained in the lower-cased question.  A question that
    contains "region", however it is capitalised, is answered by the
    Regional routine, also when it contains "profit". *)
Theorem analyze_question_priority :
  map fst keyword_sets =
    [Regional; Monthly; Margin; Campaign; Satisfaction; Inventory; Category; Summary] /\
  (forall question df,
     analyze_question question df =
     dispatch (first_match keyword_sets (Py.lower question)) df) /\
  (forall question i,
     first_match keyword_sets (Py.lower question) = Some i <->
     exists earlier keywords later,
       keyword_sets = earlier ++ (i, keywords) :: later /\
       (exists w, In w keywords /\ Py.str_in w (Py.lower question) = true) /\
       Forall (fun e => forall w, In w (snd e) ->
                                  Py.str_in w (Py.lower question) = false) earlier) /\
  (forall i keywords k pre w post,
     In (i, keywords) keyword_sets -> In k keywords ->
     Py.spells k w = true ->
     Py.str_in k (Py.lower (pre ++ w ++ post)) = true) /\
  (forall pre w post df,
     Py.spells "region" w = true ->
     analyze_question (pre ++ w ++ post) df = analyze_regional_performance df).
Proof.
  split; [reflexivity|]. split; [exact analyze_question_dispatch|]. split; [|split].
  - intros question i. rewrite first_match_spec.
    split; intros (pre & k & post & H & Hk & Hpre); exists pre, k, post;
      (split; [exact H|]); split.
    + apply any_in_spec. exact Hk.
    + eapply Forall_impl; [exact Hpre|]. intros e He w Hw.
      destruct (Py.str_in w (Py.lower question)) eqn:E; [|reflexivity].
      assert (Py.any_in (Py.lower question) (snd e) = true)
        by (apply any_in_spec; exists w; split; assumption).
      congruence.
    + apply any_in_spec. exact Hk.
    + eapply Forall_impl; [exact Hpre|]. intros e He.
      destruct (Py.any_in (Py.lower question) (snd e)) eqn:E; [|reflexivity].
      apply any_in_spec in E as (w & Hw & Hin). rewrite (He w Hw) in Hin. discriminate.
  - intros i keywords k pre w post Hi Hk Hw.
    apply spelled_word_found; [|exact Hw].
    exact (keywords_lower_case i keywords k Hi Hk).
  - intros pre w post df Hw.
    assert (Hregion : Py.str_in "region" (Py.lower (pre ++ w ++ post)) = true).
    { apply spelled_word_found; [|exact Hw].
      apply (keywords_lower_case Regional
               ["region"; "regional"; "geography"; "location"]);
        left; reflexivity. }
    unfold analyze_question. cbv zeta.
    replace (Py.any_in (Py.lower (pre ++ w ++ post))
                       ["region"; "regional"; "geography"; "location"])
      with true; [reflexivity|].
    symmetry. apply any_in_spec. exists "region". split; [left; reflexivity | exact Hregion].
Qed.

Lemma analyze_question_priority_witness :
  Py.lower "Regional PROFIT Breakdown" = "regional profit breakdown" /\
  analyze_question "Regional PROFIT Breakdown" sample_df =
    analyze_regional_performance sample_df /\
  analyze_question "What is in STOCK?" sample_df = analyze_inventory sample_df /\
  Py.lower "stocK" = "stock" /\
  analyze_question "stocK" sample_df = analyze_inventory sample_df /\
  analyze_question "REGİON" sample_df = Ok (only_text help_message).
Proof.
  split; [vm_compute; reflexivity|].
  split.
  { apply (proj2 (proj2 (proj2 (proj2 analyze_question_priority)))
             "" "Region" "al PROFIT Breakdown" sample_df).
    vm_compute. reflexivity. }
  split; [vm_compute; reflexivity|].
  split; [vm_compute; reflexivity|].
  split; vm_compute; reflexivity.
Defined.

(** C4: on a table without the Region column or without the Revenue column
    the Regional routine returns normally; the text of its result contains
    "requires" and the result has neither a chart nor a table. *)
Theorem regional_missing_column_soft_failure (df : DataFrame) :
  has_column df "Region" = false \/ has_column df "Revenue" = false ->
  exists r,
    analyze_regional_performance df = Ok r /\
    text_contains "requires" (text r) = true /\
    chart r = None /\
    dataframe r = None.
Proof.
  intros H. unfold analyze_regional_performance.
  assert (E : negb (has_column df "Region") || negb (has_column df "Revenue") = true).
  { destruct H as [-> | ->]; [reflexivity | apply orb_true_r]. }
  rewrite E. eexists. split; [reflexivity|].
  split; [reflexivity|]. split; reflexivity.
Qed.

Lemma regional_missing_column_soft_failure_witness :
  (has_column no_revenue_df "Region" = false \/
   has_column no_revenue_df "Revenue" = false) /\
  exists r,
    analyze_regional_performance no_revenue_df = Ok r /\
    text_contains "requires" (text r) = true /\
    chart r = None /\
    dataframe r = None.
Proof.
  split; [right; reflexivity|].
  apply (regional_missing_column_soft_failure no_revenue_df). right; reflexivity.
Defined.

Lemma Ok_inj {A} (a b : A) : Ok a = Ok b -> a = b.
Proof. intros H. injection H as ->. reflexivity. Qed.

(** ** Exceptions that reach the caller *)

Lemma no_keyword_help_message (question : string) (df : DataFrame) :
  first_match keyword_sets (Py.lower question) = None ->
  analyze_question question df = Ok (only_text help_message).
Proof.
  intros H. rewrite analyze_question_dispatch, H. reflexivity.
Qed.

(** A table with the two columns the Regional routine asks for, but without
    [Profit] or [Units_Sold], makes the aggregation raise. *)
Lemma regional_unguarded_columns (df : DataFrame) :
  has_column df "Region" = true ->
  has_column df "Revenue" = true ->
  has_column df "Profit" = false \/ has_column df "Units_Sold" = false ->
  exists missing, analyze_regional_performance df = Raise (KeyError missing).
Proof.
  intros HR HV H. unfold analyze_regional_performance, agg_sums, require_columns.
  rewrite HR, HV. cbn [negb orb List.filter].
  rewrite HV. cbn [negb].
  destruct H as [-> | ->]; cbn [negb];
    destruct (negb (has_column df _)); eexists; reflexivity.
Qed.

(** A table with every column and no row: the aggregation is empty and
    [index[0]] raises. *)
Lemma regional_empty_table_raises_IndexError :
  analyze_regional_performance (mk_df all_columns []) = Raise IndexError.
Proof. reflexivity. Qed.

(** C2: the Regional routine guards only the Region and Revenue columns.
    On a table that has these two columns and no Profit column, the
    question "Show me revenue performance by region" (the one the first
    quick-question button asks) makes [analyze_question] raise a KeyError
    instead of returning a result. *)
Theorem regional_question_raises_KeyError :
  has_column region_revenue_df "Region" = true /\
  has_column region_revenue_df "Revenue" = true /\
  analyze_question "Show me revenue performance by region" region_revenue_df =
    Raise (KeyError ["Profit"; "Units_Sold"]) /\
  runs [mk_inputs (Some region_revenue_df) None None;
        mk_inputs (Some region_revenue_df) (Some 0%nat) None]
       initial_session =
    Raise (KeyError ["Profit"; "Units_Sold"]).
Proof.
  split; [reflexivity|]. split; [reflexivity|].
  split; vm_compute; reflexivity.
Qed.

(** ** Division by a zero revenue *)

(** What the margin column holds for a group whose revenue sums to zero:
    0 if the profit is zero or missing, otherwise an infinity with the
    sign of the profit. *)
Lemma profit_margin_of_zero_revenue (g : sums) (s : bool) :
  Revenue_sum g = S754_zero s ->
  profit_margin_of g =
  match Profit_sum g with
  | S754_zero _ | S754_nan => of_Z 0
  | S754_infinity sp | S754_finite sp _ _ => S754_infinity (xorb sp s)
  end.
Proof.
  intros H. unfold profit_margin_of. rewrite H.
  destruct (Profit_sum g) as [sp| sp| |sp m e]; destruct s; try destruct sp;
    reflexivity.
Qed.

(** The Summary routine guards the division itself: without revenue its
    report gives the overall margin 0. *)
Lemma summary_margin_zero_revenue (df : DataFrame) (r : Result) (s : bool) :
  generate_summary df = Ok r ->
  has_column df "Revenue" = false \/
  nansum (map Revenue (rows df)) = S754_zero s ->
  In (FFloat ".1f" (of_Z 0)) (text r).
Proof.
  intros Hrun Hzero. unfold generate_summary in Hrun. cbv zeta in Hrun.
  assert (E : fltb (of_Z 0)
                (if has_column df "Revenue"
                 then nansum (map Revenue (rows df)) else of_Z 0) = false).
  { destruct Hzero as [-> | ->]; [reflexivity|].
    destruct (has_column df "Revenue"); destruct s; reflexivity. }
  rewrite E in Hrun.
  match type of Hrun with
  | rbind ?m _ = _ => destruct m as [date_range|]; [|discriminate]
  end.
  unfold rbind at 1 in Hrun.
  match type of Hrun with
  | rbind ?m _ = _ => destruct m as [top_region|]; [|discriminate]
  end.
  unfold rbind at 1 in Hrun.
  match type of Hrun with
  | rbind ?m _ = _ => destruct m as [top_category|]; [|discriminate]
  end.
  unfold rbind in Hrun. apply Ok_inj in Hrun. subst r.
  unfold only_text, text. apply in_or_app. left.
  do 5 right. left. reflexivity.
Qed.

(** C3: the guard [fillna(0)] of the per-group margin replaces NaN only.
    In the sample table the East region has revenue 0 and profit -50; the
    Regional routine reports the margin -infinity for it, not 0. *)
Theorem zero_revenue_margin_is_infinite :
  exists r table row,
    analyze_regional_performance sample_df = Ok r /\
    dataframe r = Some table /\
    In row (frows table) /\
    fst row = LStr "East" /\
    cell table row "Revenue" = Some (of_Z 0) /\
    cell table row "Profit" = Some (of_Z (-50)) /\
    cell table row "Profit_Margin" = Some (S754_infinity true).
Proof.
  eexists _, _, (LStr "East", _).
  split; [vm_compute; reflexivity|].
  split; [reflexivity|].
  split; [right; right; left; reflexivity|].
  repeat split; reflexivity.
Qed.

(** ** The transcript *)

Lemma is_user_user_message (q : string) : is_user (user_message q) = true.
Proof.
  unfold is_user, user_message. rewrite lookup_insert_eq. reflexivity.
Qed.

Lemma user_message_content (q : string) : user_message q !! "content" = Some (VStr q).
Proof.
  unfold user_message. rewrite lookup_insert_ne by discriminate.
  apply lookup_insert_eq.
Qed.

Lemma user_message_no_payload (q : string) (k : string) :
  k <> "role" -> k <> "content" -> delete k (user_message q) = user_message q.
Proof.
  intros H1 H2. apply delete_id. unfold user_message.
  rewrite !lookup_insert_ne by congruence. apply lookup_empty.
Qed.

(** What the answering step does when the last message is a question
    appended by the script: it appends the answer and changes nothing
    else.  The two deletions act on the question itself, which has no
    chart and no table. *)
Lemma respond_appends_only (pre : list (gmap string pyval)) (q : string)
    (df : DataFrame) (response : Result) :
  analyze_question q df = Ok response ->
  respond {| messages := pre ++ [user_message q]; data := Some df |} =
  Ok {| messages := pre ++ [user_message q; assistant_message response];
        data := Some df |}.
Proof.
  intros H. unfold respond. cbn [messages data].
  rewrite last_snoc, is_user_user_message, user_message_content, H.
  cbn [rbind].
  rewrite !length_app. cbn [length].
  replace (length pre + 1 + 1 <? 2)%nat with false
    by (symmetry; apply Nat.ltb_ge; lia).
  replace (length pre + 1 + 1 - 2)%nat with (length pre + 0)%nat by lia.
  rewrite <- app_assoc. cbn [app].
  rewrite !alter_app_r. cbn [alter list_alter].
  rewrite !user_message_no_payload by discriminate.
  reflexivity.
Qed.

(** C5: after the upload and two questions the script's transcript holds
    two assistant turns with a live chart and table: the deletion at
    index -2 reaches the question that was just asked, never the earlier
    answer. *)
Theorem earlier_answer_keeps_payload :
  exists st,
    runs [mk_inputs (Some sample_df) None None;
          mk_inputs (Some sample_df) None (Some "revenue by region");
          mk_inputs (Some sample_df) None (Some "profit margins")]
         initial_session = Ok st /\
    map is_user (messages st) = [false; true; false; true; false] /\
    map live (messages st) = [false; false; true; false; true].
Proof.
  eexists. split; [vm_compute; reflexivity|]. split; vm_compute; reflexivity.
Qed.

(** ** Order and sorting *)

Lemma fleb_rank (a b : float) :
  isnan a = false -> isnan b = false ->
  (fleb a b = true <-> lex_le (rank a) (rank b)).
Proof.
  intros Ha Hb. unfold fleb, SFleb, SFcompare, lex_le, rank.
  destruct a as [sa|sa| |sa ma ea], b as [sb|sb| |sb mb eb];
    try discriminate; try destruct sa; try destruct sb;
    repeat match goal with
           | |- context [Z.compare ?x ?y] => destruct (Z.compare_spec x y)
           | |- context [Pos.compare_cont Eq ?x ?y] =>
               change (Pos.compare_cont Eq x y) with (Pos.compare x y);
               destruct (Pos.compare_spec x y)
           end;
    cbn [CompOpp]; split; intros; try reflexivity; try discriminate; try lia.
Qed.

Lemma fleb_not_nan (a b : float) :
  fleb a b = true -> isnan a = false /\ isnan b = false.
Proof.
  unfold fleb, SFleb, SFcompare.
  destruct a as [sa|sa| |sa ma ea], b as [sb|sb| |sb mb eb];
    try discriminate; split; reflexivity.
Qed.

Lemma fleb_total (a b : float) :
  isnan a = false -> isnan b = false -> fleb a b = false -> fleb b a = true.
Proof.
  intros Ha Hb H. apply fleb_rank; [assumption | assumption|].
  assert (N : ~ lex_le (rank a) (rank b)).
  { intros L. apply fleb_rank in L; [congruence | assumption | assumption]. }
  unfold lex_le in *. destruct (rank a) as [[a1 a2] a3], (rank b) as [[b1 b2] b3]. lia.
Qed.

Lemma fleb_trans (a b c : float) :
  fleb a b = true -> fleb b c = true -> fleb a c = true.
Proof.
  intros Hab Hbc.
  destruct (fleb_not_nan _ _ Hab) as [Na Nb].
  destruct (fleb_not_nan _ _ Hbc) as [_ Nc].
  apply fleb_rank; [assumption | assumption|].
  apply fleb_rank in Hab; [|assumption|assumption].
  apply fleb_rank in Hbc; [|assumption|assumption].
  unfold lex_le in *.
  destruct (rank a) as [[a1 a2] a3], (rank b) as [[b1 b2] b3], (rank c) as [[c1 c2] c3].
  lia.
Qed.

Section SortValues.
Context {A : Type} (f : A -> float).

Lemma insert_desc_perm (a : A) (l : list A) :
  Permutation (insert_desc f a l) (a :: l).
Proof.
  induction l as [|b l IH]; simpl.
  - apply Permutation_refl.
  - destruct (fleb (f b) (f a)).
    + apply Permutation_refl.
    + eapply Permutation_trans; [apply perm_skip; exact IH | apply perm_swap].
Qed.

Lemma insert_desc_sorted (a : A) (l : list A) :
  isnan (f a) = false ->
  Forall (fun b => isnan (f b) = false) l ->
  StronglySorted (before f) l ->
  StronglySorted (before f) (insert_desc f a l).
Proof.
  intros Ha Hl Hs. induction Hs as [|b l Hs IH Hb]; simpl.
  - constructor; constructor.
  - inversion Hl as [|? ? Nb Nl]; subst.
    destruct (fleb (f b) (f a)) eqn:E.
    + constructor; [constructor; assumption|].
      constructor; [exact E|].
      eapply Forall_impl; [exact Hb|].
      intros x Hx. unfold before in *. eapply fleb_trans; eassumption.
    + constructor; [apply IH; assumption|].
      eapply Permutation_Forall; [symmetry; apply insert_desc_perm|].
      constructor; [|exact Hb].
      unfold before. apply fleb_total; assumption.
Qed.

Lemma filter_split_perm (p : A -> bool) (l : list A) :
  Permutation (List.filter p l ++ List.filter (fun a => negb (p a)) l) l.
Proof.
  induction l as [|a l IH]; simpl; [constructor|].
  destruct (p a); simpl.
  - apply perm_skip. exact IH.
  - eapply Permutation_trans; [symmetry; apply Permutation_middle|].
    apply perm_skip. exact IH.
Qed.

Lemma fold_insert_desc_perm (l : list A) :
  Permutation (fold_right (insert_desc f) [] l) l.
Proof.
  induction l as [|a l IH]; simpl; [constructor|].
  eapply Permutation_trans; [apply insert_desc_perm|]. apply perm_skip. exact IH.
Qed.

(** Sorting rearranges the rows and loses none. *)
Lemma sort_values_desc_perm (l : list A) :
  Permutation (sort_values_desc f l) l.
Proof.
  unfold sort_values_desc.
  eapply Permutation_trans; [|apply (filter_split_perm (fun a => negb (isnan (f a))))].
  apply Permutation_app; [apply fold_insert_desc_perm|].
  erewrite filter_ext; [apply Permutation_refl|].
  intros a. simpl. rewrite negb_involutive. reflexivity.
Qed.

Lemma fold_insert_desc_sorted (l : list A) :
  Forall (fun b => isnan (f b) = false) l ->
  StronglySorted (before f) (fold_right (insert_desc f) [] l).
Proof.
  induction 1 as [|a l Ha Hl IH]; simpl; [constructor|].
  apply insert_desc_sorted; [exact Ha | | exact IH].
  eapply Permutation_Forall; [symmetry; apply fold_insert_desc_perm | exact Hl].
Qed.

Lemma filter_all (p : A -> bool) (l : list A) :
  Forall (fun a => p a = true) l -> List.filter p l = l.
Proof.
  induction 1 as [|a l Ha Hl IH]; simpl; [reflexivity|]. rewrite Ha, IH. reflexivity.
Qed.

Lemma filter_none (p : A -> bool) (l : list A) :
  Forall (fun a => p a = false) l -> List.filter p l = [].
Proof.
  induction 1 as [|a l Ha Hl IH]; simpl; [reflexivity|]. rewrite Ha. exact IH.
Qed.

(** Without missing values the result is in descending order. *)
Lemma sort_values_desc_sorted (l : list A) :
  Forall (fun b => isnan (f b) = false) l ->
  StronglySorted (before f) (sort_values_desc f l).
Proof.
  intros H. unfold sort_values_desc.
  rewrite filter_all, filter_none, app_nil_r.
  - apply fold_insert_desc_sorted. exact H.
  - exact H.
  - eapply Forall_impl; [exact H|]. intros a Ha. simpl in Ha. rewrite Ha. reflexivity.
Qed.

(** In a ranked list the first [n] rows dominate the others. *)
Lemma sorted_head_dominates (n : nat) (l : list A) :
  StronglySorted (before f) l ->
  forall a b, In a (firstn n l) -> In b (skipn n l) -> before f a b.
Proof.
  intros Hs. revert n. induction Hs as [|x l Hs IH Hx]; intros n a b Ha Hb.
  - rewrite firstn_nil in Ha. destruct Ha.
  - destruct n as [|n]; simpl in Ha, Hb; [destruct Ha|].
    destruct Ha as [<- | Ha].
    + rewrite List.Forall_forall in Hx. apply Hx.
      rewrite <- (firstn_skipn n l). apply in_or_app. right. exact Hb.
    + eapply IH; eassumption.
Qed.
End SortValues.

(** ** Grouping *)

Lemma str_compare_lt_trans (a b c : label) :
  is_str a -> is_str b -> is_str c ->
  label_compare a b = Lt -> label_compare b c = Lt -> label_compare a c = Lt.
Proof.
  destruct a as [s| |], b as [t| |], c as [u| |]; try contradiction.
  intros _ _ _. cbn [label_compare].
  change String.compare with OrderedTypeEx.String_as_OT.cmp.
  rewrite !OrderedTypeEx.String_as_OT.cmp_lt.
  apply OrderedTypeEx.String_as_OT.lt_trans.
Qed.

Lemma str_compare_eq (a b : label) :
  is_str a -> is_str b -> (label_compare a b = Eq <-> a = b).
Proof.
  destruct a as [s| |], b as [t| |]; try contradiction. intros _ _.
  cbn [label_compare]. split.
  - intros H. apply String.compare_eq_iff in H. subst t. reflexivity.
  - intros H. injection H as ->.
    apply (proj2 (OrderedTypeEx.String_as_OT.cmp_eq t t)). reflexivity.
Qed.

Lemma str_compare_gt (a b : label) :
  is_str a -> is_str b -> label_compare a b = Gt -> label_compare b a = Lt.
Proof.
  destruct a as [s| |], b as [t| |]; try contradiction. intros _ _.
  cbn [label_compare]. intros H.
  pose proof (OrderedTypeEx.String_as_OT.cmp_antisym t s) as E.
  unfold OrderedTypeEx.String_as_OT.cmp in E. rewrite E, H. reflexivity.
Qed.

Lemma insert_key_str (k : label) (ks : list label) :
  is_str k -> Forall is_str ks -> keys_ascending ks ->
  Forall is_str (insert_key k ks) /\ keys_ascending (insert_key k ks) /\
  (forall x, In x (insert_key k ks) <-> x = k \/ In x ks).
Proof.
  intros Hk Hs Ha. unfold keys_ascending in *.
  induction Ha as [|k' rest Hrest IH Hlt]; cbn [insert_key].
  - split; [constructor; [exact Hk | constructor]|].
    split; [constructor; constructor|].
    intros x. cbn [In]. intuition congruence.
  - inversion Hs as [|? ? Hk' Hs']; subst.
    destruct (label_compare k k') eqn:E.
    + apply str_compare_eq in E; [|assumption|assumption]. subst k'.
      split; [exact Hs|]. split; [constructor; assumption|].
      intros x. cbn [In]. intuition congruence.
    + split; [constructor; assumption|].
      split.
      * constructor; [constructor; assumption|].
        constructor; [exact E|].
        rewrite List.Forall_forall in Hlt, Hs'. apply List.Forall_forall.
        intros x Hx. eapply (str_compare_lt_trans k k' x); auto.
      * intros x. cbn [In]. intuition congruence.
    + destruct (IH Hs') as (IH1 & IH2 & IH3).
      split; [constructor; assumption|].
      split.
      * constructor; [exact IH2|].
        apply List.Forall_forall. intros x Hx. apply IH3 in Hx.
        destruct Hx as [-> | Hx]; [apply str_compare_gt; assumption|].
        rewrite List.Forall_forall in Hlt. apply Hlt. exact Hx.
      * intros x. cbn [In]. rewrite IH3. intuition congruence.
Qed.

(** The index of a [groupby] on a string column: the distinct values of
    the column, in ascending order. *)
Lemma group_keys_str (f : Row -> option string) (rs : list Row) :
  Forall is_str (group_keys (map (by_str f) rs)) /\
  keys_ascending (group_keys (map (by_str f) rs)) /\
  (forall k, In k (group_keys (map (by_str f) rs)) <->
             exists r, In r rs /\ by_str f r = Some k).
Proof.
  induction rs as [|r rs (IH1 & IH2 & IH3)]; cbn [map group_keys fold_right].
  - split; [constructor|]. split; [constructor|].
    intros k. split; [intros [] | intros (r & [] & _)].
  - fold (group_keys (map (by_str f) rs)).
    destruct (by_str f r) as [k|] eqn:E.
    + assert (Hk : is_str k).
      { unfold by_str in E. destruct (f r); [|discriminate].
        apply (inj Some) in E. subst k. exact I. }
      destruct (insert_key_str k _ Hk IH1 IH2) as (H1 & H2 & H3).
      split; [exact H1|]. split; [exact H2|].
      intros x. rewrite H3, IH3. split.
      * intros [-> | (r' & Hr' & Hx)].
        -- exists r. split; [left; reflexivity | exact E].
        -- exists r'. split; [right; exact Hr' | exact Hx].
      * intros (r' & [<- | Hr'] & Hx).
        -- left. congruence.
        -- right. exists r'. split; assumption.
    + split; [exact IH1|]. split; [exact IH2|].
      intros x. rewrite IH3. split.
      * intros (r' & Hr' & Hx). exists r'. split; [right; exact Hr' | exact Hx].
      * intros (r' & [<- | Hr'] & Hx); [congruence|].
        exists r'. split; assumption.
Qed.

Lemma keys_ascending_NoDup (ks : list label) :
  Forall is_str ks -> keys_ascending ks -> List.NoDup ks.
Proof.
  intros Hs Ha. unfold keys_ascending in Ha.
  induction Ha as [|k rest Hrest IH Hlt]; [constructor|].
  inversion Hs as [|? ? Hk Hs']; subst.
  constructor; [|apply IH; exact Hs'].
  intros Hin. rewrite List.Forall_forall in Hlt. specialize (Hlt k Hin).
  assert (E : label_compare k k = Eq) by (apply str_compare_eq; auto).
  congruence.
Qed.

(** ** The Margin routine *)

Lemma text_labels_app (a b : Text) :
  text_labels (a ++ b) = text_labels a ++ text_labels b.
Proof. unfold text_labels. apply flat_map_app. Qed.

Lemma map_snd_combine_seq {A} (l : list A) (start n : nat) :
  map snd (combine (seq start n) l) = firstn n l.
Proof.
  revert start l. induction n as [|n IH]; intros start [|a l]; simpl;
    try reflexivity.
  rewrite IH. reflexivity.
Qed.

Lemma profit_margin_of_not_nan (g : sums) : isnan (profit_margin_of g) = false.
Proof.
  unfold profit_margin_of, fillna0.
  destruct (isnan (around _ 2)) eqn:E; [reflexivity | exact E].
Qed.




(** ** The Inventory routine *)

Lemma inventory_rows_spec (df : DataFrame) (r : Row) :
  In r (inventory_rows df) <-> In r (rows df) /\ isnan (Inventory_Level r) = false.
Proof.
  unfold inventory_rows. rewrite filter_In, negb_true_iff. reflexivity.
Qed.

Lemma filter_map_length {A B} (f : A -> B) (p : B -> bool) (l : list A) :
  length (List.filter (fun a => p (f a)) l) = length (List.filter p (map f l)).
Proof.
  induction l as [|a l IH]; simpl; [reflexivity|].
  destruct (p (f a)); simpl; rewrite IH; reflexivity.
Qed.

(** The threshold and the count depend on the inventory values only. *)
Lemma low_stock_items_count_levels (l : list Row) :
  low_stock_items_count l =
  length (List.filter (fun x => fleb x (quantile (map Inventory_Level l) 1 4))
                      (map Inventory_Level l)).
Proof.
  unfold low_stock_items_count, low_stock_threshold.
  apply (filter_map_length Inventory_Level
           (fun x => fleb x (quantile (map Inventory_Level l) 1 4))).
Qed.



(* ================================================================== *)
(** * Further properties of the script and the routines *)
(* ================================================================== *)

(** ** The transcript across runs *)

Lemma is_user_assistant_message (response : Result) :
  is_user (assistant_message response) = false.
Proof.
  unfold is_user, assistant_message. rewrite lookup_insert_eq. reflexivity.
Qed.

Lemma is_user_welcome_message (df : DataFrame) :
  is_user (welcome_message df) = false.
Proof.
  unfold is_user, welcome_message. rewrite lookup_insert_eq. reflexivity.
Qed.

Lemma same_turn_refl (m : gmap string pyval) : same_turn m m.
Proof. split; reflexivity. Qed.

Lemma same_turn_trans (a b c : gmap string pyval) :
  same_turn a b -> same_turn b c -> same_turn a c.
Proof. unfold same_turn. intros [H1 H2] [H3 H4]. split; congruence. Qed.

Lemma same_turn_delete (k : string) (m : gmap string pyval) :
  k <> "role" -> k <> "content" -> same_turn m (delete k m).
Proof.
  intros H1 H2. unfold same_turn. rewrite !lookup_delete_ne by congruence.
  split; reflexivity.
Qed.

Lemma keeps_turns_refl (l : list (gmap string pyval)) : keeps_turns l l.
Proof.
  split; [lia|]. intros i m H. exists m. split; [exact H | apply same_turn_refl].
Qed.

Lemma keeps_turns_trans (a b c : list (gmap string pyval)) :
  keeps_turns a b -> keeps_turns b c -> keeps_turns a c.
Proof.
  intros [L1 H1] [L2 H2]. split; [lia|].
  intros i m Hm. destruct (H1 i m Hm) as (m1 & Hm1 & S1).
  destruct (H2 i m1 Hm1) as (m2 & Hm2 & S2).
  exists m2. split; [exact Hm2 | eapply same_turn_trans; eassumption].
Qed.

Lemma keeps_turns_app (l extra : list (gmap string pyval)) :
  keeps_turns l (l ++ extra).
Proof.
  split; [rewrite length_app; lia|].
  intros i m H. exists m. split; [|apply same_turn_refl].
  rewrite lookup_app_l; [exact H|]. eapply lookup_lt_Some; exact H.
Qed.

Lemma keeps_turns_alter_delete (k : string) (i : nat) (l : list (gmap string pyval)) :
  k <> "role" -> k <> "content" -> keeps_turns l (alter (delete k) i l).
Proof.
  intros H1 H2. split; [rewrite length_alter; lia|].
  intros j m Hm. destruct (decide (i = j)) as [->|Hne].
  - exists (delete k m). split; [|apply same_turn_delete; assumption].
    rewrite list_lookup_alter_eq, Hm. reflexivity.
  - exists m. split; [|apply same_turn_refl].
    rewrite list_lookup_alter_ne by exact Hne. exact Hm.
Qed.

Lemma respond_keeps_turns (st st' : session) :
  respond st = Ok st' ->
  keeps_turns (messages st) (messages st') /\ data st' = data st.
Proof.
  unfold respond. destruct (last (messages st)) as [m|];
    [|intros H; apply Ok_inj in H; subst; split; [apply keeps_turns_refl|reflexivity]].
  destruct (is_user m);
    [|intros H; apply Ok_inj in H; subst; split; [apply keeps_turns_refl|reflexivity]].
  match goal with
  | |- rbind ?a _ = _ -> _ => destruct a as [response|]; [|discriminate]
  end.
  unfold rbind. destruct (_ <? 2)%nat; [discriminate|].
  intros H. apply Ok_inj in H. subst st'. cbn [messages data].
  split; [|reflexivity].
  eapply keeps_turns_trans; [apply keeps_turns_app|].
  eapply keeps_turns_trans; apply keeps_turns_alter_delete; discriminate.
Qed.

Lemma run_intake (inp : inputs) (st : session) :
  run inp st =
  (st' <- respond (intake inp st) ;;
   match data st' with
   | None => Ok st'
   | Some df =>
       if forallb is_user (messages st')
       then Ok (append (welcome_message df) st') else Ok st'
   end).
Proof. reflexivity. Qed.

Lemma intake_keeps_turns (inp : inputs) (st : session) :
  keeps_turns (messages st) (messages (intake inp st)) /\
  data (intake inp st) = table_in_force inp st.
Proof.
  unfold intake, table_in_force.
  set (st0 := match uploaded_file inp with
              | Some df => {| messages := messages st; data := Some df |}
              | None => st
              end).
  assert (H0 : messages st0 = messages st /\
               data st0 = match uploaded_file inp with
                          | Some df => Some df
                          | None => data st
                          end).
  { unfold st0. destruct (uploaded_file inp); split; reflexivity. }
  destruct H0 as [M0 D0]. rewrite <- M0, <- D0. clearbody st0. clear M0 D0.
  cbv zeta.
  set (st1 := match data st0, pressed inp with
              | Some df, Some i =>
                  match nth_error buttons i with
                  | Some (needed, question) =>
                      if forallb (has_column df) needed
                      then append (user_message question) st0 else st0
                  | None => st0
                  end
              | _, _ => st0
              end).
  assert (H1 : keeps_turns (messages st0) (messages st1) /\ data st1 = data st0).
  { unfold st1. destruct (data st0) as [df|] eqn:E0, (pressed inp) as [i|];
      try (split; [apply keeps_turns_refl | congruence]).
    destruct (nth_error buttons i) as [[needed question]|];
      [|split; [apply keeps_turns_refl | congruence]].
    destruct (forallb (has_column df) needed);
      (split; [|cbn [append data]; congruence]);
      [apply keeps_turns_app | apply keeps_turns_refl]. }
  destruct H1 as [K1 D1]. clearbody st1.
  destruct (data st1) as [df|] eqn:E1, (user_input inp) as [q|];
    try (split; [exact K1 | congruence]).
  destruct (String.eqb q ""); [split; [exact K1 | congruence]|].
  split; [|cbn [append data]; congruence].
  eapply keeps_turns_trans; [exact K1 | apply keeps_turns_app].
Qed.

(** X5: A run never removes or rewrites a turn: every message of the
    transcript is still in its place afterwards, with the same role and
    the same content, and the table of the session is the one in force. *)
Theorem run_keeps_turns (inp : inputs) (st st' : session) :
  run inp st = Ok st' ->
  keeps_turns (messages st) (messages st') /\
  data st' = table_in_force inp st.
Proof.
  rewrite run_intake. intros H.
  destruct (respond (intake inp st)) as [st2|] eqn:E; [|discriminate].
  cbn [rbind] in H.
  destruct (respond_keeps_turns _ _ E) as [K2 D2].
  destruct (intake_keeps_turns inp st) as [K1 D1].
  assert (K : keeps_turns (messages st) (messages st2))
    by (eapply keeps_turns_trans; eassumption).
  destruct (data st2) as [df|] eqn:E2.
  - destruct (forallb is_user (messages st2)); apply Ok_inj in H; subst st'.
    + cbn [append messages data]. split; [|congruence].
      eapply keeps_turns_trans; [exact K | apply keeps_turns_app].
    + split; [exact K | congruence].
  - apply Ok_inj in H. subst st'. split; [exact K | congruence].
Qed.

Lemma run_keeps_turns_witness :
  exists st',
    run (mk_inputs (Some sample_df) None (Some "revenue by region"))
        initial_session = Ok st' /\
    keeps_turns (messages initial_session) (messages st') /\
    data st' = Some sample_df.
Proof.
  assert (E : exists st',
             run (mk_inputs (Some sample_df) None (Some "revenue by region"))
                 initial_session = Ok st').
  { eexists. vm_compute. reflexivity. }
  destruct E as [st' E]. exists st'. split; [exact E|].
  exact (run_keeps_turns _ _ _ E).
Defined.

(** The answering step on a transcript that ends with a question. *)
Lemma respond_question (pre : list (gmap string pyval)) (m : gmap string pyval)
    (d : option DataFrame) :
  is_user m = true ->
  respond {| messages := pre ++ [m]; data := d |} =
  (response <-
     match m !! "content", d with
     | Some (VStr latest_question), Some df => analyze_question latest_question df
     | _, _ => Raise AttributeError
     end ;;
   Ok {| messages := pre ++ [delete "dataframe" (delete "chart" m);
                             assistant_message response];
         data := d |}).
Proof.
  intros Hu. unfold respond. cbn [messages data].
  rewrite last_snoc, Hu.
  match goal with
  | |- rbind ?a _ = _ => destruct a as [response|]; [|reflexivity]
  end.
  cbn [rbind].
  rewrite !length_app. cbn [length].
  replace (length pre + 1 + 1 <? 2)%nat with false
    by (symmetry; apply Nat.ltb_ge; lia).
  replace (length pre + 1 + 1 - 2)%nat with (length pre + 0)%nat by lia.
  rewrite <- app_assoc. cbn [app].
  rewrite !alter_app_r. cbn [alter list_alter].
  reflexivity.
Qed.

(** ... and on one that does not. *)
Lemma respond_answered (st : session) :
  answered (messages st) -> respond st = Ok st.
Proof.
  intros H. unfold respond. destruct (last (messages st)) as [m|] eqn:E;
    [|reflexivity].
  rewrite (H m E). reflexivity.
Qed.

Lemma respond_ends_answered (st st' : session) :
  respond st = Ok st' -> answered (messages st').
Proof.
  intros H. destruct (last (messages st)) as [m|] eqn:E.
  - destruct (is_user m) eqn:Hu.
    + apply last_Some in E. destruct E as [pre E]. destruct st as [msgs d].
      cbn [messages] in E. subst msgs.
      rewrite (respond_question pre m d Hu) in H.
      match type of H with
      | rbind ?a _ = _ => destruct a as [response|]; [|discriminate]
      end.
      cbn [rbind] in H. apply Ok_inj in H. subst st'. cbn [messages].
      intros m' Hm'.
      change (pre ++ [delete "dataframe" (delete "chart" m);
                      assistant_message response])
        with (pre ++ [delete "dataframe" (delete "chart" m)] ++
                     [assistant_message response]) in Hm'.
      rewrite app_assoc, last_snoc in Hm'. apply (inj Some) in Hm'. subst m'.
      apply is_user_assistant_message.
    + unfold respond in H. rewrite E, Hu in H. apply Ok_inj in H. subst st'.
      intros m' Hm'. congruence.
  - unfold respond in H. rewrite E in H. apply Ok_inj in H. subst st'.
    intros m' Hm'. congruence.
Qed.

Lemma run_ends_answered (inp : inputs) (st st' : session) :
  run inp st = Ok st' -> answered (messages st').
Proof.
  rewrite run_intake. intros H.
  destruct (respond (intake inp st)) as [st2|] eqn:E; [|discriminate].
  cbn [rbind] in H. pose proof (respond_ends_answered _ _ E) as A.
  destruct (data st2) as [df|]; [|apply Ok_inj in H; subst; exact A].
  destruct (forallb is_user (messages st2)); apply Ok_inj in H; subst st';
    [|exact A].
  cbn [append messages]. intros m Hm. rewrite last_snoc in Hm.
  apply (inj Some) in Hm. subst m. apply is_user_welcome_message.
Qed.

(** What the first part of a run leaves: the session as it was, with the
    table in force, or one more message, which is a question that was
    asked while a table is loaded. *)
Lemma intake_cases (inp : inputs) (st : session) :
  intake inp st = {| messages := messages st; data := table_in_force inp st |} \/
  exists pre q df,
    table_in_force inp st = Some df /\ asked inp df q /\
    intake inp st = {| messages := pre ++ [user_message q]; data := Some df |}.
Proof.
  unfold intake, table_in_force, asked.
  set (st0 := match uploaded_file inp with
              | Some df => {| messages := messages st; data := Some df |}
              | None => st
              end).
  assert (H0 : st0 = {| messages := messages st;
                        data := match uploaded_file inp with
                                | Some df => Some df
                                | None => data st
                                end |}).
  { unfold st0. destruct (uploaded_file inp); [reflexivity|].
    destruct st; reflexivity. }
  clearbody st0. subst st0. cbn [data].
  destruct (match uploaded_file inp with
            | Some df => Some df
            | None => data st
            end) as [df|]; [|destruct (pressed inp); left; reflexivity].
  destruct (user_input inp) as [q|] eqn:Eq.
  - destruct (String.eqb q "") eqn:Ee.
    + destruct (pressed inp) as [i|]; [|left; reflexivity].
      destruct (nth_error buttons i) as [[needed question]|] eqn:En;
        [|left; reflexivity].
      destruct (forallb (has_column df) needed) eqn:Ef; [|left; reflexivity].
      right. exists (messages st), question, df.
      split; [reflexivity|]. split; [|reflexivity].
      right. exists i, needed. repeat split; assumption.
    + right.
      assert (Hq : q <> "") by (apply String.eqb_neq; exact Ee).
      destruct (pressed inp) as [i|].
      * destruct (nth_error buttons i) as [[needed question]|].
        -- destruct (forallb (has_column df) needed).
           ++ exists (messages st ++ [user_message question]), q, df.
              split; [reflexivity|]. split; [|reflexivity].
              left. split; [reflexivity | exact Hq].
           ++ exists (messages st), q, df.
              split; [reflexivity|]. split; [|reflexivity].
              left. split; [reflexivity | exact Hq].
        -- exists (messages st), q, df.
           split; [reflexivity|]. split; [|reflexivity].
           left. split; [reflexivity | exact Hq].
      * exists (messages st), q, df.
        split; [reflexivity|]. split; [|reflexivity].
        left. split; [reflexivity | exact Hq].
  - destruct (pressed inp) as [i|]; [|left; reflexivity].
    destruct (nth_error buttons i) as [[needed question]|] eqn:En;
      [|left; reflexivity].
    destruct (forallb (has_column df) needed) eqn:Ef; [|left; reflexivity].
    right. exists (messages st), question, df.
    split; [reflexivity|]. split; [|reflexivity].
    right. exists i, needed. repeat split; assumption.
Qed.

Lemma run_session_ok (inp : inputs) (st st' : session) :
  session_ok st -> run inp st = Ok st' -> session_ok st'.
Proof.
  intros (Hnone & _ & _) H.
  pose proof (run_ends_answered _ _ _ H) as A.
  rewrite run_intake in H.
  destruct (respond (intake inp st)) as [st2|] eqn:E; [|discriminate].
  cbn [rbind] in H.
  destruct (respond_keeps_turns _ _ E) as [_ D2].
  destruct (data st2) as [df|] eqn:E2.
  - destruct (forallb is_user (messages st2)) eqn:Ef;
      apply Ok_inj in H; subst st'.
    + split; [cbn [append data]; congruence|]. split; [|exact A].
      intros _ _. cbn [append messages]. rewrite forallb_app, Ef.
      cbn [forallb]. rewrite is_user_welcome_message. reflexivity.
    + split; [congruence|]. split; [|exact A]. intros _ _. exact Ef.
  - apply Ok_inj in H. subst st'. split; [|split; [congruence | exact A]].
    intros _.
    destruct (intake_cases inp st) as [Hi | (pre & q & df & Ht & _ & Hi)].
    + rewrite Hi in E, D2. cbn [data] in D2.
      assert (Hd : data st = None).
      { unfold table_in_force in D2. destruct (uploaded_file inp); congruence. }
      rewrite (Hnone Hd) in E.
      rewrite respond_answered in E by (intros m Hm; discriminate).
      apply Ok_inj in E. subst st2. reflexivity.
    + rewrite Hi in D2. cbn [data] in D2. congruence.
Qed.

Lemma initial_session_ok : session_ok initial_session.
Proof.
  split; [reflexivity|]. split; [discriminate|]. intros m Hm. discriminate.
Qed.

(** X6: In every session the script reaches from the start through runs
    that return, whatever was uploaded, pressed and typed: while no table
    is loaded the transcript is empty; once one is loaded the transcript
    holds an assistant message; and no question is left without the
    answer behind it. *)
Theorem reachable_session_ok (inps : list inputs) (st : session) :
  runs inps initial_session = Ok st -> session_ok st.
Proof.
  generalize initial_session_ok. generalize initial_session.
  induction inps as [|inp rest IH]; intros st0 Hok H.
  - apply Ok_inj in H. subst. exact Hok.
  - cbn [runs] in H. destruct (run inp st0) as [st1|] eqn:E; [|discriminate].
    cbn [rbind] in H. eapply IH; [|exact H].
    eapply run_session_ok; eassumption.
Qed.

Lemma reachable_session_ok_witness :
  exists st,
    runs [mk_inputs None None (Some "revenue by region");
          mk_inputs (Some sample_df) None None;
          mk_inputs (Some sample_df) (Some 2%nat) None]
         initial_session = Ok st /\
    session_ok st.
Proof.
  assert (E : exists st,
             runs [mk_inputs None None (Some "revenue by region");
                   mk_inputs (Some sample_df) None None;
                   mk_inputs (Some sample_df) (Some 2%nat) None]
                  initial_session = Ok st).
  { eexists. vm_compute. reflexivity. }
  destruct E as [st E]. exists st. split; [exact E|].
  exact (reachable_session_ok _ _ E).
Defined.

(** X7: A run fails only when the analysis of a question it was sent fails,
    and then with that exception: on a transcript that does not end with
    a question the script's own steps (reading the last message, the
    answer's place at index -2, the welcome message) never raise, and a
    run without a question always succeeds. *)
Theorem run_raises_analysis_error (inp : inputs) (st : session) (e : exn) :
  answered (messages st) ->
  run inp st = Raise e ->
  exists q df,
    table_in_force inp st = Some df /\ asked inp df q /\
    analyze_question q df = Raise e.
Proof.
  intros A H. rewrite run_intake in H.
  destruct (respond (intake inp st)) as [st2|] eqn:E.
  - cbn [rbind] in H. destruct (data st2); [|discriminate].
    destruct (forallb is_user (messages st2)); discriminate.
  - cbn [rbind] in H. apply (f_equal (fun r => match r with
                                                | Raise x => x
                                                | Ok _ => e
                                                end)) in H.
    cbn in H. subst e0.
    destruct (intake_cases inp st) as [Hi | (pre & q & df & Ht & Hq & Hi)].
    + rewrite Hi, respond_answered in E by exact A. discriminate.
    + exists q, df. split; [exact Ht|]. split; [exact Hq|].
      rewrite Hi, respond_question in E by apply is_user_user_message.
      rewrite user_message_content in E.
      destruct (analyze_question q df) as [response|e']; [discriminate|].
      cbn [rbind] in E. congruence.
Qed.

Lemma run_raises_analysis_error_witness :
  exists e,
    run (mk_inputs (Some region_revenue_df) (Some 0%nat) None) initial_session
      = Raise e /\
    exists q df,
      table_in_force (mk_inputs (Some region_revenue_df) (Some 0%nat) None)
                     initial_session = Some df /\
      asked (mk_inputs (Some region_revenue_df) (Some 0%nat) None) df q /\
      analyze_question q df = Raise e.
Proof.
  eexists. split; [vm_compute; reflexivity|].
  apply (run_raises_analysis_error
           (mk_inputs (Some region_revenue_df) (Some 0%nat) None)
           initial_session).
  - intros m Hm. discriminate.
  - vm_compute. reflexivity.
Defined.

Lemma intake_question (inp : inputs) (st : session) (df : DataFrame) (q : string) :
  table_in_force inp st = Some df -> one_question inp -> asked inp df q ->
  intake inp st =
  {| messages := messages st ++ [user_message q]; data := Some df |}.
Proof.
  unfold intake, table_in_force, asked, one_question. intros Ht Hone Hq.
  set (st0 := match uploaded_file inp with
              | Some df => {| messages := messages st; data := Some df |}
              | None => st
              end).
  assert (H0 : st0 = {| messages := messages st; data := Some df |}).
  { unfold st0. destruct (uploaded_file inp); [congruence|].
    destruct st; cbn [data messages] in *. congruence. }
  clearbody st0. subst st0. cbn [data].
  destruct Hq as [[Hu Hne] | (i & needed & Hp & Hn & Hf)].
  - destruct Hone as [Hp | Hu']; [|congruence].
    rewrite Hp, Hu. apply String.eqb_neq in Hne. rewrite Hne. reflexivity.
  - destruct Hone as [Hp' | Hu]; [congruence|].
    rewrite Hp, Hn, Hf, Hu. reflexivity.
Qed.

(** X8: One question, from a button or from the chat input, while a table is
    loaded: the run appends the question and the answer of
    [analyze_question] on that table, in this order, and leaves every
    earlier message as it was; if the analysis raises, so does the run.
    No welcome message is added. *)
Theorem run_question (inp : inputs) (st : session) (df : DataFrame) (q : string) :
  table_in_force inp st = Some df -> one_question inp -> asked inp df q ->
  run inp st =
  (response <- analyze_question q df ;;
   Ok {| messages := messages st ++ [user_message q; assistant_message response];
         data := Some df |}).
Proof.
  intros Ht Hone Hq. rewrite run_intake, (intake_question _ _ _ _ Ht Hone Hq).
  destruct (analyze_question q df) as [response|e] eqn:E.
  - rewrite (respond_appends_only _ _ _ _ E). cbn [rbind data messages].
    rewrite forallb_app. cbn [forallb].
    rewrite is_user_assistant_message. cbn [andb]. rewrite !andb_false_r.
    reflexivity.
  - rewrite respond_question by apply is_user_user_message.
    rewrite user_message_content, E. reflexivity.
Qed.

Lemma run_question_witness :
  run (mk_inputs (Some sample_df) (Some 4%nat) None) initial_session =
  (response <- analyze_question "Show customer satisfaction analysis" sample_df ;;
   Ok {| messages := [] ++ [user_message "Show customer satisfaction analysis";
                            assistant_message response];
         data := Some sample_df |}).
Proof.
  apply (run_question (mk_inputs (Some sample_df) (Some 4%nat) None)
                      initial_session sample_df
                      "Show customer satisfaction analysis").
  - reflexivity.
  - right. reflexivity.
  - right. exists 4%nat, ["Customer_Satisfaction_Score"].
    split; [reflexivity|]. split; [reflexivity|]. vm_compute. reflexivity.
Defined.

(** ** The guards of the routines *)

Ltac has_columns df :=
  repeat (cbn [negb orb andb];
          match goal with
          | E : has_column df ?c = _ |- context [has_column df ?c] => rewrite E
          | |- context [has_column df (String ?a ?s)] =>
              destruct (has_column df (String a s)) eqn:?
          end).

(** X9: A routine whose guard fails answers with a message and nothing else:
    it returns normally, the text says which columns it requires, and
    there is no chart and no table.  This holds for the seven routines
    with a guard, and for the second guard of the Margin routine. *)
Theorem guard_soft_failure (i : intent) (df : DataFrame) :
  guards_pass i df = false ->
  exists t, routine i df = Ok (only_text t) /\ text_contains "requires" t = true.
Proof.
  destruct i; unfold guards_pass, guarded_columns, routine;
    [ unfold analyze_regional_performance
    | unfold analyze_monthly_trends
    | unfold analyze_profit_margins
    | unfold analyze_campaign_performance
    | unfold analyze_customer_satisfaction
    | unfold analyze_inventory
    | unfold analyze_category_performance
    | cbn [forallb andb]; discriminate ];
    cbn [forallb]; has_columns df; cbn [negb orb andb];
    intros H; try discriminate H;
    (eexists; split; [reflexivity | vm_compute; reflexivity]).
Qed.

Lemma guard_soft_failure_witness :
  exists t,
    routine Margin (mk_df ["Revenue"; "Profit"; "Units_Sold"] sample_rows)
      = Ok (only_text t) /\
    text_contains "requires" t = true.
Proof.
  apply (guard_soft_failure Margin
           (mk_df ["Revenue"; "Profit"; "Units_Sold"] sample_rows)).
  vm_compute. reflexivity.
Defined.

Lemma agg_sums_missing (df : DataFrame) (keyf : Row -> option label) :
  forallb (has_column df) aggregated_columns = false ->
  agg_sums df keyf =
  Raise (KeyError (List.filter (fun c => negb (has_column df c)) aggregated_columns)).
Proof.
  unfold agg_sums, require_columns, aggregated_columns.
  cbn [forallb List.filter].
  destruct (has_column df "Revenue"), (has_column df "Profit"),
    (has_column df "Units_Sold"); cbn [negb andb]; intros H;
    try discriminate H; reflexivity.
Qed.

Lemma agg_sums_present (df : DataFrame) (keyf : Row -> option label) :
  forallb (has_column df) aggregated_columns = true ->
  agg_sums df keyf =
  Ok (map (fun k =>
             let g := group keyf k (rows df) in
             {| key := k;
                Revenue_sum := around (group_sum (map Revenue g)) 2;
                Profit_sum := around (group_sum (map Profit g)) 2;
                Units_Sold_sum := around (group_sum (map Units_Sold g)) 2 |})
          (group_keys (map keyf (rows df)))).
Proof.
  unfold agg_sums, require_columns, aggregated_columns.
  cbn [forallb List.filter].
  destruct (has_column df "Revenue"), (has_column df "Profit"),
    (has_column df "Units_Sold"); cbn [negb andb]; intros H;
    try discriminate H; reflexivity.
Qed.

(** X10: The grouping routines read [Revenue], [Profit] and [Units_Sold], but
    none of them guards all three: on a table that passes the guard and
    lacks one of these columns the routine raises the [KeyError] of the
    aggregation, which names the columns that are missing. *)
Theorem unguarded_column_KeyError (i : intent) (df : DataFrame) :
  aggregates i = true ->
  guards_pass i df = true ->
  forallb (has_column df) aggregated_columns = false ->
  routine i df =
  Raise (KeyError (List.filter (fun c => negb (has_column df c)) aggregated_columns)).
Proof.
  intros Ha Hg Hm.
  destruct i; try discriminate Ha; clear Ha; revert Hg;
    unfold guards_pass, guarded_columns, routine;
    [ unfold analyze_regional_performance
    | unfold analyze_monthly_trends
    | unfold analyze_profit_margins
    | unfold analyze_campaign_performance
    | unfold analyze_category_performance ];
    rewrite !(agg_sums_missing df _ Hm); clear Hm;
    cbn [forallb]; has_columns df; cbn [negb orb andb];
    intros H; try discriminate H; reflexivity.
Qed.

Lemma unguarded_column_KeyError_witness :
  routine Campaign (mk_df ["Campaign_Name"; "Revenue"; "Profit"] sample_rows) =
  Raise (KeyError ["Units_Sold"]).
Proof.
  apply (unguarded_column_KeyError Campaign
           (mk_df ["Campaign_Name"; "Revenue"; "Profit"] sample_rows));
    vm_compute; reflexivity.
Defined.

(** X11: A table with a header and no rows (a CSV file of one line).  The
    grouping routines find no group and fail on the first or last entry
    of the empty index; the Summary fails in [idxmax] as soon as the
    table has [Revenue] and a [Region] or [Category_Department] column;
    the Inventory routine reports that there is no inventory data. *)
Theorem header_only_table (df : DataFrame) :
  rows df = [] ->
  (forall i, aggregates i = true -> guards_pass i df = true ->
             forallb (has_column df) aggregated_columns = true ->
             routine i df = Raise IndexError) /\
  (has_column df "Revenue" = true ->
   has_column df "Region" || has_column df "Category_Department" = true ->
   generate_summary df = Raise ValueError) /\
  (guards_pass Inventory df = true ->
   analyze_inventory df =
   Ok (only_text [Lit "No inventory data available for analysis."])).
Proof.
  intros Hrows. split; [|split].
  - intros i Ha Hg Hc.
    destruct i; try discriminate Ha; clear Ha; revert Hg;
      unfold guards_pass, guarded_columns, routine;
      [ unfold analyze_regional_performance
      | unfold analyze_monthly_trends
      | unfold analyze_profit_margins
      | unfold analyze_campaign_performance
      | unfold analyze_category_performance ];
      rewrite !(agg_sums_present df _ Hc), Hrows; clear Hc;
      cbn [forallb]; has_columns df; cbn [negb orb andb];
      intros H; try discriminate H; reflexivity.
  - unfold generate_summary, top_by_revenue. rewrite Hrows.
    intros ->. cbn [length Nat.eqb negb andb map group_keys fold_right].
    rewrite andb_false_r.
    destruct (has_column df "Region"), (has_column df "Category_Department");
      cbn [orb andb]; intros H; try discriminate H; reflexivity.
  - unfold guards_pass, guarded_columns, analyze_inventory, inventory_rows.
    rewrite Hrows. cbn [forallb]. has_columns df; cbn [negb orb andb];
      intros H; try discriminate H; reflexivity.
Qed.

Lemma header_only_table_witness :
  routine Category (mk_df all_columns []) = Raise IndexError /\
  generate_summary (mk_df all_columns []) = Raise ValueError /\
  analyze_inventory (mk_df all_columns []) =
  Ok (only_text [Lit "No inventory data available for analysis."]).
Proof.
  destruct (header_only_table (mk_df all_columns []) eq_refl) as (H1 & H2 & H3).
  split; [|split].
  - apply H1; vm_compute; reflexivity.
  - apply H2; vm_compute; reflexivity.
  - apply H3; vm_compute; reflexivity.
Defined.

(** ** The quick-question buttons *)

(** X12: Each button sends a question that the classifier routes to one
    routine, and the columns the button is offered for are the columns of
    that routine's guard.  So a pressed button is never answered with the
    message about the guard's columns; the Profit button can still meet
    the Margin routine's second guard. *)
Theorem button_reaches_its_routine (n : nat) (needed : list string) (question : string) :
  nth_error buttons n = Some (needed, question) ->
  exists i,
    guarded_columns i = needed /\
    (forall df, analyze_question question df = routine i df) /\
    (forall df, forallb (has_column df) needed = true -> i <> Margin ->
                guards_pass i df = true).
Proof.
  intros H.
  do 6 (destruct n as [|n];
        [apply (inj Some) in H; injection H as <- <-;
         match goal with
         | |- context [analyze_question ?q] =>
             let o := eval vm_compute in (first_match keyword_sets (Py.lower q)) in
             match o with
             | Some ?i =>
                 exists i; split; [reflexivity|]; split;
                 [intros df; rewrite analyze_question_dispatch;
                  change (first_match keyword_sets (Py.lower q))
                    with (Some i); reflexivity
                 |intros df Hc Hi; unfold guards_pass;
                  try (exfalso; apply Hi; reflexivity);
                  cbn [guarded_columns]; rewrite Hc; reflexivity]
             end
         end|]).
  destruct n; discriminate H.
Qed.

Lemma button_reaches_its_routine_witness :
  exists i,
    guarded_columns i = ["Profit"; "Revenue"] /\
    (forall df, analyze_question "Which products have the highest profit margins?" df
                = routine i df) /\
    (forall df, forallb (has_column df) ["Profit"; "Revenue"] = true -> i <> Margin ->
                guards_pass i df = true).
Proof.
  apply (button_reaches_its_routine 2). reflexivity.
Defined.

(** ** What a report carries *)

Ltac run_binds H :=
  repeat (cbn [rbind] in H;
          match type of H with
          | rbind ?a _ = Ok _ => destruct a; [|discriminate H]
          end).

(** X13: A routine other than the Summary that returns, returns a chart,
    except when its guard fails or, for the Inventory routine, when no
    row has an inventory level; and a result without a chart has no
    table either. *)
Theorem report_without_chart (i : intent) (df : DataFrame) (r : Result) :
  i <> Summary ->
  routine i df = Ok r ->
  (chart r = None <->
   guards_pass i df = false \/ (i = Inventory /\ inventory_rows df = [])) /\
  (chart r = None -> dataframe r = None).
Proof.
  intros Hi.
  destruct i; try (exfalso; apply Hi; reflexivity); clear Hi;
    unfold guards_pass, guarded_columns, routine;
    [ unfold analyze_regional_performance
    | unfold analyze_monthly_trends
    | unfold analyze_profit_margins
    | unfold analyze_campaign_performance
    | unfold analyze_customer_satisfaction
    | unfold analyze_inventory
    | unfold analyze_category_performance ];
    cbn [forallb]; has_columns df; cbn [negb orb andb];
    try (destruct (inventory_rows df) as [|r0 rest] eqn:Einv;
         cbn [length Nat.eqb]);
    intros H; run_binds H; apply Ok_inj in H; subst r;
    cbn [chart dataframe only_text];
    (split; [split|]);
    try discriminate; try reflexivity;
    try (intros _; left; reflexivity);
    try (intros _; right; split; reflexivity);
    try (intros [H|[H1 H2]]; discriminate).
Qed.

Lemma report_without_chart_witness :
  exists r,
    routine Inventory sample_df = Ok r /\
    (chart r = None <->
     guards_pass Inventory sample_df = false \/
     (Inventory = Inventory /\ inventory_rows sample_df = [])) /\
    (chart r = None -> dataframe r = None).
Proof.
  assert (E : exists r, routine Inventory sample_df = Ok r).
  { eexists. vm_compute. reflexivity. }
  destruct E as [r E]. exists r. split; [exact E|].
  apply (report_without_chart Inventory sample_df r); [discriminate | exact E].
Defined.

Section SortWithMissing.
Context {A : Type} (f : A -> float).

Lemma StronglySorted_app (R : A -> A -> Prop) (l1 l2 : list A) :
  StronglySorted R l1 -> StronglySorted R l2 ->
  (forall a b, In a l1 -> In b l2 -> R a b) ->
  StronglySorted R (l1 ++ l2).
Proof.
  intros H1 H2 H. induction H1 as [|a l1 H1 IH Ha]; cbn [app]; [exact H2|].
  constructor.
  - apply IH. intros x y Hx Hy. apply H; [right; exact Hx | exact Hy].
  - apply List.Forall_forall. intros x Hx. apply in_app_or in Hx.
    destruct Hx as [Hx | Hx].
    + rewrite List.Forall_forall in Ha. apply Ha. exact Hx.
    + apply H; [left; reflexivity | exact Hx].
Qed.

Lemma all_missing_sorted (l : list A) :
  Forall (fun a => isnan (f a) = true) l -> StronglySorted (not_above f) l.
Proof.
  induction 1 as [|a l Ha Hl IH]; constructor; [exact IH|].
  eapply Forall_impl; [exact Hl|]. intros b Hb. left. exact Hb.
Qed.

(** [sort_values(ascending=False)]: descending, with the missing values
    at the end. *)
Lemma sort_values_desc_not_above (l : list A) :
  StronglySorted (not_above f) (sort_values_desc f l).
Proof.
  unfold sort_values_desc.
  assert (Hp : Forall (fun a => isnan (f a) = false)
                      (List.filter (fun a => negb (isnan (f a))) l)).
  { apply List.Forall_forall. intros a Ha. apply filter_In in Ha.
    destruct Ha as [_ Ha]. apply negb_true_iff in Ha. exact Ha. }
  assert (Hm : Forall (fun a => isnan (f a) = true)
                      (List.filter (fun a => isnan (f a)) l)).
  { apply List.Forall_forall. intros a Ha. apply filter_In in Ha. apply Ha. }
  apply StronglySorted_app.
  - pose proof (fold_insert_desc_sorted f _ Hp) as Hs.
    assert (Hn : Forall (fun a => isnan (f a) = false)
                        (fold_right (insert_desc f) []
                           (List.filter (fun a => negb (isnan (f a))) l))).
    { eapply Permutation_Forall;
        [symmetry; apply fold_insert_desc_perm | exact Hp]. }
    revert Hn. induction Hs as [|a l' Hs IH Ha]; intros Hn; constructor.
    + apply IH. inversion Hn; assumption.
    + inversion Hn as [|? ? Na Nl]; subst.
      eapply Forall_impl; [exact Ha|]. intros b Hb. right.
      split; [exact Na | exact Hb].
  - apply all_missing_sorted. exact Hm.
  - intros a b _ Hb. left. rewrite List.Forall_forall in Hm. apply Hm. exact Hb.
Qed.
End SortWithMissing.

(** ** The Regional routine *)



(** ** The Monthly routine *)

Lemma fdiv_nan (x : float) : fdiv x nan = nan.
Proof. destruct x; reflexivity. Qed.

Lemma pct_change_first (x : float) (xs : list float) :
  exists rest,
    map (fun y => fmul y (of_Z 100)) (pct_change (x :: xs)) = nan :: rest /\
    length rest = length xs.
Proof.
  unfold pct_change. cbn [ffill_from ratios map].
  rewrite fdiv_nan. eexists. split; [reflexivity|].
  rewrite length_map.
  generalize (if isnan x then nan else x). revert xs.
  assert (L : forall xs p q, length (ratios q (ffill_from p xs)) = length xs).
  { induction xs as [|y ys IH]; intros p q; cbn [ffill_from ratios length];
      [reflexivity | rewrite IH; reflexivity]. }
  intros xs p. apply L.
Qed.

(** X15: The first month of the monthly table has no growth figure: its
    [Revenue_Growth] is NaN, since [pct_change] has nothing to compare it
    with.  When the data cover a single month, this NaN is the
    month-over-month growth that the report prints. *)
Theorem monthly_first_growth_missing (df : DataFrame) (r : Result) (table : Frame) :
  analyze_monthly_trends df = Ok r ->
  dataframe r = Some table ->
  exists first rest,
    frows table = first :: rest /\
    cell table first "Revenue_Growth" = Some nan /\
    (rest = [] -> In (FFloat ".1f" nan) (text r)).
Proof.
  intros Hrun Htable. unfold analyze_monthly_trends in Hrun.
  destruct (negb (has_column df "Date") || negb (has_column df "Revenue"));
    [apply Ok_inj in Hrun; subst r; discriminate|].
  destruct (agg_sums df by_month) as [monthly_data|]; [|discriminate].
  cbn [rbind] in Hrun.
  destruct monthly_data as [|g l]; [discriminate|].
  cbn [map] in Hrun.
  destruct (pct_change_first (Revenue_sum g) (map Revenue_sum l))
    as (growth & Eg & Hlen).
  rewrite Eg in Hrun. clear Eg. cbn [combine map] in Hrun.
  rewrite length_map in Hlen.
  destruct (last_row _) as [latest|] eqn:Elast; [|discriminate].
  cbn [rbind] in Hrun.
  destruct (idxmax _ _) as [best|]; [|discriminate].
  cbn [rbind] in Hrun. apply Ok_inj in Hrun. subst r.
  unfold dataframe in Htable. apply (inj Some) in Htable. subst table.
  cbn [frows fst snd].
  eexists _, _. split; [reflexivity|]. split; [reflexivity|].
  intros Hrest.
  destruct l as [|g' l]; [|destruct growth; discriminate].
  unfold last_row in Elast. cbn in Elast. apply Ok_inj in Elast. subst latest.
  cbn [text snd]. do 5 right. left. reflexivity.
Qed.

Lemma monthly_first_growth_missing_witness :
  exists r table first,
    analyze_monthly_trends sample_df = Ok r /\
    dataframe r = Some table /\
    frows table = [first] /\
    cell table first "Revenue_Growth" = Some nan /\
    In (FFloat ".1f" nan) (text r).
Proof.
  assert (Hrun : exists r, analyze_monthly_trends sample_df = Ok r /\
                           exists table, dataframe r = Some table /\
                                         length (frows table) = 1%nat).
  { eexists. split; [vm_compute; reflexivity|]. eexists.
    split; [reflexivity | vm_compute; reflexivity]. }
  destruct Hrun as (r & Hrun & table & Htable & Hlen).
  destruct (monthly_first_growth_missing sample_df r table Hrun Htable)
    as (first & rest & Hrows & Hcell & Htext).
  assert (Hrest : rest = []).
  { rewrite Hrows in Hlen. destruct rest; [reflexivity | discriminate]. }
  exists r, table, first.
  split; [exact Hrun|]. split; [exact Htable|].
  split; [rewrite Hrows, Hrest; reflexivity|].
  split; [exact Hcell | exact (Htext Hrest)].
Defined.

(** ** The Summary *)

Lemma date_min_None (ds : list (option date)) :
  date_min ds = None -> Forall (fun d => d = None) ds.
Proof.
  induction ds as [|[d|] ds IH]; cbn [date_min]; intros H.
  - constructor.
  - destruct (date_min ds) as [m|]; [destruct (date_leb d m)|]; discriminate.
  - constructor; [reflexivity | apply IH; exact H].
Qed.

Lemma date_max_None (ds : list (option date)) :
  date_max ds = None -> Forall (fun d => d = None) ds.
Proof.
  induction ds as [|[d|] ds IH]; cbn [date_max]; intros H.
  - constructor.
  - destruct (date_max ds) as [m|]; [destruct (date_leb m d)|]; discriminate.
  - constructor; [reflexivity | apply IH; exact H].
Qed.

Lemma date_min_all_None (ds : list (option date)) :
  Forall (fun d => d = None) ds -> date_min ds = None.
Proof.
  induction 1 as [|d ds Hd Hds IH]; [reflexivity|]. subst d. exact IH.
Qed.

Lemma top_by_revenue_raises (df : DataFrame) (keyf : Row -> option label) (e : exn) :
  top_by_revenue df keyf = Raise e -> e = ValueError.
Proof.
  unfold top_by_revenue, idxmax. destruct (argmax _ _); cbn [rbind]; congruence.
Qed.

(** X16: How the Summary can fail.  It has no guard and treats every column
    as optional, so a missing column never makes it fail.  It raises a
    [ValueError] when the table has rows and a [Date] column without a
    single valid date; and whenever it raises, the exception is a
    [ValueError] that comes from such a [Date] column or from the search
    for the best region or category, which needs the [Revenue] column. *)
Theorem summary_failures (df : DataFrame) :
  (has_column df "Date" = true -> rows df <> [] ->
   Forall (fun row => Date row = None) (rows df) ->
   generate_summary df = Raise ValueError) /\
  (forall e, generate_summary df = Raise e ->
     e = ValueError /\
     ((has_column df "Date" = true /\ rows df <> [] /\
       Forall (fun row => Date row = None) (rows df)) \/
      (has_column df "Revenue" = true /\
       (has_column df "Region" = true \/
        has_column df "Category_Department" = true)))).
Proof.
  split.
  - intros Hd Hrows Hall. unfold generate_summary. rewrite Hd.
    destruct (rows df) as [|row0 rest] eqn:E; [congruence|].
    cbn [length Nat.eqb negb andb].
    rewrite date_min_all_None by (apply Forall_map; exact Hall).
    reflexivity.
  - intros e H. unfold generate_summary in H.
    destruct (has_column df "Date" && negb (length (rows df) =? 0)%nat) eqn:Ed.
    + apply andb_true_iff in Ed. destruct Ed as [Ed Hn].
      destruct (date_min (map Date (rows df))) as [lo|] eqn:Emin.
      * destruct (date_max (map Date (rows df))) as [hi|] eqn:Emax.
        -- cbn [rbind] in H. revert H.
           destruct (has_column df "Revenue");
             [|rewrite !andb_false_r; cbn [rbind]; discriminate].
           destruct (has_column df "Region"), (has_column df "Category_Department");
             cbn [andb rbind];
             repeat match goal with
                    | |- context [top_by_revenue df ?k] =>
                        let E := fresh "E" in
                        destruct (top_by_revenue df k) eqn:E; cbn [rbind]
                    end;
             intros H; try discriminate H;
             apply (f_equal (fun x => match x with Raise y => y | Ok _ => e end)) in H;
             cbn in H; subst;
             (split; [eapply top_by_revenue_raises; eassumption|]);
             right; split; auto.
        -- cbn [rbind] in H. split; [congruence|]. left.
           split; [exact Ed|]. split.
           ++ intros Hr. rewrite Hr in Hn. discriminate.
           ++ apply date_max_None in Emax. rewrite Forall_map in Emax. exact Emax.
      * cbn [rbind] in H. split; [congruence|]. left.
        split; [exact Ed|]. split.
        ++ intros Hr. rewrite Hr in Hn. discriminate.
        ++ apply date_min_None in Emin. rewrite Forall_map in Emin. exact Emin.
    + cbn [rbind] in H. revert H.
      destruct (has_column df "Revenue");
        [|rewrite !andb_false_r; cbn [rbind]; discriminate].
      destruct (has_column df "Region"), (has_column df "Category_Department");
        cbn [andb rbind];
        repeat match goal with
               | |- context [top_by_revenue df ?k] =>
                   let E := fresh "E" in
                   destruct (top_by_revenue df k) eqn:E; cbn [rbind]
               end;
        intros H; try discriminate H;
        apply (f_equal (fun x => match x with Raise y => y | Ok _ => e end)) in H;
        cbn in H; subst;
        (split; [eapply top_by_revenue_raises; eassumption|]);
        right; split; auto.
Qed.

Lemma summary_failures_witness :
  generate_summary
    (mk_df ["Date"; "Units_Sold"]
       [mk_row None None None None None nan nan (of_Z 3) nan nan]) =
  Raise ValueError.
Proof.
  apply (proj1 (summary_failures
                  (mk_df ["Date"; "Units_Sold"]
                     [mk_row None None None None None nan nan (of_Z 3) nan nan]))).
  - reflexivity.
  - discriminate.
  - constructor; [reflexivity | constructor].
Defined.

(** ** Runs without a question *)

(** X17: A run in which no button is pressed and nothing is typed (the page
    is drawn again, or a file is chosen): the first table that is loaded
    is greeted with the welcome message, which gives its number of
    records; in every other case the transcript stays as it is.  The
    table of the session is the one in force. *)
Theorem run_without_question (inp : inputs) (st : session) :
  session_ok st -> pressed inp = None -> user_input inp = None ->
  run inp st =
  Ok {| messages :=
          match data st, table_in_force inp st with
          | None, Some df => [welcome_message df]
          | _, _ => messages st
          end;
        data := table_in_force inp st |}.
Proof.
  intros (Hnone & Hsome & Hans) Hp Hu. rewrite run_intake.
  assert (Hi : intake inp st =
               {| messages := messages st; data := table_in_force inp st |}).
  { unfold intake, table_in_force. rewrite Hp, Hu.
    destruct (uploaded_file inp) as [df|]; cbn [data].
    - reflexivity.
    - destruct st as [msgs [d|]]; reflexivity. }
  rewrite Hi, respond_answered by exact Hans. cbn [rbind data messages].
  destruct (table_in_force inp st) as [df|] eqn:Et.
  - destruct (data st) as [d|] eqn:Ed.
    + rewrite (Hsome d eq_refl). reflexivity.
    + rewrite (Hnone eq_refl). reflexivity.
  - destruct (data st) as [d|] eqn:Ed; [|reflexivity].
    unfold table_in_force in Et. rewrite Ed in Et.
    destruct (uploaded_file inp); discriminate.
Qed.

Lemma run_without_question_witness :
  run (mk_inputs (Some sample_df) None None) initial_session =
  Ok {| messages := [welcome_message sample_df]; data := Some sample_df |}.
Proof.
  apply (run_without_question (mk_inputs (Some sample_df) None None)
                              initial_session).
  - split; [reflexivity|]. split; [discriminate|]. intros m Hm. discriminate.
  - reflexivity.
  - reflexivity.
Defined.

(** ** The Satisfaction routine *)

Lemma insert_key_incl (k x : label) (ks : list label) :
  In x (insert_key k ks) -> x = k \/ In x ks.
Proof.
  induction ks as [|k' rest IH]; cbn [insert_key In].
  - intros [<- | []]. left. reflexivity.
  - destruct (label_compare k k'); cbn [In].
    + intros H. right. exact H.
    + intros [<- | H]; [left; reflexivity | right; exact H].
    + intros [<- | H]; [right; left; reflexivity|].
      destruct (IH H) as [-> | H']; [left; reflexivity | right; right; exact H'].
Qed.

Lemma group_keys_incl (keys : list (option label)) (k : label) :
  In k (group_keys keys) -> In (Some k) keys.
Proof.
  induction keys as [|[k'|] keys IH]; cbn [group_keys fold_right In].
  - intros [].
  - fold (group_keys keys). intros H. apply insert_key_incl in H.
    destruct H as [-> | H]; [left; reflexivity | right; apply IH; exact H].
  - fold (group_keys keys). intros H. right. apply IH. exact H.
Qed.

(** The scores that [value_counts] lists are scores of the column, and
    none of them is missing. *)
Lemma value_counts_scores (xs : list float) (sc : float * nat) :
  In sc (value_counts xs) -> In (fst sc) xs /\ isnan (fst sc) = false.
Proof.
  unfold value_counts. intros H. apply in_flat_map in H.
  destruct H as (k & Hk & Hsc). apply group_keys_incl in Hk.
  apply in_map_iff in Hk. destruct Hk as (x & Ex & Hx).
  apply (inj Some) in Ex. subst k. cbn [In] in Hsc.
  destruct Hsc as [<- | []]. cbn [fst].
  apply filter_In in Hx. destruct Hx as [Hx Hn].
  split; [exact Hx | apply negb_true_iff; exact Hn].
Qed.

(** X18: Missing scores never break the satisfaction report: [value_counts]
    drops them before [int(score)] is taken.  On a table with the score
    column in which no score is infinite, the routine returns, with a
    chart. *)
Theorem satisfaction_returns (df : DataFrame) :
  has_column df "Customer_Satisfaction_Score" = true ->
  Forall (fun row => not_infinite (Customer_Satisfaction_Score row)) (rows df) ->
  exists r, analyze_customer_satisfaction df = Ok r /\ chart r <> None.
Proof.
  intros Hc Hfin. unfold analyze_customer_satisfaction. rewrite Hc.
  cbn [negb]. cbv zeta.
  destruct (has_column df "Region"); [eexists; split; [reflexivity | discriminate]|].
  assert (Hcounts : Forall (fun sc : float * nat =>
                              exists z, int_of_float (fst sc) = Ok z)
                           (value_counts (map Customer_Satisfaction_Score (rows df)))).
  { apply List.Forall_forall. intros sc Hsc. apply value_counts_scores in Hsc.
    destruct Hsc as [Hin Hnan]. apply in_map_iff in Hin.
    destruct Hin as (row & Erow & Hrow).
    rewrite List.Forall_forall in Hfin. specialize (Hfin row Hrow).
    rewrite Erow in Hfin.
    destruct (fst sc) as [s|s| |s m e]; try (eexists; reflexivity);
      [destruct Hfin | discriminate Hnan]. }
  match goal with
  | |- exists r, rbind ?a _ = _ /\ _ =>
      assert (Hlines : exists lines, a = Ok lines)
  end.
  { induction Hcounts as [|sc counts (z & Hz) Hcounts IH]; cbn [fold_right].
    - eexists. reflexivity.
    - destruct IH as (lines & ->). rewrite Hz. cbn [rbind].
      eexists. reflexivity. }
  destruct Hlines as (lines & ->). cbn [rbind].
  eexists. split; [reflexivity | discriminate].
Qed.

Lemma satisfaction_returns_witness :
  exists r,
    analyze_customer_satisfaction
      (mk_df ["Customer_Satisfaction_Score"]
         [mk_row None None None None None nan nan nan nan (of_Z 4);
          mk_row None None None None None nan nan nan nan nan]) = Ok r /\
    chart r <> None.
Proof.
  apply (satisfaction_returns
           (mk_df ["Customer_Satisfaction_Score"]
              [mk_row None None None None None nan nan nan nan (of_Z 4);
               mk_row None None None None None nan nan nan nan nan])).
  - reflexivity.
  - repeat constructor.
Defined.

End PromptSpec.
